(* ===== verification/_CoqProject ===== *)
-Q . S2P
Prelude.v
Unicode.v
PyStr.v
PyObj.v
Config.v
FfmpegCmd.v
Fs.v
FsWf.v
RunFfmpeg.v
Handler.v
Protocol.v
Cleanup.v
Transfer.v
Wellformed.v
Outcome.v
