(* ===== verification/Prelude.v ===== *)
(** * A verification development of lamda_ffmpeg_transcoder

    The program is one AWS Lambda module, src/lambda_function.py.  Its
    handler [lambda_handler] reads an S3 upload notification, rejects a
    key whose extension is not allowed (400), removes stale local staging
    paths, downloads the object to [/tmp/{stem}{ext}], runs
    [run_ffmpeg_dash] (which creates [/tmp/{stem}_dash_output], builds an
    ffmpeg command line and runs it as a subprocess), uploads every
    regular file of the output directory to the bucket
    [manifestdatabucket] under [dash/{stem}/], answers 200, and in a
    [finally] clause removes both staging paths.  Every exception ends in
    the outer [except] as a 500 answer.

    ** Files, in dependency order

    - Prelude.v (this file): the scope [py_scope], [str()] of integers,
      string lemmas, and the state-and-exception monad [M S E A = S ->
      outcome E A * S] with [mret], [mraise], [mbind] (notation
      [x <- m ;; k], [m ;;; k]), [try_except], [try_finally] and the
      loop [mfor], which is how every Python statement that can raise is
      written.  [returns] and [preserves] are the postcondition and the
      state invariant of a computation, with their composition lemmas in
      the hint database [pymonad]; [hoare P m Q R] is the Hoare triple
      of the monad, with one rule per combinator.
    - Unicode.v: a Python [str] is kept as its UTF-8 bytes; this file
      has CPython's UTF-8 decoder ([utf8_decode_raw], one [None] per
      maximal ill-formed subpart, U+FFFD under [errors='replace']), the
      encoder, and the character tables of [str.lower] ([lower_runs],
      [lower_cp]), of its final-sigma rule ([cased_ranges],
      [case_ignorable_ranges], [final_sigma]: a capital sigma after a
      cased letter and not before one lowers to U+03C2) and of
      [str.isprintable] ([nonprintable_ranges]), generated from CPython
      3.11's [unicodedata] (Unicode 14.0.0); [lower_str] is
      [str.lower] on a sequence of code points.
    - PyStr.v: [str.lower] (decode, [lower_str], encode),
      [str.join], [str.split], [str.rfind],
      [PurePosixPath.name/suffix/stem], [unquote_plus] (its ['%'] fast
      path, then each maximal ASCII run percent-decoded and decoded as
      UTF-8 with ['replace'], other characters kept) and [repr] of a
      [str] with CPython's escapes.
    - PyObj.v: the event as a JSON value, Python subscripting with its
      [KeyError]/[IndexError]/[TypeError], the exceptions that reach the
      handler and [str(e)] of each.
    - Config.v: [ALLOWED_EXTENSIONS] (a [gset]) and the order it prints
      in ([set_order]: a permutation of its elements chosen by the
      interpreter's hash seed, every permutation arising from some
      seed), [RESOLUTIONS], [AUDIO_BITRATES] (a [gmap]) and its [.get]
      with fallback.
    - FfmpegCmd.v: lines 38-91, the loop with its three accumulator
      lists ([loop_body], [ffmpeg_loop]), the check that raises
      [ValueError] and the argument vector ([build_command]); also how
      ffmpeg reads an argument vector ([ffmpeg_parse]).
    - Fs.v: the world.  [state] is the filesystem (a [gmap] from absolute
      path to [NFile data] or [NDir mode]), the S3 objects uploaded (each
      with its source path, content type and bytes), and the trace of
      external calls; [world] holds the answers of the outside (download
      and upload failures, the bytes of the source object, what ffmpeg
      does with a command and the bytes of its [-i] input, removal
      failures, the umask, the hash seed).  The
      library calls [Path.exists/is_file/iterdir/mkdir], [os.remove],
      [os.chmod], [shutil.rmtree], [s3.download_file/upload_file] and
      [subprocess.run] are operations of the monad on this state.
    - FsWf.v: per operation, that the filesystem stays a tree
      ([tree_ok], decided by [tree_okb]), which paths it may change
      ([writes]), and that its outcome depends on the filesystem only
      ([fs_only]).
    - RunFfmpeg.v: [run_ffmpeg_dash] (lines 30-104) and its behaviour on
      every branch.
    - Handler.v: [lambda_handler] (lines 107-194): [parse_event],
      [handle_key], [process] (the inner [try] body), [upload_outputs],
      [cleanup] (the [finally] clause) and [error_response].
    - Protocol.v: the specification's state machine as a step relation
      on phases, fed by the trace of external calls (with an executable
      check [run_phases] equivalent to it), and a Hoare logic on the
      trace ([htr]) that shows every run of the handler to be a path of
      the machine, from which the order of the external calls follows.
    - Cleanup.v: the staging-path invariant and what the pre-clean and
      the [finally] clause leave.
    - Transfer.v: the inner [try] step by step, the end-to-end theorems,
      and the witnesses on the sample event [videos/clip.MP4].
    - Wellformed.v: the per-operation facts of FsWf.v composed along
      [handle_key]: only staging paths change, and a repeated invocation
      answers the same (with the tree shape kept as a lemma).
    - Outcome.v: what the caller and the object store see: the
      [finally] clause never changes the outcome, the files of a 200
      answer were all uploaded, and the abstract [contract] of the
      design's section 4.2 that [lambda_handler] refines.

    ** What is proved

    - The handler's contract: it always answers, with 200, 400 or 500
      (Handler.v); an unsupported extension gives 400 with no effect; an
      unreadable event gives 500 after one printed line.  For each way a
      run can go (Transfer.v) the response, the trace of external calls,
      the uploaded objects and the filesystem left are given exactly: a
      successful run answers 200 listing each regular file ffmpeg wrote
      once, uploads each to the output bucket with its content type and
      exactly the bytes ffmpeg produced from the source object's bytes,
      and leaves the filesystem as it was outside the staging paths; a
      failed
      download, a non-zero ffmpeg exit (500 with its standard error) and
      a failed upload (500, earlier uploads kept) each answer 500 and
      remove the staging paths.
    - Cleanup: when the stale paths have the right kind, neither staging
      path exists when the handler returns, and leftovers of an earlier
      run do not change the result (Cleanup.v).  When they have the wrong
      kind (a directory at the input path, a file at the output path) the
      handler answers 500 before the [try/finally] and the path stays:
      the cleanup guarantee of the specification fails there.
    - The order of external calls (Protocol.v), in every world and
      whatever fails: at most one download and one ffmpeg run, the run
      after the download, uploads to the output bucket after the run,
      and nothing but printed lines after the first printed line.
    - Staging safety: for every key the staging paths are direct
      children of /tmp and do not overlap (Transfer.v); in every world
      and on every outcome an invocation changes no other path
      (Wellformed.v, composed from [writes] facts per operation).
    - Running the handler again on the state it left gives the same
      answer, the same filesystem and object store, and the same
      external calls: what a run does depends on the filesystem only,
      and a run gives back the tree it started from minus the staging
      paths (Wellformed.v).
    - Refinement and liveness (Outcome.v): [lambda_handler] implements
      [contract] (400 touching nothing, or 500 with an exception, or 200
      whose listed files are all in the output bucket, the staging paths
      removed when they can be); every file a 200 answer lists was
      uploaded with the content type of its name; the [finally] clause
      never raises and never touches the object store, whichever
      removal fails.
    - Reading the event and the key (Handler.v): lines 113-115 give back
      the bucket and exactly the key the object was stored under, for
      every key that is a [str] sent form-encoded; the extension check
      accepts exactly the keys whose suffix lowers character by
      character to an allowed extension, U+212A KELVIN SIGN passing for
      ["k"]; the content type of an upload is fixed by the suffix of the
      file's own name.  The library lemmas these rest on (UTF-8
      decoding and encoding inverse, [unquote_plus] inverting
      [quote_plus], [str.lower] on ASCII) are lemmas of Unicode.v and
      PyStr.v.
    - The command: the loop equals its declarative description by
      blocks; the command is built exactly when the resolution list is
      non-empty; ffmpeg reads it as the intended options, with 2N
      distinct stream maps, one filter graph of 2N filters, and the
      eight per-stream settings of each resolution (FfmpegCmd.v).
    - [run_ffmpeg_dash] with no resolutions creates the output directory
      and then raises [ValueError] before any process starts
      (RunFfmpeg.v).

    ** Bounds and fuel

    [mkdir_p] recurses on missing ancestors with fuel [String.length p];
    the lemma [Fs.mkdir_p_fuel_enough] shows that more fuel changes
    nothing on an absolute path, since a parent is strictly shorter than
    its child and the root always exists.  Every other definition is
    structurally recursive; the UTF-8 decoder consumes one to four bytes
    a step and its proofs go by strong induction on the length.  Code
    points are [Z]; the decoder's results lie in [0, 0x10FFFF] without
    surrogates (lemmas of Unicode.v).  Integers (status codes, widths,
    heights, modes) are [Z];
    the only bit operation, the mode [0o777 & ~umask] of [mkdir], is
    written with [Z.land] and [Z.lnot].

    ** Not modelled

    The ffmpeg binary itself (its exit status, standard error and the
    files it writes are an oracle of the world), the network behind
    boto3 (a download or upload either succeeds or raises the exception
    the world gives), the creation of the boto3 client at import time,
    strings holding lone surrogates (they have no UTF-8 encoding; the
    event's JSON decoder could produce one from an escaped surrogate, S3
    never does), the character tables of Unicode versions other than
    14.0.0, and concurrency
    (one invocation at a time, as the runtime runs it).  [shutil.rmtree]
    is atomic here: a failure removes nothing (the real one may have
    removed some entries before the failing one; no theorem depends on
    what a failing [rmtree] leaves).  Regular files carry their
    bytes but no mode (the code sets the mode of the output directory
    only and reads none); what ffmpeg computes from its input's bytes is
    the world's oracle; ffmpeg's outputs are written into the output directory
    whether or not it exists, and the tree theorem assumes they are
    plain names ([FsWf.flat_outputs]), as the DASH muxer's templates
    make them. *)

From stdpp Require Export gmap strings list.
From Stdlib Require Export ZArith Ascii.
From Stdlib Require Import DecimalString DecimalNat.

Open Scope stdpp_scope.

(** ** Strings *)

Declare Scope py_scope.
Delimit Scope py_scope with py.

(** Python's [str(n)] of a non-negative integer given as a [nat], and of
    an arbitrary integer given as a [Z]. *)
Definition py_str_nat (n : nat) : string :=
  NilEmpty.string_of_uint (Nat.to_uint n).

Definition py_str_Z (z : Z) : string :=
  NilZero.string_of_int (Z.to_int z).

Lemma py_str_nat_inj n m : py_str_nat n = py_str_nat m -> n = m.
Proof.
  unfold py_str_nat. intros H.
  apply (f_equal NilEmpty.uint_of_string) in H.
  rewrite !NilEmpty.usu in H. injection H as H.
  by apply DecimalNat.Unsigned.to_uint_inj.
Qed.

Lemma string_app_cons (c : Ascii.ascii) (a b : string) :
  String c a +:+ b = String c (a +:+ b).
Proof. done. Qed.

Lemma string_app_nil_l (s : string) : "" +:+ s = s.
Proof. done. Qed.

Lemma string_app_nil_r (s : string) : s +:+ "" = s.
Proof. induction s as [|c s IH]; [done|]. by rewrite string_app_cons, IH. Qed.

Lemma string_app_assoc (a b c : string) : a +:+ (b +:+ c) = (a +:+ b) +:+ c.
Proof. induction a as [|x a IH]; [done|]. by rewrite !string_app_cons, IH. Qed.

Lemma string_length_app (a b : string) : String.length (a +:+ b) = String.length a + String.length b.
Proof. induction a as [|x a IH]; [done|]. rewrite string_app_cons. cbn. by rewrite IH. Qed.

Lemma list_ascii_of_string_app (a b : string) :
  String.list_ascii_of_string (a +:+ b)
  = String.list_ascii_of_string a ++ String.list_ascii_of_string b.
Proof. induction a as [|x a IH]; [done|]. rewrite string_app_cons. cbn. by rewrite IH. Qed.

Lemma list_ascii_of_string_inj (a b : string) :
  String.list_ascii_of_string a = String.list_ascii_of_string b -> a = b.
Proof.
  intros H. rewrite <-(String.string_of_list_ascii_of_string a),
    <-(String.string_of_list_ascii_of_string b). by rewrite H.
Qed.

Lemma string_app_inj_l (a b c : string) : a +:+ b = a +:+ c -> b = c.
Proof. induction a as [|x a IH]; [done|]. rewrite !string_app_cons. intros H. injection H. auto. Qed.

Lemma string_app_inj_r (a b c : string) : b +:+ a = c +:+ a -> b = c.
Proof.
  intros H. apply (f_equal String.list_ascii_of_string) in H.
  rewrite !list_ascii_of_string_app in H.
  apply list_ascii_of_string_inj. by eapply app_inv_tail.
Qed.

(** Membership of a character in a string, as a boolean test. *)
Fixpoint string_has (c : Ascii.ascii) (s : string) : bool :=
  match s with
  | EmptyString => false
  | String x s' => bool_decide (x = c) || string_has c s'
  end.

Lemma string_has_app c a b :
  string_has c (a +:+ b) = string_has c a || string_has c b.
Proof. induction a as [|x a IH]; [done|]. rewrite string_app_cons. cbn. rewrite IH. by destruct (bool_decide _). Qed.

Create HintDb pystr discriminated.
Create Rewrite HintDb pystr_rw.
#[export] Hint Rewrite string_app_nil_r string_has_app list_ascii_of_string_app : pystr_rw.
#[export] Hint Resolve py_str_nat_inj string_app_inj_l string_app_inj_r : pystr.

(** ** A state and exception monad

    Python code that mutates the world and raises exceptions is modelled
    as a function from a state to an outcome and a final state. *)

Inductive outcome (E A : Type) : Type :=
| Ret (a : A)
| Raise (e : E).
Arguments Ret {E A} a.
Arguments Raise {E A} e.

Section Monad.
Context {S E : Type}.

Definition M (A : Type) : Type := S -> outcome E A * S.

Definition mret {A} (a : A) : M A := fun s => (Ret a, s).
Definition mraise {A} (e : E) : M A := fun s => (Raise e, s).

Definition mbind {A B} (m : M A) (k : A -> M B) : M B :=
  fun s => match m s with
           | (Ret a, s') => k a s'
           | (Raise e, s') => (Raise e, s')
           end.

Definition mget : M S := fun s => (Ret s, s).
Definition mput (s : S) : M unit := fun _ => (Ret tt, s).
Definition mmodify (f : S -> S) : M unit := fun s => (Ret tt, f s).

(** [try: body except Exception as e: handler(e)] *)
Definition try_except {A} (body : M A) (handler : E -> M A) : M A :=
  fun s => match body s with
           | (Ret a, s') => (Ret a, s')
           | (Raise e, s') => handler e s'
           end.

(** [try: body finally: fin]: [fin] runs on both paths; an exception it
    raises replaces the outcome of [body], as in Python. *)
Definition try_finally {A} (body : M A) (fin : M unit) : M A :=
  fun s => match body s with
           | (r, s') => match fin s' with
                        | (Ret _, s'') => (r, s'')
                        | (Raise e, s'') => (Raise e, s'')
                        end
           end.

(** [for x in xs: f(x)], stopping at the first exception. *)
Fixpoint mfor {A} (xs : list A) (f : A -> M unit) : M unit :=
  match xs with
  | [] => mret tt
  | x :: xs' => mbind (f x) (fun _ => mfor xs' f)
  end.

Lemma mbind_ret {A B} (a : A) (k : A -> M B) s : mbind (mret a) k s = k a s.
Proof. done. Qed.

Lemma mbind_raise {A B} (e : E) (k : A -> M B) s : mbind (mraise e) k s = (Raise e, s).
Proof. done. Qed.

Lemma mbind_assoc {A B C} (m : M A) (k : A -> M B) (h : B -> M C) s :
  mbind (mbind m k) h s = mbind m (fun a => mbind (k a) h) s.
Proof. unfold mbind. destruct (m s) as [[a|e] s']; done. Qed.
End Monad.

Arguments M S E A : clear implicits.

Notation "x <- m ;; k" := (mbind m (fun x => k))
  (at level 100, m at next level, right associativity) : py_scope.
Notation "m ;;; k" := (mbind m (fun _ => k))
  (at level 100, right associativity) : py_scope.

Create Rewrite HintDb pymonad_rw.
#[export] Hint Rewrite @mbind_ret @mbind_raise @mbind_assoc : pymonad_rw.

(** Unfold one layer of the monad in the goal. *)
Ltac run_monad :=
  repeat (unfold mbind, mret, mraise, mget, mput, mmodify, try_except, try_finally in *;
          cbn beta iota in *).

(** ** Reasoning about monadic programs

    Equations that run one step of a program whose first action's
    outcome is known, a postcondition on returned values ([returns]), and
    state invariants kept on every path, exceptions included
    ([preserves]). *)

Section MonadFacts.
Context {S E : Type}.

Lemma mbind_Ret_eq {A B} (m : M S E A) (k : A -> M S E B) s a s' :
  m s = (Ret a, s') -> mbind m k s = k a s'.
Proof. intros H. unfold mbind. by rewrite H. Qed.

Lemma mbind_Raise_eq {A B} (m : M S E A) (k : A -> M S E B) s e s' :
  m s = (Raise e, s') -> mbind m k s = (Raise e, s').
Proof. intros H. unfold mbind. by rewrite H. Qed.

Lemma try_except_Ret_eq {A} (m : M S E A) h s a s' :
  m s = (Ret a, s') -> try_except m h s = (Ret a, s').
Proof. intros H. unfold try_except. by rewrite H. Qed.

Lemma try_except_Raise_eq {A} (m : M S E A) h s e s' :
  m s = (Raise e, s') -> try_except m h s = h e s'.
Proof. intros H. unfold try_except. by rewrite H. Qed.

(** [except Exception as e: raise e] changes nothing. *)
Lemma try_except_reraise {A} (m : M S E A) s : try_except m mraise s = m s.
Proof. unfold try_except, mraise. by destruct (m s) as [[a|e] s']. Qed.

Lemma try_finally_eq {A} (m : M S E A) fin s r s1 u s2 :
  m s = (r, s1) -> fin s1 = (Ret u, s2) -> try_finally m fin s = (r, s2).
Proof. intros H1 H2. unfold try_finally. by rewrite H1, H2. Qed.

Definition returns {A} (P : A -> Prop) (m : M S E A) : Prop :=
  forall s a s', m s = (Ret a, s') -> P a.

Lemma returns_ret {A} (P : A -> Prop) a : P a -> returns P (mret a).
Proof. intros HP s a' s' H. by injection H as <- _. Qed.

Lemma returns_raise {A} (P : A -> Prop) e : returns P (@mraise S E A e).
Proof. by intros s a s' H. Qed.

Lemma returns_bind {A B} (P : B -> Prop) (m : M S E A) (k : A -> M S E B) :
  (forall a, returns P (k a)) -> returns P (mbind m k).
Proof.
  intros Hk s b s'. unfold mbind. destruct (m s) as [[a|e] s1]; [apply Hk|done].
Qed.

Lemma returns_try_except {A} (P : A -> Prop) (m : M S E A) h :
  returns P m -> (forall e, returns P (h e)) -> returns P (try_except m h).
Proof.
  intros Hm Hh s a s'. unfold try_except. destruct (m s) as [[a'|e] s1] eqn:Hms.
  - intros H. injection H as <- _. eauto.
  - apply Hh.
Qed.

Lemma returns_try_finally {A} (P : A -> Prop) (m : M S E A) fin :
  returns P m -> returns P (try_finally m fin).
Proof.
  intros Hm s a s'. unfold try_finally. destruct (m s) as [r s1] eqn:Hms.
  destruct (fin s1) as [[u|e] s2]; [|done]. intros H. injection H as -> _. eauto.
Qed.

Definition preserves {A} (I : S -> Prop) (m : M S E A) : Prop :=
  forall s, I s -> I (m s).2.

Lemma preserves_ret {A} I (a : A) : preserves I (mret a).
Proof. by intros s. Qed.

Lemma preserves_raise {A} I e : preserves I (@mraise S E A e).
Proof. by intros s. Qed.

Lemma preserves_bind {A B} I (m : M S E A) (k : A -> M S E B) :
  preserves I m -> (forall a, preserves I (k a)) -> preserves I (mbind m k).
Proof.
  intros Hm Hk s Hs. unfold mbind. specialize (Hm s Hs).
  destruct (m s) as [[a|e] s1]; [by apply Hk|done].
Qed.

Lemma preserves_try_except {A} I (m : M S E A) h :
  preserves I m -> (forall e, preserves I (h e)) -> preserves I (try_except m h).
Proof.
  intros Hm Hh s Hs. unfold try_except. specialize (Hm s Hs).
  destruct (m s) as [[a|e] s1]; [done|by apply Hh].
Qed.

Lemma preserves_try_finally {A} I (m : M S E A) fin :
  preserves I m -> preserves I fin -> preserves I (try_finally m fin).
Proof.
  intros Hm Hf s Hs. unfold try_finally. specialize (Hm s Hs).
  destruct (m s) as [r s1]. specialize (Hf s1 Hm). by destruct (fin s1) as [[u|e] s2].
Qed.

Lemma preserves_mfor {A} I (xs : list A) (f : A -> M S E unit) :
  (forall x, preserves I (f x)) -> preserves I (mfor xs f).
Proof.
  intros Hf. induction xs as [|x xs IH]; cbn; [apply preserves_ret|].
  apply preserves_bind; auto.
Qed.
End MonadFacts.

(** ** Hoare triples

    [hoare P m Q R]: from a state satisfying [P], [m] returns [a] in a
    state satisfying [Q a], or raises [e] in a state satisfying [R e].
    [returns] and [preserves] are the special cases that look only at
    the value or keep one predicate. *)

Section Hoare.
Context {S E : Type}.

Definition hoare {A} (P : S -> Prop) (m : M S E A) (Q : A -> S -> Prop) (R : E -> S -> Prop) : Prop :=
  forall s, P s -> match m s with (Ret a, s') => Q a s' | (Raise e, s') => R e s' end.

Lemma hoare_ret {A} P (a : A) Q R : (forall s, P s -> Q a s) -> hoare P (mret a) Q R.
Proof. intros H s Hs. by apply H. Qed.

Lemma hoare_raise {A} P e (Q : A -> S -> Prop) R : (forall s, P s -> R e s) -> hoare P (mraise e) Q R.
Proof. intros H s Hs. by apply H. Qed.

Lemma hoare_bind {A B} P (m : M S E A) (k : A -> M S E B) Q' Q R :
  hoare P m Q' R -> (forall a, hoare (Q' a) (k a) Q R) -> hoare P (mbind m k) Q R.
Proof.
  intros Hm Hk s Hs. specialize (Hm s Hs). unfold mbind.
  destruct (m s) as [[a|e] s1]; [by apply Hk|done].
Qed.

Lemma hoare_try_except {A} P (m : M S E A) h Q R' R :
  hoare P m Q R' -> (forall e, hoare (R' e) (h e) Q R) -> hoare P (try_except m h) Q R.
Proof.
  intros Hm Hh s Hs. specialize (Hm s Hs). unfold try_except.
  destruct (m s) as [[a|e] s1]; [done|by apply Hh].
Qed.

(** The [finally] clause runs after either outcome of the body, and its
    own exception replaces the body's outcome. *)
Lemma hoare_try_finally {A} P (m : M S E A) fin Q1 R1 Q R :
  hoare P m Q1 R1 ->
  (forall a, hoare (Q1 a) fin (fun _ => Q a) R) ->
  (forall e, hoare (R1 e) fin (fun _ => R e) R) ->
  hoare P (try_finally m fin) Q R.
Proof.
  intros Hm Hq Hr s Hs. specialize (Hm s Hs). unfold try_finally.
  destruct (m s) as [[a|e] s1].
  - specialize (Hq a s1 Hm). by destruct (fin s1) as [[u|e'] s2].
  - specialize (Hr e s1 Hm). by destruct (fin s1) as [[u|e'] s2].
Qed.

Lemma hoare_mfor {A} (I : S -> Prop) (xs : list A) (f : A -> M S E unit) R :
  (forall x, hoare I (f x) (fun _ => I) R) -> hoare I (mfor xs f) (fun _ => I) R.
Proof.
  intros Hf. induction xs as [|x xs IH]; cbn; [by apply hoare_ret|].
  eapply hoare_bind; [apply Hf|]. intros u. apply IH.
Qed.

Lemma hoare_consequence {A} P P' (m : M S E A) Q Q' R R' :
  hoare P m Q R -> (forall s, P' s -> P s) -> (forall a s, Q a s -> Q' a s) -> (forall e s, R e s -> R' e s) ->
  hoare P' m Q' R'.
Proof.
  intros Hm HP HQ HR s Hs. specialize (Hm s (HP s Hs)). destruct (m s) as [[a|e] s']; auto.
Qed.

Lemma hoare_and {A} P (m : M S E A) Q1 Q2 R1 R2 :
  hoare P m Q1 R1 -> hoare P m Q2 R2 ->
  hoare P m (fun a s => Q1 a s /\ Q2 a s) (fun e s => R1 e s /\ R2 e s).
Proof.
  intros H1 H2 s Hs. specialize (H1 s Hs). specialize (H2 s Hs). by destruct (m s) as [[a|e] s'].
Qed.

Lemma hoare_of_preserves {A} I (m : M S E A) (R : E -> S -> Prop) :
  preserves I m -> (forall e s, I s -> R e s) -> hoare I m (fun _ => I) R.
Proof. intros Hm HR s Hs. specialize (Hm s Hs). destruct (m s) as [[a|e] s']; auto. Qed.

Lemma preserves_and {A} I J (m : M S E A) :
  preserves I m -> preserves J m -> preserves (fun s => I s /\ J s) m.
Proof. intros HI HJ s [Is Js]. split; auto. Qed.

(** A kept predicate is framed onto both postconditions. *)
Lemma hoare_frame {A} P (m : M S E A) Q R (I : S -> Prop) :
  hoare P m Q R -> preserves I m ->
  hoare (fun s => P s /\ I s) m (fun a s => Q a s /\ I s) (fun e s => R e s /\ I s).
Proof.
  intros Hm Hi s [Hs Is]. specialize (Hm s Hs). specialize (Hi s Is). by destruct (m s) as [[a|e] s'].
Qed.

Lemma hoare_pre {A} (P : S -> Prop) (m : M S E A) Q R :
  (forall s0, P s0 -> hoare (fun s => s = s0) m Q R) -> hoare P m Q R.
Proof. intros H s Hs. by apply (H s Hs). Qed.

Lemma preserves_hoare {A} I (m : M S E A) : preserves I m <-> hoare I m (fun _ => I) (fun _ => I).
Proof.
  split; intros H s Hs; specialize (H s Hs); [by destruct (m s) as [[a|e] s']|].
  by destruct (m s) as [[a|e] s'].
Qed.
End Hoare.

Create HintDb pymonad discriminated.
#[export] Hint Resolve returns_ret returns_raise returns_bind returns_try_except
  returns_try_finally : pymonad.
#[export] Hint Resolve preserves_ret preserves_raise preserves_bind preserves_try_except
  preserves_try_finally preserves_mfor : pymonad.
