(* ===== verification/Unicode.v ===== *)
(** * Unicode: the UTF-8 codec and the character tables of CPython's [str]

    A Python [str] is a sequence of code points; the development keeps a
    [str] as its UTF-8 encoding ([string] of 8-bit [ascii]), which is what
    the notification event carries and what the file system and S3 store.
    The operations of [str] that look at characters ([str.lower], [repr],
    the UTF-8 decoding inside [urllib.parse.unquote_plus]) go through this
    file:

    - [utf8_decode_raw] is CPython's [bytes.decode('utf-8')]: a byte
      sequence well-formed by Table 3-7 of the Unicode standard gives its
      scalar value, and every maximal ill-formed subpart gives [None],
      which [errors='replace'] turns into U+FFFD ([utf8_decode]);
    - [utf8_encode] is [str.encode('utf-8')];
    - [lower_cp] is the per-character mapping of [str.lower()],
      [lower_str] the whole of it with the context rule of the final
      sigma, and
      [is_printable] the [str.isprintable()] test that [repr] uses; both
      are tables of runs generated from CPython 3.11's [unicodedata]
      (Unicode 14.0.0) and checked against it on every code point.

    The lemmas: decoding and encoding are inverse (on scalar values and
    on well-formed byte strings), decoding yields scalar values only, and
    the code points that lower to an ASCII character are the ASCII ones
    and U+212A KELVIN SIGN ([lower_str_ascii]), which Handler.v uses to
    characterise the extension check. *)

From S2P Require Import Prelude.
From Stdlib Require Import Lia.
Open Scope stdpp_scope.

(** ** Bytes and code points *)

Definition byte_val (a : Ascii.ascii) : Z := Z.of_N (Ascii.N_of_ascii a).

Definition byte_of (z : Z) : Ascii.ascii := Ascii.ascii_of_N (Z.to_N z).

(** A Unicode scalar value: a code point that is not a surrogate. *)
Definition is_scalar (c : Z) : bool :=
  bool_decide (0 <= c <= 1114111)%Z && negb (bool_decide (55296 <= c <= 57343)%Z).

Definition in_range (lo hi z : Z) : bool := bool_decide (lo <= z <= hi)%Z.

(** ** Decoding *)

(** The lead byte of a sequence: the number of continuation bytes, the
    value of its payload bits and the range the first continuation byte
    must lie in (Table 3-7); [None] for a byte that cannot start one. *)
Definition utf8_lead (b : Z) : option (nat * Z * Z * Z) :=
  if bool_decide (b < 128)%Z then Some (0%nat, b, 0%Z, 0%Z)
  else if in_range 194 223 b then Some (1%nat, b - 192, 128, 191)%Z
  else if bool_decide (b = 224)%Z then Some (2%nat, 0, 160, 191)%Z
  else if bool_decide (b = 237)%Z then Some (2%nat, 13, 128, 159)%Z
  else if in_range 225 239 b then Some (2%nat, b - 224, 128, 191)%Z
  else if bool_decide (b = 240)%Z then Some (3%nat, 0, 144, 191)%Z
  else if in_range 241 243 b then Some (3%nat, b - 240, 128, 191)%Z
  else if bool_decide (b = 244)%Z then Some (3%nat, 4, 128, 143)%Z
  else None.

Definition cont (v : Z) (b : Ascii.ascii) : Z := (v * 64 + (byte_val b - 128))%Z.

(** [bytes.decode('utf-8')] with one [None] per maximal ill-formed
    subpart: an invalid lead byte is one subpart, a sequence cut short by
    a byte out of range is a subpart ending before that byte (which
    starts the next step), and a sequence cut short by the end of the
    input is one subpart. *)
Fixpoint utf8_decode_raw (s : string) : list (option Z) :=
  match s with
  | EmptyString => []
  | String a s1 =>
      match utf8_lead (byte_val a) with
      | None => None :: utf8_decode_raw s1
      | Some (O, v, _, _) => Some v :: utf8_decode_raw s1
      | Some (S k, v, lo, hi) =>
          match s1 with
          | EmptyString => [None]
          | String b s2 =>
              if in_range lo hi (byte_val b) then
                match k with
                | O => Some (cont v b) :: utf8_decode_raw s2
                | S k' =>
                    match s2 with
                    | EmptyString => [None]
                    | String c s3 =>
                        if in_range 128 191 (byte_val c) then
                          match k' with
                          | O => Some (cont (cont v b) c) :: utf8_decode_raw s3
                          | S _ =>
                              match s3 with
                              | EmptyString => [None]
                              | String d s4 =>
                                  if in_range 128 191 (byte_val d)
                                  then Some (cont (cont (cont v b) c) d) :: utf8_decode_raw s4
                                  else None :: utf8_decode_raw s3
                              end
                          end
                        else None :: utf8_decode_raw s2
                    end
                end
              else None :: utf8_decode_raw s1
          end
      end
  end.

(** [bytes.decode('utf-8', 'replace')] *)
Definition utf8_decode (s : string) : list Z :=
  map (default 65533%Z) (utf8_decode_raw s).

(** The bytes decode without error. *)
Definition utf8_valid (s : string) : bool :=
  forallb (fun o : option Z => match o with Some _ => true | None => false end)
    (utf8_decode_raw s).

(** ** Encoding *)

Definition utf8_encode_cp (c : Z) : string :=
  if bool_decide (c < 128)%Z then String (byte_of c) ""
  else if bool_decide (c < 2048)%Z then
    String (byte_of (192 + c / 64)) (String (byte_of (128 + c mod 64)) "")
  else if bool_decide (c < 65536)%Z then
    String (byte_of (224 + c / 4096))
      (String (byte_of (128 + (c / 64) mod 64)) (String (byte_of (128 + c mod 64)) ""))
  else
    String (byte_of (240 + c / 262144))
      (String (byte_of (128 + (c / 4096) mod 64))
         (String (byte_of (128 + (c / 64) mod 64)) (String (byte_of (128 + c mod 64)) ""))).

(** [str.encode('utf-8')] *)
Fixpoint utf8_encode (cps : list Z) : string :=
  match cps with
  | [] => ""
  | c :: cps' => utf8_encode_cp c +:+ utf8_encode cps'
  end.

(** ** str.lower *)

(** The code points whose [str.lower()] is one other code point, as runs
    [(lo, hi, delta, step)]: a code point [c] of [lo..hi] with [c - lo]
    a multiple of [step] lowers to [c + delta]. Generated from
    [unicodedata] (Unicode 14.0.0); all other code points but U+0130
    lower to themselves. *)
Definition lower_runs : list (Z * Z * Z * Z) := ([
  (65, 90, 32, 1);
  (192, 214, 32, 1);
  (216, 222, 32, 1);
  (256, 302, 1, 2);
  (306, 310, 1, 2);
  (313, 327, 1, 2);
  (330, 374, 1, 2);
  (376, 376, -121, 1);
  (377, 381, 1, 2);
  (385, 385, 210, 1);
  (386, 388, 1, 2);
  (390, 390, 206, 1);
  (391, 391, 1, 1);
  (393, 394, 205, 1);
  (395, 395, 1, 1);
  (398, 398, 79, 1);
  (399, 399, 202, 1);
  (400, 400, 203, 1);
  (401, 401, 1, 1);
  (403, 403, 205, 1);
  (404, 404, 207, 1);
  (406, 406, 211, 1);
  (407, 407, 209, 1);
  (408, 408, 1, 1);
  (412, 412, 211, 1);
  (413, 413, 213, 1);
  (415, 415, 214, 1);
  (416, 420, 1, 2);
  (422, 422, 218, 1);
  (423, 423, 1, 1);
  (425, 425, 218, 1);
  (428, 428, 1, 1);
  (430, 430, 218, 1);
  (431, 431, 1, 1);
  (433, 434, 217, 1);
  (435, 437, 1, 2);
  (439, 439, 219, 1);
  (440, 440, 1, 1);
  (444, 444, 1, 1);
  (452, 452, 2, 1);
  (453, 453, 1, 1);
  (455, 455, 2, 1);
  (456, 456, 1, 1);
  (458, 458, 2, 1);
  (459, 475, 1, 2);
  (478, 494, 1, 2);
  (497, 497, 2, 1);
  (498, 500, 1, 2);
  (502, 502, -97, 1);
  (503, 503, -56, 1);
  (504, 542, 1, 2);
  (544, 544, -130, 1);
  (546, 562, 1, 2);
  (570, 570, 10795, 1);
  (571, 571, 1, 1);
  (573, 573, -163, 1);
  (574, 574, 10792, 1);
  (577, 577, 1, 1);
  (579, 579, -195, 1);
  (580, 580, 69, 1);
  (581, 581, 71, 1);
  (582, 590, 1, 2);
  (880, 882, 1, 2);
  (886, 886, 1, 1);
  (895, 895, 116, 1);
  (902, 902, 38, 1);
  (904, 906, 37, 1);
  (908, 908, 64, 1);
  (910, 911, 63, 1);
  (913, 929, 32, 1);
  (931, 939, 32, 1);
  (975, 975, 8, 1);
  (984, 1006, 1, 2);
  (1012, 1012, -60, 1);
  (1015, 1015, 1, 1);
  (1017, 1017, -7, 1);
  (1018, 1018, 1, 1);
  (1021, 1023, -130, 1);
  (1024, 1039, 80, 1);
  (1040, 1071, 32, 1);
  (1120, 1152, 1, 2);
  (1162, 1214, 1, 2);
  (1216, 1216, 15, 1);
  (1217, 1229, 1, 2);
  (1232, 1326, 1, 2);
  (1329, 1366, 48, 1);
  (4256, 4293, 7264, 1);
  (4295, 4295, 7264, 1);
  (4301, 4301, 7264, 1);
  (5024, 5103, 38864, 1);
  (5104, 5109, 8, 1);
  (7312, 7354, -3008, 1);
  (7357, 7359, -3008, 1);
  (7680, 7828, 1, 2);
  (7838, 7838, -7615, 1);
  (7840, 7934, 1, 2);
  (7944, 7951, -8, 1);
  (7960, 7965, -8, 1);
  (7976, 7983, -8, 1);
  (7992, 7999, -8, 1);
  (8008, 8013, -8, 1);
  (8025, 8031, -8, 2);
  (8040, 8047, -8, 1);
  (8072, 8079, -8, 1);
  (8088, 8095, -8, 1);
  (8104, 8111, -8, 1);
  (8120, 8121, -8, 1);
  (8122, 8123, -74, 1);
  (8124, 8124, -9, 1);
  (8136, 8139, -86, 1);
  (8140, 8140, -9, 1);
  (8152, 8153, -8, 1);
  (8154, 8155, -100, 1);
  (8168, 8169, -8, 1);
  (8170, 8171, -112, 1);
  (8172, 8172, -7, 1);
  (8184, 8185, -128, 1);
  (8186, 8187, -126, 1);
  (8188, 8188, -9, 1);
  (8486, 8486, -7517, 1);
  (8490, 8490, -8383, 1);
  (8491, 8491, -8262, 1);
  (8498, 8498, 28, 1);
  (8544, 8559, 16, 1);
  (8579, 8579, 1, 1);
  (9398, 9423, 26, 1);
  (11264, 11311, 48, 1);
  (11360, 11360, 1, 1);
  (11362, 11362, -10743, 1);
  (11363, 11363, -3814, 1);
  (11364, 11364, -10727, 1);
  (11367, 11371, 1, 2);
  (11373, 11373, -10780, 1);
  (11374, 11374, -10749, 1);
  (11375, 11375, -10783, 1);
  (11376, 11376, -10782, 1);
  (11378, 11378, 1, 1);
  (11381, 11381, 1, 1);
  (11390, 11391, -10815, 1);
  (11392, 11490, 1, 2);
  (11499, 11501, 1, 2);
  (11506, 11506, 1, 1);
  (42560, 42604, 1, 2);
  (42624, 42650, 1, 2);
  (42786, 42798, 1, 2);
  (42802, 42862, 1, 2);
  (42873, 42875, 1, 2);
  (42877, 42877, -35332, 1);
  (42878, 42886, 1, 2);
  (42891, 42891, 1, 1);
  (42893, 42893, -42280, 1);
  (42896, 42898, 1, 2);
  (42902, 42920, 1, 2);
  (42922, 42922, -42308, 1);
  (42923, 42923, -42319, 1);
  (42924, 42924, -42315, 1);
  (42925, 42925, -42305, 1);
  (42926, 42926, -42308, 1);
  (42928, 42928, -42258, 1);
  (42929, 42929, -42282, 1);
  (42930, 42930, -42261, 1);
  (42931, 42931, 928, 1);
  (42932, 42946, 1, 2);
  (42948, 42948, -48, 1);
  (42949, 42949, -42307, 1);
  (42950, 42950, -35384, 1);
  (42951, 42953, 1, 2);
  (42960, 42960, 1, 1);
  (42966, 42968, 1, 2);
  (42997, 42997, 1, 1);
  (65313, 65338, 32, 1);
  (66560, 66599, 40, 1);
  (66736, 66771, 40, 1);
  (66928, 66938, 39, 1);
  (66940, 66954, 39, 1);
  (66956, 66962, 39, 1);
  (66964, 66965, 39, 1);
  (68736, 68786, 64, 1);
  (71840, 71871, 32, 1);
  (93760, 93791, 32, 1);
  (125184, 125217, 34, 1)
])%Z.

Definition in_run (c : Z) (r : Z * Z * Z * Z) : bool :=
  let '(lo, hi, _, step) := r in in_range lo hi c && (bool_decide (step = 1)%Z || Z.even (c - lo)).

(** [str.lower()] of one character: U+0130 (LATIN CAPITAL LETTER I WITH
    DOT ABOVE) is the only character whose lowercase is two characters,
    ["i"] and U+0307. *)
Definition lower_cp (c : Z) : list Z :=
  if bool_decide (c = 304)%Z then [105; 775]%Z
  else match List.find (in_run c) lower_runs with
       | Some (_, _, delta, _) => [(c + delta)%Z]
       | None => [c]
       end.

(** ** str.isprintable *)

(** The non-ASCII code points that [str.isprintable()] rejects (the
    categories Cc, Cf, Cs, Co, Cn, Zl, Zp and Zs but the space), as
    ranges. *)
Definition nonprintable_ranges : list (Z * Z) := ([
  (128, 160); (173, 173); (888, 889); (896, 899); (907, 907); (909, 909);
  (930, 930); (1328, 1328); (1367, 1368); (1419, 1420); (1424, 1424); (1480, 1487);
  (1515, 1518); (1525, 1541); (1564, 1564); (1757, 1757); (1806, 1807); (1867, 1868);
  (1970, 1983); (2043, 2044); (2094, 2095); (2111, 2111); (2140, 2141); (2143, 2143);
  (2155, 2159); (2191, 2199); (2274, 2274); (2436, 2436); (2445, 2446); (2449, 2450);
  (2473, 2473); (2481, 2481); (2483, 2485); (2490, 2491); (2501, 2502); (2505, 2506);
  (2511, 2518); (2520, 2523); (2526, 2526); (2532, 2533); (2559, 2560); (2564, 2564);
  (2571, 2574); (2577, 2578); (2601, 2601); (2609, 2609); (2612, 2612); (2615, 2615);
  (2618, 2619); (2621, 2621); (2627, 2630); (2633, 2634); (2638, 2640); (2642, 2648);
  (2653, 2653); (2655, 2661); (2679, 2688); (2692, 2692); (2702, 2702); (2706, 2706);
  (2729, 2729); (2737, 2737); (2740, 2740); (2746, 2747); (2758, 2758); (2762, 2762);
  (2766, 2767); (2769, 2783); (2788, 2789); (2802, 2808); (2816, 2816); (2820, 2820);
  (2829, 2830); (2833, 2834); (2857, 2857); (2865, 2865); (2868, 2868); (2874, 2875);
  (2885, 2886); (2889, 2890); (2894, 2900); (2904, 2907); (2910, 2910); (2916, 2917);
  (2936, 2945); (2948, 2948); (2955, 2957); (2961, 2961); (2966, 2968); (2971, 2971);
  (2973, 2973); (2976, 2978); (2981, 2983); (2987, 2989); (3002, 3005); (3011, 3013);
  (3017, 3017); (3022, 3023); (3025, 3030); (3032, 3045); (3067, 3071); (3085, 3085);
  (3089, 3089); (3113, 3113); (3130, 3131); (3141, 3141); (3145, 3145); (3150, 3156);
  (3159, 3159); (3163, 3164); (3166, 3167); (3172, 3173); (3184, 3190); (3213, 3213);
  (3217, 3217); (3241, 3241); (3252, 3252); (3258, 3259); (3269, 3269); (3273, 3273);
  (3278, 3284); (3287, 3292); (3295, 3295); (3300, 3301); (3312, 3312); (3315, 3327);
  (3341, 3341); (3345, 3345); (3397, 3397); (3401, 3401); (3408, 3411); (3428, 3429);
  (3456, 3456); (3460, 3460); (3479, 3481); (3506, 3506); (3516, 3516); (3518, 3519);
  (3527, 3529); (3531, 3534); (3541, 3541); (3543, 3543); (3552, 3557); (3568, 3569);
  (3573, 3584); (3643, 3646); (3676, 3712); (3715, 3715); (3717, 3717); (3723, 3723);
  (3748, 3748); (3750, 3750); (3774, 3775); (3781, 3781); (3783, 3783); (3790, 3791);
  (3802, 3803); (3808, 3839); (3912, 3912); (3949, 3952); (3992, 3992); (4029, 4029);
  (4045, 4045); (4059, 4095); (4294, 4294); (4296, 4300); (4302, 4303); (4681, 4681);
  (4686, 4687); (4695, 4695); (4697, 4697); (4702, 4703); (4745, 4745); (4750, 4751);
  (4785, 4785); (4790, 4791); (4799, 4799); (4801, 4801); (4806, 4807); (4823, 4823);
  (4881, 4881); (4886, 4887); (4955, 4956); (4989, 4991); (5018, 5023); (5110, 5111);
  (5118, 5119); (5760, 5760); (5789, 5791); (5881, 5887); (5910, 5918); (5943, 5951);
  (5972, 5983); (5997, 5997); (6001, 6001); (6004, 6015); (6110, 6111); (6122, 6127);
  (6138, 6143); (6158, 6158); (6170, 6175); (6265, 6271); (6315, 6319); (6390, 6399);
  (6431, 6431); (6444, 6447); (6460, 6463); (6465, 6467); (6510, 6511); (6517, 6527);
  (6572, 6575); (6602, 6607); (6619, 6621); (6684, 6685); (6751, 6751); (6781, 6782);
  (6794, 6799); (6810, 6815); (6830, 6831); (6863, 6911); (6989, 6991); (7039, 7039);
  (7156, 7163); (7224, 7226); (7242, 7244); (7305, 7311); (7355, 7356); (7368, 7375);
  (7419, 7423); (7958, 7959); (7966, 7967); (8006, 8007); (8014, 8015); (8024, 8024);
  (8026, 8026); (8028, 8028); (8030, 8030); (8062, 8063); (8117, 8117); (8133, 8133);
  (8148, 8149); (8156, 8156); (8176, 8177); (8181, 8181); (8191, 8207); (8232, 8239);
  (8287, 8303); (8306, 8307); (8335, 8335); (8349, 8351); (8385, 8399); (8433, 8447);
  (8588, 8591); (9255, 9279); (9291, 9311); (11124, 11125); (11158, 11158); (11508, 11512);
  (11558, 11558); (11560, 11564); (11566, 11567); (11624, 11630); (11633, 11646); (11671, 11679);
  (11687, 11687); (11695, 11695); (11703, 11703); (11711, 11711); (11719, 11719); (11727, 11727);
  (11735, 11735); (11743, 11743); (11870, 11903); (11930, 11930); (12020, 12031); (12246, 12271);
  (12284, 12288); (12352, 12352); (12439, 12440); (12544, 12548); (12592, 12592); (12687, 12687);
  (12772, 12783); (12831, 12831); (42125, 42127); (42183, 42191); (42540, 42559); (42744, 42751);
  (42955, 42959); (42962, 42962); (42964, 42964); (42970, 42993); (43053, 43055); (43066, 43071);
  (43128, 43135); (43206, 43213); (43226, 43231); (43348, 43358); (43389, 43391); (43470, 43470);
  (43482, 43485); (43519, 43519); (43575, 43583); (43598, 43599); (43610, 43611); (43715, 43738);
  (43767, 43776); (43783, 43784); (43791, 43792); (43799, 43807); (43815, 43815); (43823, 43823);
  (43884, 43887); (44014, 44015); (44026, 44031); (55204, 55215); (55239, 55242); (55292, 63743);
  (64110, 64111); (64218, 64255); (64263, 64274); (64280, 64284); (64311, 64311); (64317, 64317);
  (64319, 64319); (64322, 64322); (64325, 64325); (64451, 64466); (64912, 64913); (64968, 64974);
  (64976, 65007); (65050, 65055); (65107, 65107); (65127, 65127); (65132, 65135); (65141, 65141);
  (65277, 65280); (65471, 65473); (65480, 65481); (65488, 65489); (65496, 65497); (65501, 65503);
  (65511, 65511); (65519, 65531); (65534, 65535); (65548, 65548); (65575, 65575); (65595, 65595);
  (65598, 65598); (65614, 65615); (65630, 65663); (65787, 65791); (65795, 65798); (65844, 65846);
  (65935, 65935); (65949, 65951); (65953, 65999); (66046, 66175); (66205, 66207); (66257, 66271);
  (66300, 66303); (66340, 66348); (66379, 66383); (66427, 66431); (66462, 66462); (66500, 66503);
  (66518, 66559); (66718, 66719); (66730, 66735); (66772, 66775); (66812, 66815); (66856, 66863);
  (66916, 66926); (66939, 66939); (66955, 66955); (66963, 66963); (66966, 66966); (66978, 66978);
  (66994, 66994); (67002, 67002); (67005, 67071); (67383, 67391); (67414, 67423); (67432, 67455);
  (67462, 67462); (67505, 67505); (67515, 67583); (67590, 67591); (67593, 67593); (67638, 67638);
  (67641, 67643); (67645, 67646); (67670, 67670); (67743, 67750); (67760, 67807); (67827, 67827);
  (67830, 67834); (67868, 67870); (67898, 67902); (67904, 67967); (68024, 68027); (68048, 68049);
  (68100, 68100); (68103, 68107); (68116, 68116); (68120, 68120); (68150, 68151); (68155, 68158);
  (68169, 68175); (68185, 68191); (68256, 68287); (68327, 68330); (68343, 68351); (68406, 68408);
  (68438, 68439); (68467, 68471); (68498, 68504); (68509, 68520); (68528, 68607); (68681, 68735);
  (68787, 68799); (68851, 68857); (68904, 68911); (68922, 69215); (69247, 69247); (69290, 69290);
  (69294, 69295); (69298, 69375); (69416, 69423); (69466, 69487); (69514, 69551); (69580, 69599);
  (69623, 69631); (69710, 69713); (69750, 69758); (69821, 69821); (69827, 69839); (69865, 69871);
  (69882, 69887); (69941, 69941); (69960, 69967); (70007, 70015); (70112, 70112); (70133, 70143);
  (70162, 70162); (70207, 70271); (70279, 70279); (70281, 70281); (70286, 70286); (70302, 70302);
  (70314, 70319); (70379, 70383); (70394, 70399); (70404, 70404); (70413, 70414); (70417, 70418);
  (70441, 70441); (70449, 70449); (70452, 70452); (70458, 70458); (70469, 70470); (70473, 70474);
  (70478, 70479); (70481, 70486); (70488, 70492); (70500, 70501); (70509, 70511); (70517, 70655);
  (70748, 70748); (70754, 70783); (70856, 70863); (70874, 71039); (71094, 71095); (71134, 71167);
  (71237, 71247); (71258, 71263); (71277, 71295); (71354, 71359); (71370, 71423); (71451, 71452);
  (71468, 71471); (71495, 71679); (71740, 71839); (71923, 71934); (71943, 71944); (71946, 71947);
  (71956, 71956); (71959, 71959); (71990, 71990); (71993, 71994); (72007, 72015); (72026, 72095);
  (72104, 72105); (72152, 72153); (72165, 72191); (72264, 72271); (72355, 72367); (72441, 72703);
  (72713, 72713); (72759, 72759); (72774, 72783); (72813, 72815); (72848, 72849); (72872, 72872);
  (72887, 72959); (72967, 72967); (72970, 72970); (73015, 73017); (73019, 73019); (73022, 73022);
  (73032, 73039); (73050, 73055); (73062, 73062); (73065, 73065); (73103, 73103); (73106, 73106);
  (73113, 73119); (73130, 73439); (73465, 73647); (73649, 73663); (73714, 73726); (74650, 74751);
  (74863, 74863); (74869, 74879); (75076, 77711); (77811, 77823); (78895, 82943); (83527, 92159);
  (92729, 92735); (92767, 92767); (92778, 92781); (92863, 92863); (92874, 92879); (92910, 92911);
  (92918, 92927); (92998, 93007); (93018, 93018); (93026, 93026); (93048, 93052); (93072, 93759);
  (93851, 93951); (94027, 94030); (94088, 94094); (94112, 94175); (94181, 94191); (94194, 94207);
  (100344, 100351); (101590, 101631); (101641, 110575); (110580, 110580); (110588, 110588); (110591, 110591);
  (110883, 110927); (110931, 110947); (110952, 110959); (111356, 113663); (113771, 113775); (113789, 113791);
  (113801, 113807); (113818, 113819); (113824, 118527); (118574, 118575); (118599, 118607); (118724, 118783);
  (119030, 119039); (119079, 119080); (119155, 119162); (119275, 119295); (119366, 119519); (119540, 119551);
  (119639, 119647); (119673, 119807); (119893, 119893); (119965, 119965); (119968, 119969); (119971, 119972);
  (119975, 119976); (119981, 119981); (119994, 119994); (119996, 119996); (120004, 120004); (120070, 120070);
  (120075, 120076); (120085, 120085); (120093, 120093); (120122, 120122); (120127, 120127); (120133, 120133);
  (120135, 120137); (120145, 120145); (120486, 120487); (120780, 120781); (121484, 121498); (121504, 121504);
  (121520, 122623); (122655, 122879); (122887, 122887); (122905, 122906); (122914, 122914); (122917, 122917);
  (122923, 123135); (123181, 123183); (123198, 123199); (123210, 123213); (123216, 123535); (123567, 123583);
  (123642, 123646); (123648, 124895); (124903, 124903); (124908, 124908); (124911, 124911); (124927, 124927);
  (125125, 125126); (125143, 125183); (125260, 125263); (125274, 125277); (125280, 126064); (126133, 126208);
  (126270, 126463); (126468, 126468); (126496, 126496); (126499, 126499); (126501, 126502); (126504, 126504);
  (126515, 126515); (126520, 126520); (126522, 126522); (126524, 126529); (126531, 126534); (126536, 126536);
  (126538, 126538); (126540, 126540); (126544, 126544); (126547, 126547); (126549, 126550); (126552, 126552);
  (126554, 126554); (126556, 126556); (126558, 126558); (126560, 126560); (126563, 126563); (126565, 126566);
  (126571, 126571); (126579, 126579); (126584, 126584); (126589, 126589); (126591, 126591); (126602, 126602);
  (126620, 126624); (126628, 126628); (126634, 126634); (126652, 126703); (126706, 126975); (127020, 127023);
  (127124, 127135); (127151, 127152); (127168, 127168); (127184, 127184); (127222, 127231); (127406, 127461);
  (127491, 127503); (127548, 127551); (127561, 127567); (127570, 127583); (127590, 127743); (128728, 128732);
  (128749, 128751); (128765, 128767); (128884, 128895); (128985, 128991); (129004, 129007); (129009, 129023);
  (129036, 129039); (129096, 129103); (129114, 129119); (129160, 129167); (129198, 129199); (129202, 129279);
  (129620, 129631); (129646, 129647); (129653, 129655); (129661, 129663); (129671, 129679); (129709, 129711);
  (129723, 129727); (129734, 129743); (129754, 129759); (129768, 129775); (129783, 129791); (129939, 129939);
  (129995, 130031); (130042, 131071); (173792, 173823); (177977, 177983); (178206, 178207); (183970, 183983);
  (191457, 194559); (195102, 196607); (201547, 917759); (918000, 1114111)
])%Z.

(** Membership in a table of ranges. *)
Definition in_ranges (rs : list (Z * Z)) (c : Z) : bool := existsb (fun r => in_range r.1 r.2 c) rs.

Definition is_printable (c : Z) : bool := negb (in_ranges nonprintable_ranges c).

(** ** The final sigma of str.lower

    [str.lower()] maps U+03A3 GREEK CAPITAL LETTER SIGMA by its context
    ([handle_capital_sigma] in unicodeobject.c): it becomes U+03C2 (final
    sigma) when, skipping case-ignorable characters, a cased character
    precedes it and none follows it, and U+03C3 otherwise.  The two
    tables below were generated from CPython 3.11's own [str.lower]
    (Unicode 14.0.0): the case-ignorable characters, and the cased
    characters that are not case-ignorable, the only ones the rule ever
    tests. *)
Definition case_ignorable_ranges : list (Z * Z) := ([
  (39, 39); (46, 46); (58, 58); (94, 94); (96, 96); (168, 168);
  (173, 173); (175, 175); (180, 180); (183, 184); (688, 879); (884, 885);
  (890, 890); (900, 901); (903, 903); (1155, 1161); (1369, 1369); (1375, 1375);
  (1425, 1469); (1471, 1471); (1473, 1474); (1476, 1477); (1479, 1479); (1524, 1524);
  (1536, 1541); (1552, 1562); (1564, 1564); (1600, 1600); (1611, 1631); (1648, 1648);
  (1750, 1757); (1759, 1768); (1770, 1773); (1807, 1807); (1809, 1809); (1840, 1866);
  (1958, 1968); (2027, 2037); (2042, 2042); (2045, 2045); (2070, 2093); (2137, 2139);
  (2184, 2184); (2192, 2193); (2200, 2207); (2249, 2306); (2362, 2362); (2364, 2364);
  (2369, 2376); (2381, 2381); (2385, 2391); (2402, 2403); (2417, 2417); (2433, 2433);
  (2492, 2492); (2497, 2500); (2509, 2509); (2530, 2531); (2558, 2558); (2561, 2562);
  (2620, 2620); (2625, 2626); (2631, 2632); (2635, 2637); (2641, 2641); (2672, 2673);
  (2677, 2677); (2689, 2690); (2748, 2748); (2753, 2757); (2759, 2760); (2765, 2765);
  (2786, 2787); (2810, 2815); (2817, 2817); (2876, 2876); (2879, 2879); (2881, 2884);
  (2893, 2893); (2901, 2902); (2914, 2915); (2946, 2946); (3008, 3008); (3021, 3021);
  (3072, 3072); (3076, 3076); (3132, 3132); (3134, 3136); (3142, 3144); (3146, 3149);
  (3157, 3158); (3170, 3171); (3201, 3201); (3260, 3260); (3263, 3263); (3270, 3270);
  (3276, 3277); (3298, 3299); (3328, 3329); (3387, 3388); (3393, 3396); (3405, 3405);
  (3426, 3427); (3457, 3457); (3530, 3530); (3538, 3540); (3542, 3542); (3633, 3633);
  (3636, 3642); (3654, 3662); (3761, 3761); (3764, 3772); (3782, 3782); (3784, 3789);
  (3864, 3865); (3893, 3893); (3895, 3895); (3897, 3897); (3953, 3966); (3968, 3972);
  (3974, 3975); (3981, 3991); (3993, 4028); (4038, 4038); (4141, 4144); (4146, 4151);
  (4153, 4154); (4157, 4158); (4184, 4185); (4190, 4192); (4209, 4212); (4226, 4226);
  (4229, 4230); (4237, 4237); (4253, 4253); (4348, 4348); (4957, 4959); (5906, 5908);
  (5938, 5939); (5970, 5971); (6002, 6003); (6068, 6069); (6071, 6077); (6086, 6086);
  (6089, 6099); (6103, 6103); (6109, 6109); (6155, 6159); (6211, 6211); (6277, 6278);
  (6313, 6313); (6432, 6434); (6439, 6440); (6450, 6450); (6457, 6459); (6679, 6680);
  (6683, 6683); (6742, 6742); (6744, 6750); (6752, 6752); (6754, 6754); (6757, 6764);
  (6771, 6780); (6783, 6783); (6823, 6823); (6832, 6862); (6912, 6915); (6964, 6964);
  (6966, 6970); (6972, 6972); (6978, 6978); (7019, 7027); (7040, 7041); (7074, 7077);
  (7080, 7081); (7083, 7085); (7142, 7142); (7144, 7145); (7149, 7149); (7151, 7153);
  (7212, 7219); (7222, 7223); (7288, 7293); (7376, 7378); (7380, 7392); (7394, 7400);
  (7405, 7405); (7412, 7412); (7416, 7417); (7468, 7530); (7544, 7544); (7579, 7679);
  (8125, 8125); (8127, 8129); (8141, 8143); (8157, 8159); (8173, 8175); (8189, 8190);
  (8203, 8207); (8216, 8217); (8228, 8228); (8231, 8231); (8234, 8238); (8288, 8292);
  (8294, 8303); (8305, 8305); (8319, 8319); (8336, 8348); (8400, 8432); (11388, 11389);
  (11503, 11505); (11631, 11631); (11647, 11647); (11744, 11775); (11823, 11823); (12293, 12293);
  (12330, 12333); (12337, 12341); (12347, 12347); (12441, 12446); (12540, 12542); (40981, 40981);
  (42232, 42237); (42508, 42508); (42607, 42610); (42612, 42621); (42623, 42623); (42652, 42655);
  (42736, 42737); (42752, 42785); (42864, 42864); (42888, 42890); (42994, 42996); (43000, 43001);
  (43010, 43010); (43014, 43014); (43019, 43019); (43045, 43046); (43052, 43052); (43204, 43205);
  (43232, 43249); (43263, 43263); (43302, 43309); (43335, 43345); (43392, 43394); (43443, 43443);
  (43446, 43449); (43452, 43453); (43471, 43471); (43493, 43494); (43561, 43566); (43569, 43570);
  (43573, 43574); (43587, 43587); (43596, 43596); (43632, 43632); (43644, 43644); (43696, 43696);
  (43698, 43700); (43703, 43704); (43710, 43711); (43713, 43713); (43741, 43741); (43756, 43757);
  (43763, 43764); (43766, 43766); (43867, 43871); (43881, 43883); (44005, 44005); (44008, 44008);
  (44013, 44013); (64286, 64286); (64434, 64450); (65024, 65039); (65043, 65043); (65056, 65071);
  (65106, 65106); (65109, 65109); (65279, 65279); (65287, 65287); (65294, 65294); (65306, 65306);
  (65342, 65342); (65344, 65344); (65392, 65392); (65438, 65439); (65507, 65507); (65529, 65531);
  (66045, 66045); (66272, 66272); (66422, 66426); (67456, 67461); (67463, 67504); (67506, 67514);
  (68097, 68099); (68101, 68102); (68108, 68111); (68152, 68154); (68159, 68159); (68325, 68326);
  (68900, 68903); (69291, 69292); (69446, 69456); (69506, 69509); (69633, 69633); (69688, 69702);
  (69744, 69744); (69747, 69748); (69759, 69761); (69811, 69814); (69817, 69818); (69821, 69821);
  (69826, 69826); (69837, 69837); (69888, 69890); (69927, 69931); (69933, 69940); (70003, 70003);
  (70016, 70017); (70070, 70078); (70089, 70092); (70095, 70095); (70191, 70193); (70196, 70196);
  (70198, 70199); (70206, 70206); (70367, 70367); (70371, 70378); (70400, 70401); (70459, 70460);
  (70464, 70464); (70502, 70508); (70512, 70516); (70712, 70719); (70722, 70724); (70726, 70726);
  (70750, 70750); (70835, 70840); (70842, 70842); (70847, 70848); (70850, 70851); (71090, 71093);
  (71100, 71101); (71103, 71104); (71132, 71133); (71219, 71226); (71229, 71229); (71231, 71232);
  (71339, 71339); (71341, 71341); (71344, 71349); (71351, 71351); (71453, 71455); (71458, 71461);
  (71463, 71467); (71727, 71735); (71737, 71738); (71995, 71996); (71998, 71998); (72003, 72003);
  (72148, 72151); (72154, 72155); (72160, 72160); (72193, 72202); (72243, 72248); (72251, 72254);
  (72263, 72263); (72273, 72278); (72281, 72283); (72330, 72342); (72344, 72345); (72752, 72758);
  (72760, 72765); (72767, 72767); (72850, 72871); (72874, 72880); (72882, 72883); (72885, 72886);
  (73009, 73014); (73018, 73018); (73020, 73021); (73023, 73029); (73031, 73031); (73104, 73105);
  (73109, 73109); (73111, 73111); (73459, 73460); (78896, 78904); (92912, 92916); (92976, 92982);
  (92992, 92995); (94031, 94031); (94095, 94111); (94176, 94177); (94179, 94180); (110576, 110579);
  (110581, 110587); (110589, 110590); (113821, 113822); (113824, 113827); (118528, 118573); (118576, 118598);
  (119143, 119145); (119155, 119170); (119173, 119179); (119210, 119213); (119362, 119364); (121344, 121398);
  (121403, 121452); (121461, 121461); (121476, 121476); (121499, 121503); (121505, 121519); (122880, 122886);
  (122888, 122904); (122907, 122913); (122915, 122916); (122918, 122922); (123184, 123197); (123566, 123566);
  (123628, 123631); (125136, 125142); (125252, 125259); (127995, 127999); (917505, 917505); (917536, 917631);
  (917760, 917999)
])%Z.

Definition cased_ranges : list (Z * Z) := ([
  (65, 90); (97, 122); (170, 170); (181, 181); (186, 186); (192, 214);
  (216, 246); (248, 442); (444, 447); (452, 659); (661, 687); (880, 883);
  (886, 887); (891, 893); (895, 895); (902, 902); (904, 906); (908, 908);
  (910, 929); (931, 1013); (1015, 1153); (1162, 1327); (1329, 1366); (1376, 1416);
  (4256, 4293); (4295, 4295); (4301, 4301); (4304, 4346); (4349, 4351); (5024, 5109);
  (5112, 5117); (7296, 7304); (7312, 7354); (7357, 7359); (7424, 7467); (7531, 7543);
  (7545, 7578); (7680, 7957); (7960, 7965); (7968, 8005); (8008, 8013); (8016, 8023);
  (8025, 8025); (8027, 8027); (8029, 8029); (8031, 8061); (8064, 8116); (8118, 8124);
  (8126, 8126); (8130, 8132); (8134, 8140); (8144, 8147); (8150, 8155); (8160, 8172);
  (8178, 8180); (8182, 8188); (8450, 8450); (8455, 8455); (8458, 8467); (8469, 8469);
  (8473, 8477); (8484, 8484); (8486, 8486); (8488, 8488); (8490, 8493); (8495, 8500);
  (8505, 8505); (8508, 8511); (8517, 8521); (8526, 8526); (8544, 8575); (8579, 8580);
  (9398, 9449); (11264, 11387); (11390, 11492); (11499, 11502); (11506, 11507); (11520, 11557);
  (11559, 11559); (11565, 11565); (42560, 42605); (42624, 42651); (42786, 42863); (42865, 42887);
  (42891, 42894); (42896, 42954); (42960, 42961); (42963, 42963); (42965, 42969); (42997, 42998);
  (43002, 43002); (43824, 43866); (43872, 43880); (43888, 43967); (64256, 64262); (64275, 64279);
  (65313, 65338); (65345, 65370); (66560, 66639); (66736, 66771); (66776, 66811); (66928, 66938);
  (66940, 66954); (66956, 66962); (66964, 66965); (66967, 66977); (66979, 66993); (66995, 67001);
  (67003, 67004); (68736, 68786); (68800, 68850); (71840, 71903); (93760, 93823); (119808, 119892);
  (119894, 119964); (119966, 119967); (119970, 119970); (119973, 119974); (119977, 119980); (119982, 119993);
  (119995, 119995); (119997, 120003); (120005, 120069); (120071, 120074); (120077, 120084); (120086, 120092);
  (120094, 120121); (120123, 120126); (120128, 120132); (120134, 120134); (120138, 120144); (120146, 120485);
  (120488, 120512); (120514, 120538); (120540, 120570); (120572, 120596); (120598, 120628); (120630, 120654);
  (120656, 120686); (120688, 120712); (120714, 120744); (120746, 120770); (120772, 120779); (122624, 122633);
  (122635, 122654); (125184, 125251); (127280, 127305); (127312, 127337); (127344, 127369)
])%Z.

(** The first character that is not case-ignorable. *)
Fixpoint first_not_ignorable (cs : list Z) : option Z :=
  match cs with
  | [] => None
  | c :: cs' => if in_ranges case_ignorable_ranges c then first_not_ignorable cs' else Some c
  end.

(** [before] is the text before the sigma, nearest character first. *)
Definition final_sigma (before after : list Z) : bool :=
  match first_not_ignorable before with
  | Some b =>
      in_ranges cased_ranges b &&
      match first_not_ignorable after with
      | Some a => negb (in_ranges cased_ranges a)
      | None => true
      end
  | None => false
  end.

(** [lower_ucs4]: the lowercase of the character [c] found between
    [before] (reversed) and [after]. *)
Definition lower_at (before : list Z) (c : Z) (after : list Z) : list Z :=
  if bool_decide (c = 931)%Z then [if final_sigma before after then 962%Z else 963%Z] else lower_cp c.

Fixpoint lower_go (before cps : list Z) : list Z :=
  match cps with
  | [] => []
  | c :: rest => lower_at before c rest ++ lower_go (c :: before) rest
  end.

(** [str.lower()] on code points. *)
Definition lower_str (cps : list Z) : list Z := lower_go [] cps.

(** ** Bytes *)

Lemma byte_val_range a : (0 <= byte_val a < 256)%Z.
Proof. unfold byte_val. destruct a as [[] [] [] [] [] [] [] []]; vm_compute; split; congruence. Qed.

Lemma byte_of_val a : byte_of (byte_val a) = a.
Proof. unfold byte_of, byte_val. rewrite N2Z.id. apply Ascii.ascii_N_embedding. Qed.

Lemma byte_val_of z : (0 <= z < 256)%Z -> byte_val (byte_of z) = z.
Proof.
  intros Hz. unfold byte_of, byte_val. rewrite Ascii.N_ascii_embedding by lia. lia.
Qed.

Lemma in_range_spec lo hi z : in_range lo hi z = true <-> (lo <= z <= hi)%Z.
Proof. unfold in_range. by rewrite bool_decide_eq_true. Qed.

Lemma is_scalar_spec c : is_scalar c = true <-> (0 <= c <= 1114111 /\ ~ (55296 <= c <= 57343))%Z.
Proof.
  unfold is_scalar. rewrite andb_true_iff, negb_true_iff, bool_decide_eq_true, bool_decide_eq_false.
  done.
Qed.

(** What a lead byte says about the byte and its payload. *)
Lemma utf8_lead_Some b k v lo hi :
  utf8_lead b = Some (k, v, lo, hi) ->
  (k = 0%nat /\ v = b /\ b < 128)%Z
  \/ (k = 1%nat /\ 194 <= b <= 223 /\ v = b - 192 /\ lo = 128 /\ hi = 191)%Z
  \/ (k = 2%nat /\ 224 <= b <= 239 /\ v = b - 224
      /\ lo = (if bool_decide (b = 224) then 160 else 128)
      /\ hi = (if bool_decide (b = 237) then 159 else 191))%Z
  \/ (k = 3%nat /\ 240 <= b <= 244 /\ v = b - 240
      /\ lo = (if bool_decide (b = 240) then 144 else 128)
      /\ hi = (if bool_decide (b = 244) then 143 else 191))%Z.
Proof.
  unfold utf8_lead, in_range.
  repeat case_bool_decide; intros E; simplify_eq; subst;
    repeat case_bool_decide; first [lia | naive_solver lia].
Qed.

Lemma byte_of_eq z a : z = byte_val a -> byte_of z = a.
Proof. intros ->. apply byte_of_val. Qed.

Lemma utf8_valid_cons o l :
  forallb (fun o : option Z => match o with Some _ => true | None => false end) (o :: l) = true ->
  exists v, o = Some v.
Proof. destruct o as [v|]; [by exists v|done]. Qed.

(** Strong induction on the length of a byte string, the decoder
    consuming up to four bytes a step. *)
Lemma string_len_ind (P : string -> Prop) :
  (forall s, (forall t, String.length t < String.length s -> P t) -> P s) -> forall s, P s.
Proof.
  intros H s. remember (String.length s) as n eqn:E. revert s E.
  induction n as [n IH] using (well_founded_induction lt_wf). intros s ->.
  apply H. intros t Ht. by apply (IH _ Ht).
Qed.

Ltac byte_ranges :=
  repeat match goal with
  | a : Ascii.ascii |- _ =>
      lazymatch goal with
      | _ : (0 <= byte_val a < 256)%Z |- _ => fail
      | _ => pose proof (byte_val_range a)
      end
  end.

(** A well-formed sequence encodes back to its bytes: the shared step of
    the encoding lemmas below. *)
Ltac encode_back :=
  unfold utf8_encode_cp, cont; rewrite is_scalar_spec;
  repeat case_bool_decide; try lia;
  (split; [lia|repeat f_equal; apply byte_of_eq; Z.div_mod_to_equations; lia]).

Lemma utf8_lead_cases b k v lo hi :
  utf8_lead b = Some (k, v, lo, hi) ->
  (k = 0%nat /\ v = b /\ b < 128)%Z
  \/ (k = 1%nat /\ 194 <= b <= 223 /\ v = b - 192 /\ lo = 128 /\ hi = 191)%Z
  \/ (k = 2%nat /\ 224 <= b <= 239 /\ v = b - 224 /\ 128 <= lo /\ hi <= 191
      /\ (b = 224 -> lo = 160) /\ (b = 237 -> hi = 159))%Z
  \/ (k = 3%nat /\ 240 <= b <= 244 /\ v = b - 240 /\ 128 <= lo /\ hi <= 191
      /\ (b = 240 -> lo = 144) /\ (b = 244 -> hi = 143))%Z.
Proof.
  intros H. apply utf8_lead_Some in H.
  destruct H as [?|[?|[(?&?&?&->&->)|(?&?&?&->&->)]]]; [by left|right; by left|..];
    do 2 right; [left|right]; repeat case_bool_decide; lia.
Qed.

Lemma utf8_encode_cont0 a v lo hi :
  utf8_lead (byte_val a) = Some (0%nat, v, lo, hi) ->
  is_scalar v = true /\ utf8_encode_cp v = String a "".
Proof.
  intros L%utf8_lead_cases. byte_ranges. destruct L as [(_&->&?)|[?|[?|?]]]; [|lia..]. encode_back.
Qed.

Lemma utf8_encode_cont1 a b v lo hi :
  utf8_lead (byte_val a) = Some (1%nat, v, lo, hi) -> in_range lo hi (byte_val b) = true ->
  is_scalar (cont v b) = true /\ utf8_encode_cp (cont v b) = String a (String b "").
Proof.
  intros L%utf8_lead_cases Hb%in_range_spec. byte_ranges.
  destruct L as [?|[(_&?&->&->&->)|[?|?]]]; [lia| |lia..]. encode_back.
Qed.

Lemma utf8_encode_cont2 a b c v lo hi :
  utf8_lead (byte_val a) = Some (2%nat, v, lo, hi) -> in_range lo hi (byte_val b) = true ->
  in_range 128 191 (byte_val c) = true ->
  is_scalar (cont (cont v b) c) = true
  /\ utf8_encode_cp (cont (cont v b) c) = String a (String b (String c "")).
Proof.
  intros L%utf8_lead_cases Hb%in_range_spec Hc%in_range_spec. byte_ranges.
  destruct L as [?|[?|[(_&?&->&?&?&Hlo&Hhi)|?]]]; [lia..| |lia].
  destruct (decide (byte_val a = 224)%Z); [specialize (Hlo ltac:(done))|];
  (destruct (decide (byte_val a = 237)%Z); [specialize (Hhi ltac:(done))|]); encode_back.
Qed.

Lemma utf8_encode_cont3 a b c d v lo hi :
  utf8_lead (byte_val a) = Some (3%nat, v, lo, hi) -> in_range lo hi (byte_val b) = true ->
  in_range 128 191 (byte_val c) = true -> in_range 128 191 (byte_val d) = true ->
  is_scalar (cont (cont (cont v b) c) d) = true
  /\ utf8_encode_cp (cont (cont (cont v b) c) d) = String a (String b (String c (String d ""))).
Proof.
  intros L%utf8_lead_cases Hb%in_range_spec Hc%in_range_spec Hd%in_range_spec. byte_ranges.
  destruct L as [?|[?|[?|(_&?&->&?&?&Hlo&Hhi)]]]; [lia..|].
  destruct (decide (byte_val a = 240)%Z); [specialize (Hlo ltac:(done))|];
  (destruct (decide (byte_val a = 244)%Z); [specialize (Hhi ltac:(done))|]); encode_back.
Qed.

(** ** One step of the decoder *)

Ltac emit pre r :=
  eexists _, pre, r; split_and!; [done|done|done|
    first [by intros ? ? | intros ? [= <-]; by eapply utf8_encode_cont0 || eauto using
      utf8_encode_cont1, utf8_encode_cont2, utf8_encode_cont3]].

(** Each step of [utf8_decode_raw] consumes a non-empty prefix [pre] of
    its input and emits one item; an emitted value is a scalar value
    whose encoding is exactly [pre]. *)
Lemma utf8_decode_raw_step a s1 :
  exists o pre r, String a s1 = pre +:+ r /\ pre <> "" /\
    utf8_decode_raw (String a s1) = o :: utf8_decode_raw r /\
    (forall v, o = Some v -> is_scalar v = true /\ utf8_encode_cp v = pre).
Proof.
  cbn [utf8_decode_raw]. destruct (utf8_lead (byte_val a)) as [[[[k v] lo] hi]|] eqn:L;
    [|emit (String a "") s1].
  destruct k as [|[|[|[|k]]]]; [emit (String a "") s1| | | |].
  - destruct s1 as [|b s2]; [emit (String a "") ""|].
    destruct (in_range lo hi (byte_val b)) eqn:Hb; [emit (String a (String b "")) s2|emit (String a "") (String b s2)].
  - destruct s1 as [|b s2]; [emit (String a "") ""|].
    destruct (in_range lo hi (byte_val b)) eqn:Hb; [|emit (String a "") (String b s2)].
    destruct s2 as [|c s3]; [emit (String a (String b "")) ""|].
    destruct (in_range 128 191 (byte_val c)) eqn:Hc;
      [emit (String a (String b (String c ""))) s3|emit (String a (String b "")) (String c s3)].
  - destruct s1 as [|b s2]; [emit (String a "") ""|].
    destruct (in_range lo hi (byte_val b)) eqn:Hb; [|emit (String a "") (String b s2)].
    destruct s2 as [|c s3]; [emit (String a (String b "")) ""|].
    destruct (in_range 128 191 (byte_val c)) eqn:Hc; [|emit (String a (String b "")) (String c s3)].
    destruct s3 as [|d s4]; [emit (String a (String b (String c ""))) ""|].
    destruct (in_range 128 191 (byte_val d)) eqn:Hd;
      [emit (String a (String b (String c (String d "")))) s4
      |emit (String a (String b (String c ""))) (String d s4)].
  - apply utf8_lead_cases in L. lia.
Qed.

Lemma utf8_lead_1 b : (194 <= b <= 223)%Z -> utf8_lead b = Some (1%nat, b - 192, 128, 191)%Z.
Proof. intros Hb. unfold utf8_lead, in_range. repeat case_bool_decide; done || lia. Qed.

Lemma utf8_lead_2 b : (224 <= b <= 239)%Z ->
  utf8_lead b = Some (2%nat, b - 224, if bool_decide (b = 224) then 160 else 128,
                      if bool_decide (b = 237) then 159 else 191)%Z.
Proof.
  intros Hb. unfold utf8_lead, in_range. repeat case_bool_decide; subst; try done; lia.
Qed.

Lemma utf8_lead_3 b : (240 <= b <= 244)%Z ->
  utf8_lead b = Some (3%nat, b - 240, if bool_decide (b = 240) then 144 else 128,
                      if bool_decide (b = 244) then 143 else 191)%Z.
Proof.
  intros Hb. unfold utf8_lead, in_range. repeat case_bool_decide; subst; try done; lia.
Qed.

(** The base-64 digits of a code point, as the encoder writes them. *)
Lemma digits64 c : (0 <= c ->
  c = (c / 64) * 64 + c mod 64
  /\ c / 64 = (c / 4096) * 64 + (c / 64) mod 64
  /\ c / 4096 = (c / 262144) * 64 + (c / 4096) mod 64
  /\ 0 <= c mod 64 < 64 /\ 0 <= (c / 64) mod 64 < 64 /\ 0 <= (c / 4096) mod 64 < 64)%Z.
Proof. intros Hc. Z.div_mod_to_equations. lia. Qed.

Ltac in_range_true := apply in_range_spec; repeat case_bool_decide; lia.

Lemma utf8_decode_raw_enc1 c rest : (0 <= c < 128)%Z ->
  utf8_decode_raw (utf8_encode_cp c +:+ rest) = Some c :: utf8_decode_raw rest.
Proof.
  intros Hc. unfold utf8_encode_cp. rewrite bool_decide_eq_true_2 by lia.
  rewrite string_app_cons, string_app_nil_l. cbn [utf8_decode_raw].
  rewrite byte_val_of by lia. unfold utf8_lead. by rewrite bool_decide_eq_true_2 by lia.
Qed.

Lemma utf8_decode_raw_enc2 c rest : (128 <= c < 2048)%Z ->
  utf8_decode_raw (utf8_encode_cp c +:+ rest) = Some c :: utf8_decode_raw rest.
Proof.
  intros Hc. unfold utf8_encode_cp. rewrite bool_decide_eq_false_2, bool_decide_eq_true_2 by lia.
  pose proof (digits64 c ltac:(lia)). assert (194 <= c / 64 + 192 <= 223)%Z by (Z.div_mod_to_equations; lia).
  rewrite !string_app_cons, string_app_nil_l. cbn [utf8_decode_raw].
  rewrite !byte_val_of, utf8_lead_1 by lia.
  replace (in_range _ _ _) with true by (symmetry; in_range_true). unfold cont.
  rewrite !byte_val_of by lia. do 2 f_equal. lia.
Qed.

Lemma utf8_decode_raw_enc3 c rest : (2048 <= c < 65536)%Z -> ~ (55296 <= c <= 57343)%Z ->
  utf8_decode_raw (utf8_encode_cp c +:+ rest) = Some c :: utf8_decode_raw rest.
Proof.
  intros Hc Hs. unfold utf8_encode_cp. rewrite !bool_decide_eq_false_2, bool_decide_eq_true_2 by lia.
  pose proof (digits64 c ltac:(lia)).
  assert (224 <= c / 4096 + 224 <= 239 /\ (c / 4096 = 0 -> 32 <= (c / 64) mod 64)
          /\ (c / 4096 = 13 -> (c / 64) mod 64 <= 31))%Z by (Z.div_mod_to_equations; lia).
  rewrite !string_app_cons, string_app_nil_l. cbn [utf8_decode_raw].
  rewrite !byte_val_of, utf8_lead_2 by lia.
  replace (in_range _ _ (_ + (c / 64) mod 64)) with true by (symmetry; in_range_true).
  replace (in_range _ _ _) with true by (symmetry; in_range_true). unfold cont.
  rewrite !byte_val_of by lia. do 2 f_equal. lia.
Qed.

Lemma utf8_decode_raw_enc4 c rest : (65536 <= c <= 1114111)%Z ->
  utf8_decode_raw (utf8_encode_cp c +:+ rest) = Some c :: utf8_decode_raw rest.
Proof.
  intros Hc. unfold utf8_encode_cp. rewrite !bool_decide_eq_false_2 by lia.
  pose proof (digits64 c ltac:(lia)).
  assert (240 <= c / 262144 + 240 <= 244 /\ (c / 262144 = 0 -> 16 <= (c / 4096) mod 64)
          /\ (c / 262144 = 4 -> (c / 4096) mod 64 <= 15))%Z by (Z.div_mod_to_equations; lia).
  rewrite !string_app_cons, string_app_nil_l. cbn [utf8_decode_raw].
  rewrite !byte_val_of, utf8_lead_3 by lia.
  replace (in_range _ _ (_ + (c / 4096) mod 64)) with true by (symmetry; in_range_true).
  replace (in_range 128 191 (_ + (c / 64) mod 64)) with true by (symmetry; in_range_true).
  replace (in_range _ _ _) with true by (symmetry; in_range_true). unfold cont.
  rewrite !byte_val_of by lia. do 2 f_equal. lia.
Qed.

(** Decoding the encoding of a scalar value gives it back, whatever
    follows. *)
Lemma utf8_decode_raw_encode_cp c rest :
  is_scalar c = true -> utf8_decode_raw (utf8_encode_cp c +:+ rest) = Some c :: utf8_decode_raw rest.
Proof.
  rewrite is_scalar_spec. intros Hc.
  destruct (decide (c < 128)%Z); [apply utf8_decode_raw_enc1; lia|].
  destruct (decide (c < 2048)%Z); [apply utf8_decode_raw_enc2; lia|].
  destruct (decide (c < 65536)%Z); [apply utf8_decode_raw_enc3; lia|apply utf8_decode_raw_enc4; lia].
Qed.

Lemma utf8_encode_app l1 l2 : utf8_encode (l1 ++ l2) = utf8_encode l1 +:+ utf8_encode l2.
Proof. induction l1 as [|c l1 IH]; [done|]. cbn. by rewrite IH, string_app_assoc. Qed.

Lemma utf8_decode_raw_encode cps :
  Forall (fun c => is_scalar c = true) cps -> utf8_decode_raw (utf8_encode cps) = map Some cps.
Proof.
  induction 1 as [|c cps Hc _ IH]; [done|]. cbn [utf8_encode]. by rewrite utf8_decode_raw_encode_cp, IH.
Qed.

Lemma step_shorter (s pre r : string) :
  s = pre +:+ r -> pre <> "" -> String.length r < String.length s.
Proof. intros -> Hpre. rewrite string_length_app. destruct pre; [done|]. cbn. lia. Qed.

Lemma utf8_decode_encode cps :
  Forall (fun c => is_scalar c = true) cps -> utf8_decode (utf8_encode cps) = cps.
Proof.
  intros Hcps. unfold utf8_decode. rewrite utf8_decode_raw_encode by done.
  rewrite map_map. apply map_id.
Qed.

Lemma utf8_encode_decode_valid s : utf8_valid s = true -> utf8_encode (utf8_decode s) = s.
Proof.
  induction s as [s IH] using string_len_ind. destruct s as [|a s1]; [done|]. intros Hv.
  destruct (utf8_decode_raw_step a s1) as (o & pre & r & Hs & Hpre & Hd & Ho).
  unfold utf8_valid, utf8_decode in *. rewrite Hd in Hv |- *.
  destruct (utf8_valid_cons _ _ Hv) as [v ->]. destruct (Ho v eq_refl) as [_ Henc].
  cbn in Hv |- *. rewrite Henc, IH; [done| |done]. by eapply step_shorter.
Qed.


Lemma utf8_decode_scalar_len s :
  Forall (fun c => is_scalar c = true) (utf8_decode s) /\ length (utf8_decode s) <= String.length s.
Proof.
  induction s as [s IH] using string_len_ind. destruct s as [|a s1]; [cbn; split; [constructor|lia]|].
  destruct (utf8_decode_raw_step a s1) as (o & pre & r & Hs & Hpre & Hd & Ho).
  pose proof (step_shorter _ _ _ Hs Hpre) as Hlt. destruct (IH r Hlt) as [Hall Hlen].
  unfold utf8_decode in *. rewrite Hd. cbn [map length].
  split; [|lia]. constructor; [|done]. destruct o as [v|]; [apply (Ho v eq_refl)|done].
Qed.


(** ** Lowercasing a character *)

Lemma in_run_range c lo hi d st : in_run c (lo, hi, d, st) = true -> (lo <= c <= hi)%Z.
Proof. cbn. intros [H _]%andb_true_iff. by apply in_range_spec. Qed.

(** Every run but the ASCII one starts above ["~"]. *)
Lemma lower_runs_head :
  exists rest, lower_runs = (65, 90, 32, 1)%Z :: rest /\ Forall (fun r => 192 <= r.1.1.1)%Z rest.
Proof. exists (tail lower_runs). split; [reflexivity|].
  refine (bool_decide_unpack _ _). vm_compute. exact I. Qed.

(** Every run lowers into scalar values, and the only runs that lower
    into ASCII are the ASCII capitals and U+212A KELVIN SIGN. *)
Definition run_ok (r : Z * Z * Z * Z) : bool :=
  let '(lo, hi, d, _) := r in
  bool_decide (0 <= lo + d /\ hi + d <= 1114111 /\ (hi + d < 55296 \/ 57343 < lo + d))%Z
  && (bool_decide (r = (65, 90, 32, 1)%Z) || bool_decide (r = (8490, 8490, -8383, 1)%Z)
      || bool_decide (128 <= lo + d)%Z).

Lemma lower_runs_ok : forallb run_ok lower_runs = true.
Proof. vm_compute. reflexivity. Qed.

Lemma lower_run_found c lo hi d st :
  List.find (in_run c) lower_runs = Some (lo, hi, d, st) ->
  (lo <= c <= hi)%Z /\ run_ok (lo, hi, d, st) = true.
Proof.
  intros [Hin Hrun]%find_some. split; [by eapply in_run_range|].
  pose proof lower_runs_ok as Hok. rewrite forallb_forall in Hok. auto.
Qed.

Lemma lower_cp_ascii c : (0 <= c < 128)%Z ->
  lower_cp c = [if bool_decide (65 <= c <= 90)%Z then (c + 32)%Z else c].
Proof.
  intros Hc. unfold lower_cp. rewrite bool_decide_eq_false_2 by lia.
  destruct lower_runs_head as (rest & Hl & Hrest). rewrite Hl. cbn [List.find].
  unfold in_run at 1. unfold in_range. case_bool_decide; [done|]. cbn [andb].
  destruct (List.find (in_run c) rest) as [[[[lo hi] d] st]|] eqn:Hf; [|done].
  apply find_some in Hf as [Hin Hrun%in_run_range]. rewrite Forall_forall in Hrest.
  specialize (Hrest _ (proj2 (list_elem_of_In _ _) Hin)). cbn in Hrest. lia.
Qed.

Lemma lower_cp_scalar c : is_scalar c = true -> Forall (fun x => is_scalar x = true) (lower_cp c).
Proof.
  rewrite is_scalar_spec. intros Hc. unfold lower_cp. case_bool_decide; [by repeat constructor|].
  destruct (List.find _ _) as [[[[lo hi] d] st]|] eqn:Hf; [|constructor; [by apply is_scalar_spec|done]].
  apply lower_run_found in Hf as [Hr Hok]. unfold run_ok in Hok.
  apply andb_true_iff in Hok as [Hb _]. apply bool_decide_eq_true in Hb.
  constructor; [apply is_scalar_spec; lia|done].
Qed.

(** The characters whose lowercase is one ASCII character: ASCII
    characters other than capitals lower to themselves, the capitals to
    their small letters, and U+212A KELVIN SIGN to ["k"]. *)
Lemma lower_cp_to_ascii c a : lower_cp c = [a] -> (0 <= a < 128)%Z ->
  (c = a /\ ~ (65 <= c <= 90))%Z \/ (65 <= c <= 90 /\ a = c + 32)%Z \/ (c = 8490 /\ a = 107)%Z.
Proof.
  intros Hl Ha. destruct (decide (0 <= c < 128)%Z) as [Hc|Hc].
  { rewrite lower_cp_ascii in Hl by done. case_bool_decide; simplify_eq; lia. }
  revert Hl. unfold lower_cp. case_bool_decide; [done|].
  destruct (List.find _ _) as [[[[lo hi] d] st]|] eqn:Hf; [|intros [= ->]; lia].
  intros [= <-]. apply lower_run_found in Hf as [Hr Hok]. unfold run_ok in Hok.
  apply andb_true_iff in Hok as [_ Hok]. repeat case_bool_decide; simplify_eq/=; lia.
Qed.

Lemma lower_cp_single c : c <> 304%Z -> exists x, lower_cp c = [x].
Proof.
  intros Hc. unfold lower_cp. rewrite bool_decide_eq_false_2 by done.
  destruct (List.find _ _) as [[[[lo hi] d] st]|]; eauto.
Qed.

(** ** ASCII strings *)

(** Every byte is ASCII: the string is its own list of code points. *)
Fixpoint string_ascii (s : string) : bool :=
  match s with
  | EmptyString => true
  | String a s' => bool_decide (byte_val a < 128)%Z && string_ascii s'
  end.

Lemma utf8_decode_ascii_cons a s :
  (byte_val a < 128)%Z -> utf8_decode (String a s) = byte_val a :: utf8_decode s.
Proof. intros Ha. unfold utf8_decode. cbn. unfold utf8_lead. by rewrite bool_decide_eq_true_2. Qed.

Lemma string_ascii_app a b : string_ascii (a +:+ b) = string_ascii a && string_ascii b.
Proof. induction a as [|x a IH]; [done|]. rewrite string_app_cons. cbn. rewrite IH. apply andb_assoc. Qed.

#[export] Hint Rewrite string_ascii_app : pystr_rw.

Lemma flat_map_lower_scalar cps :
  Forall (fun c => is_scalar c = true) cps ->
  Forall (fun c => is_scalar c = true) (flat_map lower_cp cps).
Proof.
  induction 1 as [|c cps Hc _ IH]; [constructor|]. cbn. apply Forall_app. split; [|done].
  by apply lower_cp_scalar.
Qed.

(** ** Lowercasing into ASCII *)

(** [c] lowers to the ASCII character [a]. *)
Definition lowers_to (c a : Z) : Prop :=
  (c = a /\ ~ (65 <= c <= 90))%Z \/ (65 <= c <= 90 /\ a = c + 32)%Z \/ (c = 8490 /\ a = 107)%Z.

Lemma lower_cp_ascii_iff c a : (0 <= a < 128)%Z -> lower_cp c = [a] <-> lowers_to c a.
Proof.
  intros Ha. split; [intros Hl; by apply lower_cp_to_ascii|].
  intros [[-> Hu]|[[Hu ->]|[-> ->]]]; [| |vm_compute; reflexivity];
    rewrite lower_cp_ascii by lia; case_bool_decide; done || lia.
Qed.

(** The lowercase of a string is a given ASCII string exactly when the
    string lowers to it character by character. *)
Lemma flat_map_lower_ascii cps l :
  Forall (fun a => 0 <= a < 128)%Z l -> flat_map lower_cp cps = l <-> Forall2 lowers_to cps l.
Proof.
  revert l. induction cps as [|c cps IH]; intros l Hl.
  - cbn. split; [intros <-; constructor|by intros ->%Forall2_nil_inv_l].
  - destruct (decide (c = 304)%Z) as [->|Hc].
    + split.
      * intros Heq. cbn in Heq. subst l. inversion Hl as [|? ? _ H775]. inversion H775. lia.
      * intros (a & l' & Ha & _ & ->)%Forall2_cons_inv_l. apply Forall_cons in Hl as [? _].
        destruct Ha as [[? ?]|[?|[? ?]]]; lia.
    + destruct (lower_cp_single c Hc) as [x Hx]. cbn [flat_map]. rewrite Hx. cbn [app].
      split.
      * intros <-. apply Forall_cons in Hl as [Ha Hl]. constructor; [by apply lower_cp_ascii_iff|by apply IH].
      * intros (a & l' & Ha & Hl' & ->)%Forall2_cons_inv_l. apply Forall_cons in Hl as [Ha' Hl].
        apply lower_cp_ascii_iff in Ha; [|done]. rewrite Hx in Ha. injection Ha as ->. f_equal. by apply IH.
Qed.

(** ** The whole of str.lower *)

Lemma lower_at_not_sigma before c after : c <> 931%Z -> lower_at before c after = lower_cp c.
Proof. intros Hc. unfold lower_at. by rewrite bool_decide_eq_false_2. Qed.

(** Without a capital sigma, lowering is character by character. *)
Lemma lower_go_no_sigma before cps :
  Forall (fun c => c <> 931%Z) cps -> lower_go before cps = flat_map lower_cp cps.
Proof.
  intros Hcps. revert before. induction Hcps as [|c cps Hc _ IH]; intros before; [done|].
  cbn. by rewrite lower_at_not_sigma, IH.
Qed.

(** A capital sigma lowers to a Greek letter, never to ASCII. *)
Lemma lower_go_ascii_no_sigma before cps :
  Forall (fun a => 0 <= a < 128)%Z (lower_go before cps) -> Forall (fun c => c <> 931%Z) cps.
Proof.
  revert before. induction cps as [|c cps IH]; intros before Hl; [constructor|].
  cbn in Hl. apply Forall_app in Hl as [Hc Hl]. constructor; [|by eapply IH].
  intros ->. unfold lower_at in Hc. rewrite bool_decide_eq_true_2 in Hc by done.
  apply Forall_cons in Hc as [Hc _]. destruct (final_sigma _ _); lia.
Qed.

Lemma lower_go_scalar before cps :
  Forall (fun c => is_scalar c = true) cps -> Forall (fun c => is_scalar c = true) (lower_go before cps).
Proof.
  intros Hcps. revert before. induction Hcps as [|c cps Hc _ IH]; intros before; [constructor|].
  cbn. apply Forall_app. split; [|apply IH]. unfold lower_at. case_bool_decide.
  - constructor; [|constructor]. by destruct (final_sigma _ _).
  - by apply lower_cp_scalar.
Qed.

(** The lowercase of a string is a given ASCII string exactly when the
    string lowers to it character by character. *)
Lemma lower_str_ascii cps l :
  Forall (fun a => 0 <= a < 128)%Z l -> lower_str cps = l <-> Forall2 lowers_to cps l.
Proof.
  intros Hl. unfold lower_str. split.
  - intros Heq. pose proof (lower_go_ascii_no_sigma [] cps ltac:(by rewrite Heq)) as Hs.
    rewrite lower_go_no_sigma in Heq by done. by apply flat_map_lower_ascii.
  - intros Hf. rewrite lower_go_no_sigma; [by apply flat_map_lower_ascii|].
    induction Hf as [|c a cps l Hca _ IH]; constructor.
    + apply Forall_cons in Hl as [? _]. destruct Hca as [[? ?]|[[? ?]|[-> ?]]]; lia.
    + apply IH. by apply Forall_cons in Hl as [_ ?].
Qed.
