(* ===== verification/PyStr.v ===== *)
(** * PyStr: the Python string and path operations the handler relies on

    The handler calls [str.lower], [str.join], [str.split], [repr],
    [pathlib.PurePath.name/suffix/stem] and [urllib.parse.unquote_plus].
    None of them is code of the repository: they are modelled from
    CPython 3.11's implementation, on byte strings ([string] of 8-bit
    [ascii]), a Python [str] being represented by its UTF-8 encoding.
    The operations that split at ["/"], ["."] or ["+"] work on the bytes,
    which is the same as on characters since an ASCII byte never occurs
    inside the encoding of another character; [str.lower], [repr] and
    the UTF-8 step of [unquote] decode to code points with Unicode.v.

    Besides the lemmas the other files use (splitting a joined string,
    the name and suffix of [d/n], prefixes), the file proves that
    [unquote_plus] inverts the form encoding [quote_plus] of keys in
    storage notifications. *)

From S2P Require Import Prelude.
From S2P Require Import Unicode.
From Stdlib Require Import DecimalString.
Open Scope stdpp_scope.

(** ** Characters *)

(** [str.lower()]: the code points the bytes encode, lowered by the
    Unicode table with the final-sigma rule, encoded again. *)
Definition py_lower (s : string) : string :=
  utf8_encode (lower_str (utf8_decode s)).

(** [sep.join(items)] *)
Definition py_join (sep : string) (items : list string) : string :=
  String.concat sep items.

(** [s.split(sep)] for a one-character separator: [""] gives [[""]] and
    adjacent separators give empty fields. *)
Fixpoint py_split (sep : Ascii.ascii) (s : string) : list string :=
  match s with
  | EmptyString => [EmptyString]
  | String c s' =>
      let rest := py_split sep s' in
      if bool_decide (c = sep) then EmptyString :: rest
      else match rest with
           | r :: rs => String c r :: rs
           | [] => [String c EmptyString]
           end
  end.

(** [s.rfind(c)], [None] standing for [-1]. *)
Fixpoint py_rfind (c : Ascii.ascii) (s : string) : option nat :=
  match s with
  | EmptyString => None
  | String x s' =>
      match py_rfind c s' with
      | Some i => Some (S i)
      | None => if bool_decide (x = c) then Some 0 else None
      end
  end.

(** ** pathlib.PurePosixPath *)

(** The parts of a relative or absolute POSIX path: [_parse_path] splits
    on ["/"] and drops empty and ["."] components. *)
Definition path_parts (p : string) : list string :=
  filter (fun x => x <> "" /\ x <> ".") (py_split "/"%char p).

(** [PurePath.name]: the last part, or [""]. *)
Definition path_name (p : string) : string :=
  default "" (last (path_parts p)).

(** The index of the dot that separates a suffix, when there is one:
    [0 < i < len(name) - 1]. *)
Definition suffix_dot (name : string) : option nat :=
  match py_rfind "."%char name with
  | Some i => if bool_decide (0 < i < String.length name - 1) then Some i else None
  | None => None
  end.

(** [PurePath.suffix] *)
Definition path_suffix (p : string) : string :=
  let name := path_name p in
  match suffix_dot name with
  | Some i => String.substring i (String.length name - i) name
  | None => ""
  end.

(** [PurePath.stem] *)
Definition path_stem (p : string) : string :=
  let name := path_name p in
  match suffix_dot name with
  | Some i => String.substring 0 i name
  | None => name
  end.

(** ** urllib.parse.unquote_plus *)

Definition is_hex (c : Ascii.ascii) : bool :=
  let n := Ascii.N_of_ascii c in
  bool_decide (48 <= n <= 57)%N || bool_decide (65 <= n <= 70)%N
  || bool_decide (97 <= n <= 102)%N.

Definition hex_val (c : Ascii.ascii) : N :=
  let n := Ascii.N_of_ascii c in
  if bool_decide (n <= 57)%N then n - 48
  else if bool_decide (n <= 70)%N then n - 55 else n - 87.

(** [string.replace('+', ' ')] *)
Fixpoint replace_plus (s : string) : string :=
  match s with
  | EmptyString => EmptyString
  | String c s' => String (if bool_decide (c = "+"%char) then " "%char else c) (replace_plus s')
  end.

(** [unquote]: every ["%"] followed by two hexadecimal digits becomes the
    byte they denote; any other ["%"] is kept. *)
Fixpoint percent_decode (s : string) : string :=
  match s with
  | EmptyString => EmptyString
  | String c rest =>
      if bool_decide (c = "%"%char) then
        match rest with
        | String h1 (String h2 rest') =>
            if is_hex h1 && is_hex h2
            then String (Ascii.ascii_of_N (16 * hex_val h1 + hex_val h2)) (percent_decode rest')
            else String c (percent_decode rest)
        | _ => String c (percent_decode rest)
        end
      else String c (percent_decode rest)
  end.

(** [unquote_to_bytes(run).decode('utf-8', 'replace')] of one ASCII
    run. *)
Definition unquote_run (run : string) : string :=
  utf8_encode (utf8_decode (percent_decode run)).

(** The loop of [unquote] over [_asciire.split(string)]: each maximal
    run of ASCII characters is unquoted and decoded, the characters
    between runs are kept; [run] is the ASCII run read so far. *)
Fixpoint unquote_parts (run s : string) : string :=
  match s with
  | EmptyString => unquote_run run
  | String c s' =>
      if bool_decide (byte_val c < 128)%Z then unquote_parts (run +:+ String c EmptyString) s'
      else unquote_run run +:+ String c (unquote_parts EmptyString s')
  end.

(** [unquote(string)]: a string without ["%"] is returned as it is. *)
Definition py_unquote (s : string) : string :=
  if string_has "%"%char s then unquote_parts EmptyString s else s.

(** [unquote_plus(string)] *)
Definition unquote_plus (s : string) : string := py_unquote (replace_plus s).

(** The form encoding of object keys in storage notifications
    ([quote_plus]): a space becomes ["+"], letters, digits and ["_.-~"]
    are kept, every other byte becomes ["%XX"]. *)
Definition hex_digit (n : N) : Ascii.ascii :=
  if bool_decide (n < 10)%N then Ascii.ascii_of_N (48 + n) else Ascii.ascii_of_N (55 + n).

Definition url_safe (c : Ascii.ascii) : bool :=
  let n := Ascii.N_of_ascii c in
  bool_decide (48 <= n <= 57)%N || bool_decide (65 <= n <= 90)%N
  || bool_decide (97 <= n <= 122)%N || bool_decide (n = 95)%N
  || bool_decide (n = 46)%N || bool_decide (n = 45)%N || bool_decide (n = 126)%N.

Definition quote_char (c : Ascii.ascii) : string :=
  if bool_decide (c = " "%char) then "+"
  else if url_safe c then String c EmptyString
  else let n := Ascii.N_of_ascii c in
       String "%"%char (String (hex_digit (n / 16)) (String (hex_digit (n mod 16)) EmptyString)).

Fixpoint quote_plus (s : string) : string :=
  match s with
  | EmptyString => EmptyString
  | String c s' => quote_char c +:+ quote_plus s'
  end.

(** ** repr of a str *)

Definition dquote : Ascii.ascii := "034"%char.
Definition squote : Ascii.ascii := "039"%char.
Definition bslash : Ascii.ascii := "092"%char.

Definition hex_lower (n : Z) : Ascii.ascii :=
  if bool_decide (n < 10)%Z then byte_of (48 + n) else byte_of (87 + n).

(** The last [n] lowercase hexadecimal digits of [c]. *)
Fixpoint hex_pad (n : nat) (c : Z) : string :=
  match n with
  | O => EmptyString
  | S n' => hex_pad n' (c / 16) +:+ String (hex_lower (c mod 16)) EmptyString
  end.

(** One character of [repr] ([unicode_repr] of CPython), [q] being the
    quote chosen. *)
Definition repr_cp (q : Ascii.ascii) (c : Z) : string :=
  if bool_decide (c = byte_val q) || bool_decide (c = 92)%Z then String bslash (utf8_encode_cp c)
  else if bool_decide (c = 9)%Z then String bslash "t"
  else if bool_decide (c = 10)%Z then String bslash "n"
  else if bool_decide (c = 13)%Z then String bslash "r"
  else if bool_decide (c < 32)%Z || bool_decide (c = 127)%Z then String bslash ("x" +:+ hex_pad 2 c)
  else if bool_decide (c < 127)%Z || is_printable c then utf8_encode_cp c
  else if bool_decide (c <= 255)%Z then String bslash ("x" +:+ hex_pad 2 c)
  else if bool_decide (c <= 65535)%Z then String bslash ("u" +:+ hex_pad 4 c)
  else String bslash ("U" +:+ hex_pad 8 c).

Definition repr_body (q : Ascii.ascii) (s : string) : string :=
  foldr (fun c acc => repr_cp q c +:+ acc) EmptyString (utf8_decode s).

(** [repr(s)]: single quotes unless [s] has a single quote and no double
    quote. *)
Definition py_repr_str (s : string) : string :=
  let q := if string_has squote s && negb (string_has dquote s) then dquote else squote in
  String q (repr_body q s +:+ String q EmptyString).

(** ** Facts about split, join and decimal numerals *)

Lemma py_split_no_sep sep s : string_has sep s = false -> py_split sep s = [s].
Proof.
  induction s as [|c s IH]; [done|]. cbn. intros [Hc Hs]%orb_false_iff.
  rewrite Hc, IH by done. done.
Qed.

Lemma py_split_app_sep sep a b :
  string_has sep a = false -> py_split sep (a +:+ String sep b) = a :: py_split sep b.
Proof.
  induction a as [|c a IH].
  - intros _. rewrite string_app_nil_l. cbn. by rewrite bool_decide_eq_true_2.
  - cbn. intros [Hc Ha]%orb_false_iff. rewrite string_app_cons. cbn. rewrite Hc, IH by done. done.
Qed.

Lemma py_split_nonnil sep s : py_split sep s <> [].
Proof.
  destruct s as [|c s]; cbn; [done|]. case_bool_decide; [done|]. by destruct (py_split sep s).
Qed.

Lemma py_split_app sep a b : py_split sep (a +:+ String sep b) = py_split sep a ++ py_split sep b.
Proof.
  induction a as [|c a IH].
  - rewrite string_app_nil_l. cbn. by rewrite bool_decide_eq_true_2.
  - rewrite string_app_cons. cbn [py_split]. rewrite IH. case_bool_decide; [done|].
    destruct (py_split sep a) eqn:E; [by destruct (py_split_nonnil sep a)|done].
Qed.

(** [sep.join(xs).split(sep) == xs] when no item contains [sep]. *)
Lemma py_split_join sep (xs : list string) :
  xs <> [] -> Forall (fun x => string_has sep x = false) xs ->
  py_split sep (py_join (String sep EmptyString) xs) = xs.
Proof.
  unfold py_join. induction xs as [|x xs IH]; [done|]. intros _ Hall.
  apply Forall_cons in Hall as [Hx Hxs]. destruct xs as [|y ys].
  - by apply py_split_no_sep.
  - change (String.concat (String sep "") (x :: y :: ys))
      with (x +:+ String sep "" +:+ String.concat (String sep "") (y :: ys)).
    rewrite string_app_assoc, <-string_app_assoc with (b := String sep ""), string_app_cons.
    cbn [String.append]. rewrite py_split_app_sep by done. f_equal. by apply IH.
Qed.

Definition decimal_chars : string := "-0123456789".

Lemma string_has_uint c d :
  string_has c (NilEmpty.string_of_uint d) = true -> string_has c decimal_chars = true.
Proof.
  induction d; cbn; try done; intros [H|H]%orb_true_iff; auto;
    apply bool_decide_eq_true in H; subst; reflexivity.
Qed.

Lemma py_str_nat_no c n :
  string_has c decimal_chars = false -> string_has c (py_str_nat n) = false.
Proof.
  intros Hc. destruct (string_has c (py_str_nat n)) eqn:E; [|done].
  apply string_has_uint in E. congruence.
Qed.

Lemma nilzero_uint_no c d :
  string_has c decimal_chars = false -> string_has c (NilZero.string_of_uint d) = false.
Proof.
  intros Hc. unfold NilZero.string_of_uint.
  destruct d;
    [cbn; destruct (decide ("0"%char = c)) as [<-|Hne]; [discriminate Hc|];
     by rewrite bool_decide_eq_false_2
    |(cbv iota beta; destruct (string_has c (NilEmpty.string_of_uint _)) eqn:E; try done;
      apply string_has_uint in E; congruence)..].
Qed.

Lemma py_str_Z_no c z :
  string_has c decimal_chars = false -> string_has c (py_str_Z z) = false.
Proof.
  intros Hc. unfold py_str_Z, NilZero.string_of_int.
  destruct (Z.to_int z) as [d|d]; [by apply nilzero_uint_no|].
  cbn [string_has]. apply orb_false_iff. split; [|by apply nilzero_uint_no].
  apply bool_decide_eq_false_2. intros <-. discriminate Hc.
Qed.

#[export] Hint Resolve py_str_nat_no py_str_Z_no : pystr.

(** ** Prefixes, path names and last separators *)

Lemma string_prefix_iff (p q : string) : String.prefix p q = true <-> exists t, q = p +:+ t.
Proof.
  revert q. induction p as [|c p IH]; intros q.
  - split; [intros _; by exists q|]. by destruct q.
  - destruct q as [|d q]; cbn.
    + split; [done|]. intros [t Ht]. discriminate.
    + destruct (Ascii.ascii_dec c d) as [<-|Hne].
      * rewrite IH. split; intros [t Ht]; exists t; [by rewrite Ht|by injection Ht].
      * split; [done|]. intros [t Ht]. injection Ht. congruence.
Qed.

Lemma py_split_no_sep_items sep s : Forall (fun x => string_has sep x = false) (py_split sep s).
Proof.
  induction s as [|c s IH]; cbn; [by repeat constructor|].
  case_bool_decide as Hc; [by constructor|].
  destruct (py_split sep s) as [|r rs] eqn:E.
  - repeat constructor. cbn. by rewrite bool_decide_eq_false_2.
  - apply Forall_cons in IH as [Hr Hrs]. constructor; [|done].
    cbn. by rewrite bool_decide_eq_false_2, Hr.
Qed.

Lemma path_name_no_slash p : string_has "/"%char (path_name p) = false.
Proof.
  unfold path_name, path_parts. destruct (last _) as [x|] eqn:E; [|done]. cbn.
  apply last_Some_elem_of in E. apply list_elem_of_filter in E as [_ Hx].
  pose proof (py_split_no_sep_items "/"%char p) as Hall. rewrite Forall_forall in Hall. auto.
Qed.

Lemma string_has_substring c n m s :
  string_has c s = false -> string_has c (String.substring n m s) = false.
Proof.
  revert n m. induction s as [|x s IH]; intros n m Hs; destruct n, m; cbn in *; try done.
  - apply orb_false_iff in Hs as [Hx Hs]. rewrite Hx. cbn. auto.
  - apply orb_false_iff in Hs as [_ Hs]. auto.
  - apply orb_false_iff in Hs as [_ Hs]. auto.
Qed.

Lemma path_stem_no_slash p : string_has "/"%char (path_stem p) = false.
Proof.
  unfold path_stem. pose proof (path_name_no_slash p).
  destruct (suffix_dot _); [by apply string_has_substring|done].
Qed.

Lemma py_rfind_app_sep c a b :
  string_has c b = false -> py_rfind c (a +:+ String c b) = Some (String.length a).
Proof.
  intros Hb. induction a as [|x a IH].
  - rewrite string_app_nil_l. cbn.
    assert (Hn : py_rfind c b = None).
    { clear -Hb. induction b as [|y b IHb]; [done|]. cbn in *.
      apply orb_false_iff in Hb as [Hy Hb]. rewrite IHb by done. by rewrite Hy. }
    rewrite Hn. by rewrite bool_decide_eq_true_2.
  - rewrite string_app_cons. cbn. by rewrite IH.
Qed.

Lemma substring_app_prefix a b : String.substring 0 (String.length a) (a +:+ b) = a.
Proof. induction a as [|x a IH]; [by destruct b|]. rewrite string_app_cons. cbn. by rewrite IH. Qed.

Lemma substring_app_suffix a b : String.substring (String.length a) (String.length b) (a +:+ b) = b.
Proof.
  induction a as [|x a IH].
  - rewrite string_app_nil_l. cbn [String.length]. induction b as [|y b IHb]; [done|]. cbn. by rewrite IHb.
  - rewrite string_app_cons. cbn. apply IH.
Qed.

Lemma path_name_simple n : string_has "/"%char n = false -> n <> "" -> n <> "." -> path_name n = n.
Proof.
  intros Hn H1 H2. unfold path_name, path_parts. rewrite py_split_no_sep by done.
  rewrite filter_cons_True by done. done.
Qed.

(** The name of [d/n] is [n] for a plain file name [n], whatever [d]. *)
Lemma path_name_child d n :
  string_has "/"%char n = false -> n <> "" -> n <> "." -> path_name (d +:+ "/" +:+ n) = n.
Proof.
  intros Hn H1 H2. unfold path_name, path_parts. change (d +:+ "/" +:+ n) with (d +:+ String "/"%char n).
  rewrite py_split_app, (py_split_no_sep _ n), filter_app, filter_cons_True by done.
  cbn [filter list_filter]. by rewrite last_snoc.
Qed.

Lemma path_suffix_child d n :
  string_has "/"%char n = false -> n <> "" -> n <> "." -> path_suffix (d +:+ "/" +:+ n) = path_suffix n.
Proof. intros. unfold path_suffix. by rewrite path_name_child, path_name_simple. Qed.

#[export] Hint Resolve path_name_no_slash path_stem_no_slash : pystr.

Lemma string_prefix_app (p t : string) : String.prefix p (p +:+ t) = true.
Proof. apply string_prefix_iff. by exists t. Qed.

Lemma string_prefix_trans (a b c : string) :
  String.prefix a b = true -> String.prefix b c = true -> String.prefix a c = true.
Proof.
  rewrite !string_prefix_iff. intros [t1 ->] [t2 ->]. exists (t1 +:+ t2).
  by rewrite string_app_assoc.
Qed.

Lemma string_prefix_substring i (p : string) : String.prefix (String.substring 0 i p) p = true.
Proof.
  revert i. induction p as [|c p IH]; intros [|i]; cbn; try done.
  destruct (Ascii.ascii_dec c c); [apply IH|done].
Qed.

(** ** Decoding inverts the notification's key encoding *)

Lemma hex_digit_ok k : (k < 16)%N ->
  is_hex (hex_digit k) = true /\ hex_val (hex_digit k) = k /\ (byte_val (hex_digit k) < 128)%Z.
Proof.
  intros Hk.
  assert (k = 0 \/ k = 1 \/ k = 2 \/ k = 3 \/ k = 4 \/ k = 5 \/ k = 6 \/ k = 7 \/ k = 8 \/ k = 9
          \/ k = 10 \/ k = 11 \/ k = 12 \/ k = 13 \/ k = 14 \/ k = 15)%N as Hcases by lia.
  repeat destruct Hcases as [->|Hcases]; subst; vm_compute; auto.
Qed.

Lemma replace_plus_app a b : replace_plus (a +:+ b) = replace_plus a +:+ replace_plus b.
Proof. induction a as [|c a IH]; [done|]. rewrite !string_app_cons. cbn. by rewrite IH. Qed.

Lemma ascii_hex_split c :
  Ascii.ascii_of_N (16 * (Ascii.N_of_ascii c / 16) + Ascii.N_of_ascii c mod 16) = c.
Proof. rewrite <-N.div_mod by lia. apply Ascii.ascii_N_embedding. Qed.

Lemma N_of_ascii_lt c : (Ascii.N_of_ascii c < 256)%N.
Proof. destruct c as [[] [] [] [] [] [] [] []]; vm_compute; reflexivity. Qed.

(** One encoded byte is decoded back, whatever follows it. *)
Lemma decode_quote_char c rest :
  percent_decode (replace_plus (quote_char c +:+ rest)) = String c (percent_decode (replace_plus rest)).
Proof.
  rewrite replace_plus_app. unfold quote_char. case_bool_decide as Hsp; [by subst c|].
  destruct (url_safe c) eqn:Hs.
  - cbn. rewrite bool_decide_eq_false_2; [|by intros ->]. rewrite string_app_cons, string_app_nil_l. cbn.
    rewrite bool_decide_eq_false_2; [done|]. by intros ->.
  - pose proof (N_of_ascii_lt c) as Hlt.
    destruct (hex_digit_ok (Ascii.N_of_ascii c / 16)) as (H1 & V1 & _); [apply N.Div0.div_lt_upper_bound; lia|].
    destruct (hex_digit_ok (Ascii.N_of_ascii c mod 16)) as (H2 & V2 & _); [apply N.mod_lt; lia|].
    assert (Hp : forall k, (k < 16)%N -> hex_digit k <> "+"%char).
    { intros k Hk E. destruct (hex_digit_ok k Hk) as [Hh _]. by rewrite E in Hh. }
    cbn [replace_plus]. rewrite (bool_decide_eq_false_2 (_ = "+"%char)) by done.
    rewrite !(bool_decide_eq_false_2 (hex_digit _ = "+"%char)) by (apply Hp; (apply N.Div0.div_lt_upper_bound || apply N.mod_lt); lia).
    rewrite !string_app_cons, string_app_nil_l. cbn [percent_decode].
    rewrite bool_decide_eq_true_2 by done. rewrite H1, H2. cbn [andb]. by rewrite V1, V2, ascii_hex_split.
Qed.

Lemma percent_decode_quote_plus s : percent_decode (replace_plus (quote_plus s)) = s.
Proof. induction s as [|c s IH]; [done|]. cbn [quote_plus]. by rewrite decode_quote_char, IH. Qed.

Lemma percent_decode_no_pct s : string_has "%"%char s = false -> percent_decode s = s.
Proof.
  induction s as [|c s IH]; [done|]. cbn. intros [Hc Hs]%orb_false_iff. rewrite Hc. by rewrite IH.
Qed.

Lemma url_safe_ascii c : url_safe c = true -> (byte_val c < 128)%Z.
Proof.
  unfold url_safe, byte_val. intros Hs. pose proof (N_of_ascii_lt c).
  rewrite !orb_true_iff, !bool_decide_eq_true in Hs. lia.
Qed.

Lemma string_ascii_replace_plus s : string_ascii s = true -> string_ascii (replace_plus s) = true.
Proof.
  induction s as [|c s IH]; [by intros|]. cbn. intros [Hc Hs]%andb_true_iff. rewrite IH by done.
  destruct (decide (c = "+"%char)) as [->|Hne]; [vm_compute; reflexivity|].
  rewrite (bool_decide_eq_false_2 (c = "+"%char)) by done. by rewrite Hc.
Qed.

Lemma quote_plus_ascii s : string_ascii (quote_plus s) = true.
Proof.
  induction s as [|c s IH]; [done|]. cbn [quote_plus]. rewrite string_ascii_app, IH, andb_true_r.
  unfold quote_char. case_bool_decide; [done|]. destruct (url_safe c) eqn:Hs.
  - cbn. rewrite bool_decide_eq_true_2 by (by apply url_safe_ascii). done.
  - pose proof (N_of_ascii_lt c) as Hlt.
    destruct (hex_digit_ok (Ascii.N_of_ascii c / 16)) as (_ & _ & H1); [apply N.Div0.div_lt_upper_bound; lia|].
    destruct (hex_digit_ok (Ascii.N_of_ascii c mod 16)) as (_ & _ & H2); [apply N.mod_lt; lia|].
    cbn. by rewrite !bool_decide_eq_true_2.
Qed.

(** Within an ASCII string there is one run. *)
Lemma unquote_parts_ascii run s :
  string_ascii s = true -> unquote_parts run s = unquote_run (run +:+ s).
Proof.
  revert run. induction s as [|c s IH]; intros run; cbn.
  - by rewrite string_app_nil_r.
  - intros [Hc Hs]%andb_true_iff. rewrite Hc, IH by done. by rewrite <-string_app_assoc.
Qed.

(** [unquote_plus] inverts the form encoding [quote_plus] of object
    keys in storage notifications: every key that is a [str] (its bytes
    are well-formed UTF-8), with spaces, [+], [%] or any other character,
    is recovered exactly, by the fast path when the encoding has no ["%"]
    and by decoding its ASCII run otherwise. *)
Lemma unquote_plus_quote_plus s : utf8_valid s = true -> unquote_plus (quote_plus s) = s.
Proof.
  intros Hv. unfold unquote_plus, py_unquote. destruct (string_has _ _) eqn:Hp.
  - rewrite unquote_parts_ascii by (apply string_ascii_replace_plus, quote_plus_ascii).
    unfold unquote_run. rewrite string_app_nil_l, percent_decode_quote_plus.
    by apply utf8_encode_decode_valid.
  - by rewrite <-(percent_decode_no_pct _ Hp), percent_decode_quote_plus.
Qed.

(** ["café 1+1.mp4"], a key with a non-ASCII letter, a space and a [+]. *)
Definition cafe_key : string := "caf" +:+ String "195"%char (String "169"%char " 1+1.mp4").

(** ** Lowercasing *)

(** The final sigma: ['.AΣ'.lower()] is ['.aς'], a sigma after a
    letter and before a character that is not cased. *)
Example py_lower_final_sigma :
  py_lower (".A" +:+ String "206"%char (String "163"%char ""))
  = ".a" +:+ String "207"%char (String "130"%char "").
Proof. vm_compute. reflexivity. Qed.
