(* ===== verification/PyObj.v ===== *)
(** * PyObj: the Python values and exceptions the handler manipulates

    The inbound event is a decoded JSON document; the handler indexes it
    with [event["Records"][0]["s3"]...].  This file models JSON values,
    Python's subscript on them with the exceptions it raises, the
    exception classes that reach the handler's [except] clauses, and
    [str(e)] of each. *)

From S2P Require Import Prelude PyStr.
Open Scope stdpp_scope.

#[warnings="-register-all"]
Inductive json : Type :=
| JNull
| JBool (b : bool)
| JInt (z : Z)
| JStr (s : string)
| JList (xs : list json)
| JObj (kvs : list (string * json)).

(** A subscript: [v["name"]] or [v[0]]. *)
Inductive pykey : Type :=
| KStr (s : string)
| KInt (z : Z).

(** The exceptions that reach the handler.  [OSError] carries errno,
    strerror and filename, as [FileNotFoundError], [IsADirectoryError],
    [NotADirectoryError], [FileExistsError] do. *)
Inductive exn : Type :=
| KeyError (k : pykey)
| IndexError (msg : string)
| TypeError (msg : string)
| AttributeError (msg : string)
| ValueError (msg : string)
| RuntimeError (msg : string)
| OSError (errno : Z) (strerror : string) (filename : string)
| ClientError (msg : string).

Definition pykey_repr (k : pykey) : string :=
  match k with
  | KStr s => py_repr_str s
  | KInt z => py_str_Z z
  end.

(** [str(e)] *)
Definition exn_str (e : exn) : string :=
  match e with
  | KeyError k => pykey_repr k
  | IndexError m | TypeError m | AttributeError m | ValueError m
  | RuntimeError m | ClientError m => m
  | OSError n msg f => "[Errno " +:+ py_str_Z n +:+ "] " +:+ msg +:+ ": " +:+ py_repr_str f
  end.

Definition ENOENT : Z := 2.
Definition EEXIST : Z := 17.
Definition ENOTDIR : Z := 20.
Definition EISDIR : Z := 21.

Definition FileNotFoundError (f : string) : exn := OSError ENOENT "No such file or directory" f.
Definition FileExistsError (f : string) : exn := OSError EEXIST "File exists" f.
Definition NotADirectoryError (f : string) : exn := OSError ENOTDIR "Not a directory" f.
Definition IsADirectoryError (f : string) : exn := OSError EISDIR "Is a directory" f.

(** [type(v).__name__] *)
Definition type_name (v : json) : string :=
  match v with
  | JNull => "NoneType"
  | JBool _ => "bool"
  | JInt _ => "int"
  | JStr _ => "str"
  | JList _ => "list"
  | JObj _ => "dict"
  end.

Fixpoint assoc_lookup (k : string) (kvs : list (string * json)) : option json :=
  match kvs with
  | [] => None
  | (k', v) :: kvs' => if bool_decide (k = k') then Some v else assoc_lookup k kvs'
  end.

(** A negative index counts from the end, as in Python. *)
Definition py_index {A} (xs : list A) (i : Z) : option A :=
  let j := if bool_decide (i < 0)%Z then (Z.of_nat (length xs) + i)%Z else i in
  if bool_decide (0 <= j)%Z then xs !! Z.to_nat j else None.

Definition str_chars (s : string) : list Ascii.ascii := String.list_ascii_of_string s.

(** [v[k]] *)
Definition py_getitem (v : json) (k : pykey) : outcome exn json :=
  match v, k with
  | JObj kvs, KStr s =>
      match assoc_lookup s kvs with Some x => Ret x | None => Raise (KeyError k) end
  | JObj _, KInt _ => Raise (KeyError k)
  | JList xs, KInt i =>
      match py_index xs i with Some x => Ret x | None => Raise (IndexError "list index out of range") end
  | JList _, KStr _ => Raise (TypeError "list indices must be integers or slices, not str")
  | JStr s, KInt i =>
      match py_index (str_chars s) i with
      | Some c => Ret (JStr (String c EmptyString))
      | None => Raise (IndexError "string index out of range")
      end
  | JStr _, KStr _ => Raise (TypeError "string indices must be integers, not 'str'")
  | _, _ => Raise (TypeError ("'" +:+ type_name v +:+ "' object is not subscriptable"))
  end.

(** [v[k1][k2]...[kn]] *)
Fixpoint py_getpath (v : json) (ks : list pykey) : outcome exn json :=
  match ks with
  | [] => Ret v
  | k :: ks' => match py_getitem v k with
                | Ret x => py_getpath x ks'
                | Raise e => Raise e
                end
  end.

(** [unquote_plus(v)]: a non-[str] argument fails on [v.replace]. *)
Definition py_unquote_plus (v : json) : outcome exn string :=
  match v with
  | JStr s => Ret (unquote_plus s)
  | _ => Raise (AttributeError ("'" +:+ type_name v +:+ "' object has no attribute 'replace'"))
  end.

(** [repr(v)] and [str(v)] of a JSON value, as f-strings print them. *)
Fixpoint py_repr_json (v : json) : string :=
  match v with
  | JNull => "None"
  | JBool true => "True"
  | JBool false => "False"
  | JInt z => py_str_Z z
  | JStr s => py_repr_str s
  | JList xs => "[" +:+ py_join ", " (map py_repr_json xs) +:+ "]"
  | JObj kvs => "{" +:+ py_join ", " (map (fun kv => py_repr_str kv.1 +:+ ": " +:+ py_repr_json kv.2) kvs) +:+ "}"
  end.

Definition py_str_json (v : json) : string :=
  match v with
  | JStr s => s
  | _ => py_repr_json v
  end.
