(* ===== verification/Config.v ===== *)
(** * Config: the module-level constants of lambda_function.py

    [ALLOWED_EXTENSIONS] (a Python set, here a [gset]), [RESOLUTIONS] (a
    list of (width, height) pairs, in the order that assigns stream
    indices), [AUDIO_BITRATES] (a dict from height to bitrate string,
    here a [gmap]) and the lookup [AUDIO_BITRATES.get(height, "64k")].
    The order in which the set prints is a function of the interpreter's
    hash seed ([set_order]): one permutation of the set's elements per
    seed, every permutation arising from some seed. *)

From S2P Require Import Prelude PyStr.
From stdpp Require Import list_monad.
Open Scope stdpp_scope.

Definition ALLOWED_EXTENSIONS : gset string :=
  {[ ".mp4"; ".mkv"; ".mov"; ".avi"; ".webm" ]}.

Definition RESOLUTIONS : list (Z * Z) :=
  [(1280, 720); (854, 480); (640, 360); (426, 240)]%Z.

Definition AUDIO_BITRATES : gmap Z string :=
  list_to_map [(720, "128k"); (480, "96k"); (360, "64k"); (240, "48k")]%Z.

(** [AUDIO_BITRATES.get(height, "64k")] *)
Definition audio_bitrate (height : Z) : string :=
  default "64k" (AUDIO_BITRATES !! height).

(** [ext in ALLOWED_EXTENSIONS] *)
Definition ext_allowed (ext : string) : bool :=
  bool_decide (ext ∈ ALLOWED_EXTENSIONS).

(** The iteration order of [ALLOWED_EXTENSIONS]: the hash of a [str]
    depends on the interpreter's hash seed ([PYTHONHASHSEED]), and so
    does the order of the set's slots; each seed gives a permutation of
    the elements. *)
Definition set_order (seed : nat) : list string :=
  let perms := permutations (elements ALLOWED_EXTENSIONS) in
  default (elements ALLOWED_EXTENSIONS) (perms !! (seed mod length perms)).

(** The printed form of the set in the 400 message, [str(ALLOWED_EXTENSIONS)]:
    the iteration order of a [set] of [str] depends on the interpreter's
    hash seed, so it is a parameter [order] of the rendering. *)
Definition set_repr (order : list string) : string :=
  "{" +:+ py_join ", " (map py_repr_str order) +:+ "}".

Lemma set_order_perm seed : set_order seed ≡ₚ elements ALLOWED_EXTENSIONS.
Proof.
  unfold set_order. cbv zeta. destruct (_ !! _) as [l|] eqn:E; [|done].
  apply list_elem_of_lookup_2, permutations_Permutation in E. by symmetry.
Qed.

(** Every order of the five extensions is the order of some seed. *)
Lemma set_order_all order : order ≡ₚ elements ALLOWED_EXTENSIONS -> exists seed, set_order seed = order.
Proof.
  intros Hp. apply symmetry, permutations_Permutation, list_elem_of_lookup_1 in Hp as [i Hi].
  exists i. unfold set_order. cbv zeta. rewrite Nat.mod_small by (by eapply lookup_lt_Some). by rewrite Hi.
Qed.
