(* ===== verification/FfmpegCmd.v ===== *)
(** * FfmpegCmd: the command builder of run_ffmpeg_dash

    Lines 38-91 of src/lambda_function.py: the loop over
    [enumerate(resolutions)] that fills [filters], [stream_mappings] and
    [output_params], the emptiness check that raises [ValueError], and the
    argument vector [cmd] passed to the external ffmpeg binary.  The
    effects of [run_ffmpeg_dash] (directory creation, the subprocess, the
    listing) are in RunFfmpeg.v.

    The file also states how ffmpeg reads an argument vector
    ([ffmpeg_parse]: options left to right, [-y] a flag, every other
    option followed by its value, the output file last), which is the
    contract the command must meet, and proves that the command meets it
    with the per-stream settings the code intends. *)

From S2P Require Import Prelude PyStr PyObj Config.
Open Scope stdpp_scope.

(** ** The loop body, one resolution at a time *)

Definition v_filter (idx : nat) (width height : Z) : string :=
  "[0:v]scale=" +:+ py_str_Z width +:+ "x" +:+ py_str_Z height
  +:+ ":force_original_aspect_ratio=decrease,"
  +:+ "pad=width=ceil(iw/2)*2:height=ceil(ih/2)*2:x=(ow-iw)/2:y=(oh-ih)/2,"
  +:+ "format=yuv420p,setsar=1[v" +:+ py_str_nat idx +:+ "]".

Definition a_filter (idx : nat) : string :=
  "[0:a]aresample=async=1[a" +:+ py_str_nat idx +:+ "]".

Definition v_label (idx : nat) : string := "[v" +:+ py_str_nat idx +:+ "]".
Definition a_label (idx : nat) : string := "[a" +:+ py_str_nat idx +:+ "]".

Definition stream_maps (idx : nat) : list string :=
  ["-map"; "[v" +:+ py_str_nat idx +:+ "]"; "-map"; "[a" +:+ py_str_nat idx +:+ "]"].

Definition stream_params (idx : nat) (width height : Z) : list string :=
  let i := py_str_nat idx in
  [ "-c:v:" +:+ i; "libx264";
    "-crf:" +:+ i; "23";
    "-preset:" +:+ i; "fast";
    "-b:v:" +:+ i; py_str_Z width +:+ "k";
    "-maxrate:" +:+ i; py_str_Z width +:+ "k";
    "-bufsize:" +:+ i; py_str_Z (width * 2) +:+ "k";
    "-c:a:" +:+ i; "aac";
    "-b:a:" +:+ i; audio_bitrate height ].

(** The three lists the loop appends to. *)
Record loop_acc := mk_acc {
  filters : list string;
  stream_mappings : list string;
  output_params : list string
}.

Definition acc_empty : loop_acc := mk_acc [] [] [].

Definition loop_body (acc : loop_acc) (idx : nat) (res : Z * Z) : loop_acc :=
  let '(width, height) := res in
  mk_acc (filters acc ++ [v_filter idx width height] ++ [a_filter idx])
         (stream_mappings acc ++ stream_maps idx)
         (output_params acc ++ stream_params idx width height).

(** [for idx, (width, height) in enumerate(resolutions)], from [idx]. *)
Fixpoint ffmpeg_loop_from (idx : nat) (rs : list (Z * Z)) (acc : loop_acc) : loop_acc :=
  match rs with
  | [] => acc
  | r :: rs' => ffmpeg_loop_from (S idx) rs' (loop_body acc idx r)
  end.

Definition ffmpeg_loop (rs : list (Z * Z)) : loop_acc := ffmpeg_loop_from 0 rs acc_empty.

(** ** The command *)

Definition ffmpeg_path : string := "/var/task/bin/ffmpeg".

(** [output_dir / "manifest.mpd"] *)
Definition path_join (dir name : string) : string := dir +:+ "/" +:+ name.

Definition dash_options : list string :=
  [ "-f"; "dash";
    "-seg_duration"; "6";
    "-use_timeline"; "1";
    "-use_template"; "1";
    "-init_seg_name"; "init_$RepresentationID$.m4s";
    "-media_seg_name"; "segment_$RepresentationID$_$Number$.m4s";
    "-adaptation_sets"; "id=0,streams=v id=1,streams=a" ].

Definition ffmpeg_cmd (input_path output_dir : string) (acc : loop_acc) : list string :=
  [ ffmpeg_path; "-i"; input_path; "-y"; "-filter_complex"; py_join ";" (filters acc) ]
  ++ stream_mappings acc ++ dash_options ++ output_params acc
  ++ [path_join output_dir "manifest.mpd"].

Definition no_chains_msg : string :=
  "No valid FFmpeg filter chains or stream mappings generated.".

(** The pure part of [run_ffmpeg_dash]: the loop, the check
    [if not filters or not stream_mappings: raise ValueError(...)] and
    the command. *)
Definition build_command (input_path output_dir : string) (rs : list (Z * Z))
    : outcome exn (list string) :=
  let acc := ffmpeg_loop rs in
  if bool_decide (filters acc = []) || bool_decide (stream_mappings acc = [])
  then Raise (ValueError no_chains_msg)
  else Ret (ffmpeg_cmd input_path output_dir acc).

(** ** The loop as a declarative list

    Each iteration appends a block that depends only on the index and
    the resolution; the three lists are the concatenation of the blocks
    of [zip(range(idx, idx + n), rs)]. *)

Definition blocks {A} (f : nat -> Z * Z -> list A) (idx : nat) (rs : list (Z * Z)) : list A :=
  concat (zip_with f (seq idx (length rs)) rs).

Definition filter_block (i : nat) (r : Z * Z) : list string :=
  [v_filter i r.1 r.2; a_filter i].
Definition map_block (i : nat) (r : Z * Z) : list string := stream_maps i.
Definition param_block (i : nat) (r : Z * Z) : list string := stream_params i r.1 r.2.

Lemma blocks_cons {A} (f : nat -> Z * Z -> list A) idx r rs :
  blocks f idx (r :: rs) = f idx r ++ blocks f (S idx) rs.
Proof. done. Qed.

Lemma blocks_nil {A} (f : nat -> Z * Z -> list A) idx : blocks f idx [] = [].
Proof. done. Qed.

Lemma ffmpeg_loop_from_blocks idx rs acc :
  ffmpeg_loop_from idx rs acc =
  mk_acc (filters acc ++ blocks filter_block idx rs)
         (stream_mappings acc ++ blocks map_block idx rs)
         (output_params acc ++ blocks param_block idx rs).
Proof.
  revert idx acc. induction rs as [|[w h] rs IH]; intros idx [f m p].
  - cbn. by rewrite !app_nil_r.
  - cbn [ffmpeg_loop_from]. rewrite IH, !blocks_cons. cbn. by rewrite <-!app_assoc.
Qed.

(** C28: the accumulating loop computes the blocks of every resolution in
    order. *)
Theorem ffmpeg_loop_spec (rs : list (Z * Z)) :
  ffmpeg_loop rs =
  mk_acc (blocks filter_block 0 rs) (blocks map_block 0 rs) (blocks param_block 0 rs).
Proof. unfold ffmpeg_loop. by rewrite ffmpeg_loop_from_blocks. Qed.

Lemma length_blocks {A} (f : nat -> Z * Z -> list A) (k : nat) idx rs :
  (forall i r, length (f i r) = k) -> length (blocks f idx rs) = k * length rs.
Proof.
  intros Hk. revert idx. induction rs as [|r rs IH]; intros idx; [cbn; lia|].
  rewrite blocks_cons, length_app, Hk, IH. cbn. lia.
Qed.

Lemma blocks_nil_iff {A} (f : nat -> Z * Z -> list A) idx rs :
  (forall i r, f i r <> []) -> blocks f idx rs = [] <-> rs = [].
Proof.
  intros Hne. destruct rs as [|r rs]; [done|]. rewrite blocks_cons. split; [|done].
  intros Happ. apply app_eq_nil in Happ as [Hf _]. by destruct (Hne idx r).
Qed.

(** [build_command] on every input: the check of line 71 fails exactly
    when the list of resolutions is empty. *)
Lemma build_command_cases (input_path output_dir : string) (rs : list (Z * Z)) :
  build_command input_path output_dir rs =
  if bool_decide (rs = []) then Raise (ValueError no_chains_msg)
  else Ret (ffmpeg_cmd input_path output_dir (ffmpeg_loop rs)).
Proof.
  unfold build_command. cbv zeta.
  assert (Hf : filters (ffmpeg_loop rs) = [] <-> rs = []).
  { unfold ffmpeg_loop. rewrite ffmpeg_loop_from_blocks. by apply blocks_nil_iff. }
  assert (Hm : stream_mappings (ffmpeg_loop rs) = [] <-> rs = []).
  { unfold ffmpeg_loop. rewrite ffmpeg_loop_from_blocks. by apply blocks_nil_iff. }
  rewrite (bool_decide_ext _ _ Hf), (bool_decide_ext _ _ Hm).
  by destruct (bool_decide (rs = [])).
Qed.

(** C27: [build_command] raises an exception exactly when the list of
    resolutions is empty, and the exception it raises is always
    [ValueError] with the message of line 72. *)
Theorem build_command_error (input_path output_dir : string) (rs : list (Z * Z)) :
  (build_command input_path output_dir rs = Raise (ValueError no_chains_msg) <-> rs = []) /\
  (forall e, build_command input_path output_dir rs = Raise e -> e = ValueError no_chains_msg).
Proof.
  rewrite build_command_cases. case_bool_decide; split.
  - done.
  - by intros e [= <-].
  - split; [done|congruence].
  - done.
Qed.

(** ** How ffmpeg reads the argument vector

    ffmpeg reads its arguments left to right: [-y] is a flag, every
    other option is followed by its value, and the last argument is the
    output file.  [ffmpeg_parse] gives the options in order with their
    values (a flag with [""]), or [None] when the vector is malformed. *)

Definition is_option (o : string) : bool :=
  match o with String c _ => bool_decide (c = "-"%char) | EmptyString => false end.

Fixpoint ffmpeg_parse (args : list string) : option (list (string * string) * string) :=
  match args with
  | [] => None
  | [out] => Some ([], out)
  | o :: rest =>
      if negb (is_option o) then None
      else if bool_decide (o = "-y") then
        match ffmpeg_parse rest with
        | Some (opts, out) => Some ((o, "") :: opts, out)
        | None => None
        end
      else match rest with
           | v :: rest' =>
               match ffmpeg_parse rest' with
               | Some (opts, out) => Some ((o, v) :: opts, out)
               | None => None
               end
           | [] => None
           end
  end.

(** The values given to option [k], in order. *)
Definition opt_values (k : string) (opts : list (string * string)) : list string :=
  (filter (fun o => o.1 = k) opts).*2.

(** The options as the code means them. *)
Definition map_pairs (i : nat) (r : Z * Z) : list (string * string) :=
  [("-map", v_label i); ("-map", a_label i)].

Definition param_pairs (i : nat) (r : Z * Z) : list (string * string) :=
  let s := py_str_nat i in
  [ ("-c:v:" +:+ s, "libx264"); ("-crf:" +:+ s, "23"); ("-preset:" +:+ s, "fast");
    ("-b:v:" +:+ s, py_str_Z r.1 +:+ "k"); ("-maxrate:" +:+ s, py_str_Z r.1 +:+ "k");
    ("-bufsize:" +:+ s, py_str_Z (r.1 * 2) +:+ "k"); ("-c:a:" +:+ s, "aac");
    ("-b:a:" +:+ s, audio_bitrate r.2) ].

Definition dash_pairs : list (string * string) :=
  [ ("-f", "dash"); ("-seg_duration", "6"); ("-use_timeline", "1"); ("-use_template", "1");
    ("-init_seg_name", "init_$RepresentationID$.m4s");
    ("-media_seg_name", "segment_$RepresentationID$_$Number$.m4s");
    ("-adaptation_sets", "id=0,streams=v id=1,streams=a") ].

Definition cmd_opts (input_path : string) (rs : list (Z * Z)) : list (string * string) :=
  [("-i", input_path); ("-y", ""); ("-filter_complex", py_join ";" (blocks filter_block 0 rs))]
  ++ blocks map_pairs 0 rs ++ dash_pairs ++ blocks param_pairs 0 rs.

Definition emit_opt (o : string * string) : list string :=
  if bool_decide (o.1 = "-y") then [o.1] else [o.1; o.2].

Definition emit_opts (opts : list (string * string)) : list string := concat (map emit_opt opts).

Definition opt_ok (o : string * string) : Prop := is_option o.1 = true /\ (o.1 = "-y" -> o.2 = "").

Lemma ffmpeg_parse_flag x rest :
  ffmpeg_parse ("-y" :: x :: rest) =
  match ffmpeg_parse (x :: rest) with
  | Some (opts, out) => Some (("-y", "") :: opts, out)
  | None => None
  end.
Proof. done. Qed.

Lemma ffmpeg_parse_opt o v rest :
  is_option o = true -> o <> "-y" ->
  ffmpeg_parse (o :: v :: rest) =
  match ffmpeg_parse rest with
  | Some (opts, out) => Some ((o, v) :: opts, out)
  | None => None
  end.
Proof. intros Ho Hy. cbn [ffmpeg_parse]. rewrite Ho, bool_decide_eq_false_2 by done. done. Qed.

Lemma ffmpeg_parse_emit opts out :
  Forall opt_ok opts -> ffmpeg_parse (emit_opts opts ++ [out]) = Some (opts, out).
Proof.
  induction opts as [|[o v] opts IH]; [done|]. intros [[Ho Hy] Hrest]%Forall_cons.
  cbn [fst snd] in Ho, Hy.
  unfold emit_opts. cbn [map concat]. fold (emit_opts opts). unfold emit_opt. cbn [fst snd].
  destruct (decide (o = "-y")) as [->|Hne].
  - rewrite (Hy eq_refl), bool_decide_eq_true_2 by done. cbn [app].
    destruct (emit_opts opts ++ [out]) as [|x l] eqn:E; [by destruct (emit_opts opts)|].
    rewrite ffmpeg_parse_flag, IH by done. done.
  - rewrite bool_decide_eq_false_2 by done. cbn [app].
    rewrite ffmpeg_parse_opt, IH by done. done.
Qed.

Lemma emit_opts_app l1 l2 : emit_opts (l1 ++ l2) = emit_opts l1 ++ emit_opts l2.
Proof. unfold emit_opts. by rewrite map_app, concat_app. Qed.

Lemma blocks_ext {A} (f g : nat -> Z * Z -> list A) idx rs :
  (forall i r, f i r = g i r) -> blocks f idx rs = blocks g idx rs.
Proof.
  intros Hfg. revert idx. induction rs as [|r rs IH]; intros idx; [done|].
  by rewrite !blocks_cons, Hfg, IH.
Qed.

Lemma blocks_map {A B} (h : list A -> list B) (f : nat -> Z * Z -> list A) idx rs :
  (forall l1 l2, h (l1 ++ l2) = h l1 ++ h l2) -> h [] = [] ->
  h (blocks f idx rs) = blocks (fun i r => h (f i r)) idx rs.
Proof.
  intros Happ Hnil. revert idx. induction rs as [|r rs IH]; intros idx; [done|].
  by rewrite !blocks_cons, Happ, IH.
Qed.

Lemma Forall_blocks {A} (P : A -> Prop) (f : nat -> Z * Z -> list A) idx rs :
  (forall i r, Forall P (f i r)) -> Forall P (blocks f idx rs).
Proof.
  intros HP. revert idx. induction rs as [|r rs IH]; intros idx; [constructor|].
  rewrite blocks_cons. apply Forall_app. auto.
Qed.

Lemma ffmpeg_cmd_emit input_path output_dir rs :
  ffmpeg_cmd input_path output_dir (ffmpeg_loop rs) =
  ffmpeg_path :: emit_opts (cmd_opts input_path rs) ++ [path_join output_dir "manifest.mpd"].
Proof.
  unfold ffmpeg_loop. rewrite ffmpeg_loop_from_blocks. unfold ffmpeg_cmd, cmd_opts.
  cbn [filters stream_mappings output_params acc_empty]. rewrite !(app_nil_l (blocks _ _ _)).
  rewrite !emit_opts_app, !(blocks_map emit_opts) by (done || apply emit_opts_app).
  assert (blocks (fun i r => emit_opts (map_pairs i r)) 0 rs = blocks map_block 0 rs) as ->
    by (apply blocks_ext; reflexivity).
  assert (blocks (fun i r => emit_opts (param_pairs i r)) 0 rs = blocks param_block 0 rs) as ->
    by (apply blocks_ext; reflexivity).
  cbn. by rewrite <-!app_assoc.
Qed.



(** An option name given by a literal prefix is an option, and is not
    the flag [-y] unless it is that literal. *)
Ltac solve_opt_ok :=
  split; [reflexivity
         | cbn [fst snd]; first [ reflexivity | intros ?Heq; cbv [String.append] in Heq; congruence ]].

Ltac solve_forall_opt_ok :=
  repeat (apply Forall_cons; split; [solve_opt_ok|]); constructor.

Lemma cmd_opts_ok input_path rs : Forall opt_ok (cmd_opts input_path rs).
Proof.
  unfold cmd_opts. rewrite !Forall_app. split_and!;
    [solve_forall_opt_ok | apply Forall_blocks; intros ? ?; solve_forall_opt_ok
    | solve_forall_opt_ok | apply Forall_blocks; intros ? ?; solve_forall_opt_ok].
Qed.

(** ** The command meets the contract *)

Lemma build_command_ok input_path output_dir rs :
  rs <> [] ->
  build_command input_path output_dir rs =
  Ret (ffmpeg_path :: emit_opts (cmd_opts input_path rs) ++ [path_join output_dir "manifest.mpd"]).
Proof.
  intros Hne. rewrite build_command_cases, bool_decide_eq_false_2 by done.
  by rewrite ffmpeg_cmd_emit.
Qed.

(** C23: when the command is built, ffmpeg reads it as the options
    [cmd_opts] (input, overwrite flag, filter graph, stream maps, DASH
    settings, per-stream settings, in this order) followed by the
    manifest path inside the output directory. *)
Theorem build_command_argv (input_path output_dir : string) (rs : list (Z * Z)) (cmd : list string) :
  build_command input_path output_dir rs = Ret cmd ->
  exists args, cmd = ffmpeg_path :: args /\
    ffmpeg_parse args = Some (cmd_opts input_path rs, path_join output_dir "manifest.mpd").
Proof.
  intros Hb. destruct (decide (rs = [])) as [->|Hne].
  - by rewrite build_command_cases in Hb.
  - rewrite build_command_ok in Hb by done.
    exists (emit_opts (cmd_opts input_path rs) ++ [path_join output_dir "manifest.mpd"]).
    split; [congruence|]. apply ffmpeg_parse_emit, cmd_opts_ok.
Qed.

Lemma opt_values_app k l1 l2 : opt_values k (l1 ++ l2) = opt_values k l1 ++ opt_values k l2.
Proof. unfold opt_values. by rewrite filter_app, fmap_app. Qed.

Lemma opt_values_blocks k (f : nat -> Z * Z -> list (string * string)) idx rs :
  opt_values k (blocks f idx rs) = blocks (fun i r => opt_values k (f i r)) idx rs.
Proof. apply blocks_map; [apply opt_values_app|done]. Qed.

Lemma blocks_all_nil {A} (f : nat -> Z * Z -> list A) idx rs :
  (forall i r, idx <= i -> f i r = []) -> blocks f idx rs = [].
Proof.
  revert idx. induction rs as [|r rs IH]; intros idx Hf; [done|].
  rewrite blocks_cons, Hf, IH; [done| |lia]. intros; apply Hf; lia.
Qed.

Lemma blocks_single {A} (f : nat -> Z * Z -> list A) idx rs i r :
  rs !! i = Some r -> (forall j r', j <> idx + i -> f j r' = []) ->
  blocks f idx rs = f (idx + i) r.
Proof.
  revert idx i. induction rs as [|r0 rs IH]; intros idx i Hi Hf; [done|].
  rewrite blocks_cons. destruct i as [|i]; cbn in Hi.
  - injection Hi as ->. rewrite Nat.add_0_r, blocks_all_nil, app_nil_r; [done|].
    intros j r' Hj. apply Hf. lia.
  - rewrite Hf by lia. cbn. rewrite (IH (S idx) i) by (done || (intros; apply Hf; lia)).
    f_equal. lia.
Qed.

(** Decide the equalities between option names that differ in a literal
    prefix, leaving those with the same prefix. *)
Ltac decide_keys :=
  repeat match goal with
  | |- context [decide (?p +:+ ?x = ?q +:+ ?y)] =>
      let Hk := fresh "Hk" in
      tryif constr_eq p q then destruct (decide (p +:+ x = q +:+ y)) as [Hk|Hk]
      else (rewrite (decide_False (P := p +:+ x = q +:+ y))
              by (intros Hk; cbv [String.append] in Hk; congruence))
  | |- context [decide (?a = ?b)] =>
      let Hk := fresh "Hk" in
      destruct (decide (a = b)) as [Hk|Hk];
      [try (exfalso; cbv [String.append] in Hk; congruence)|]
  end.

Lemma label_inj (p q : string) (i j : nat) :
  p +:+ py_str_nat i +:+ q = p +:+ py_str_nat j +:+ q -> i = j.
Proof. intros H. by apply py_str_nat_inj, (string_app_inj_r q), (string_app_inj_l p). Qed.

Lemma build_command_opts input_path output_dir rs cmd opts out :
  build_command input_path output_dir rs = Ret cmd -> ffmpeg_parse (tail cmd) = Some (opts, out) ->
  opts = cmd_opts input_path rs /\ out = path_join output_dir "manifest.mpd" /\ rs <> [].
Proof.
  intros Hb Hp. destruct (build_command_argv _ _ _ _ Hb) as (args & -> & Hargs).
  cbn in Hp. rewrite Hargs in Hp. injection Hp as <- <-. split_and!; [done|done|].
  intros ->. by rewrite build_command_cases in Hb.
Qed.

Lemma elem_of_blocks {A} (f : nat -> Z * Z -> list A) idx rs x :
  x ∈ blocks f idx rs -> exists j r, idx <= j /\ x ∈ f j r.
Proof.
  revert idx. induction rs as [|r rs IH]; intros idx; [by rewrite blocks_nil, elem_of_nil|].
  rewrite blocks_cons, elem_of_app. intros [Hx|Hx].
  - exists idx, r. auto.
  - destruct (IH _ Hx) as (j & r' & Hj & Hin). exists j, r'. split; [lia|done].
Qed.

Lemma v_label_a_label i j : v_label i <> a_label j.
Proof. unfold v_label, a_label. intros Hk. cbv [String.append] in Hk. congruence. Qed.

Lemma labels_NoDup idx rs : NoDup (blocks (fun i _ => [v_label i; a_label i]) idx rs).
Proof.
  revert idx. induction rs as [|r rs IH]; intros idx; [constructor|].
  rewrite blocks_cons. apply NoDup_app. split_and!.
  - apply NoDup_cons; split; [|apply NoDup_singleton].
    rewrite list_elem_of_singleton. apply v_label_a_label.
  - intros x Hx Hrest. apply elem_of_blocks in Hrest as (j & r' & Hj & Hin).
    rewrite !elem_of_cons, elem_of_nil in Hx, Hin.
    destruct Hx as [->|[->|[]]], Hin as [Hin|[Hin|[]]];
      try (by eapply v_label_a_label); try (by symmetry in Hin; eapply v_label_a_label);
      apply label_inj in Hin; lia.
  - apply IH.
Qed.

(** C25: ffmpeg receives one [-map] for the video output [v{i}] and one
    for the audio output [a{i}] of every resolution [i], in order, all
    distinct: exactly [2 * len(resolutions)] stream maps. *)
Theorem build_command_stream_maps (input_path output_dir : string) (rs : list (Z * Z))
    (cmd : list string) opts out :
  build_command input_path output_dir rs = Ret cmd -> ffmpeg_parse (tail cmd) = Some (opts, out) ->
  opt_values "-map" opts = blocks (fun i _ => [v_label i; a_label i]) 0 rs /\
  NoDup (opt_values "-map" opts) /\ length (opt_values "-map" opts) = 2 * length rs.
Proof.
  intros Hb Hp. destruct (build_command_opts _ _ _ _ _ _ Hb Hp) as (-> & _ & _).
  assert (opt_values "-map" (cmd_opts input_path rs) = blocks (fun i _ => [v_label i; a_label i]) 0 rs)
    as ->.
  { unfold cmd_opts. rewrite !opt_values_app, !opt_values_blocks.
    rewrite (blocks_all_nil (fun i r => opt_values "-map" (param_pairs i r))) by reflexivity.
    rewrite app_nil_r. apply blocks_ext. reflexivity. }
  split_and!; [done|apply labels_NoDup|]. by apply length_blocks.
Qed.

Lemma v_filter_no_sep i w h : string_has ";" (v_filter i w h) = false.
Proof.
  unfold v_filter. rewrite !string_has_app, !py_str_Z_no, !py_str_nat_no by reflexivity.
  reflexivity.
Qed.

Lemma a_filter_no_sep i : string_has ";" (a_filter i) = false.
Proof. unfold a_filter. rewrite !string_has_app, !py_str_nat_no by reflexivity. reflexivity. Qed.

(** C26: ffmpeg receives a single filter graph, and splitting it at [;]
    gives back the video and the audio filter of every resolution, in
    order: exactly [2 * len(resolutions)] filter chains. *)
Theorem build_command_filter_graph (input_path output_dir : string) (rs : list (Z * Z))
    (cmd : list string) opts out :
  build_command input_path output_dir rs = Ret cmd -> ffmpeg_parse (tail cmd) = Some (opts, out) ->
  exists graph, opt_values "-filter_complex" opts = [graph] /\
    py_split ";" graph = blocks filter_block 0 rs /\
    length (py_split ";" graph) = 2 * length rs.
Proof.
  intros Hb Hp. destruct (build_command_opts _ _ _ _ _ _ Hb Hp) as (-> & _ & Hne).
  exists (py_join ";" (blocks filter_block 0 rs)).
  assert (Hsplit : py_split ";" (py_join ";" (blocks filter_block 0 rs)) = blocks filter_block 0 rs).
  { apply (py_split_join ";"%char).
    - by rewrite (blocks_nil_iff filter_block) by (by intros ? ?).
    - apply Forall_blocks. intros i [w h]. cbn.
      repeat constructor; [apply v_filter_no_sep|apply a_filter_no_sep]. }
  rewrite Hsplit. split_and!; [|done|by apply length_blocks].
  unfold cmd_opts. rewrite !opt_values_app, !opt_values_blocks.
  rewrite (blocks_all_nil (fun i r => opt_values "-filter_complex" (param_pairs i r))) by reflexivity.
  rewrite (blocks_all_nil (fun i r => opt_values "-filter_complex" (map_pairs i r))) by reflexivity.
  reflexivity.
Qed.

Lemma opt_values_cmd_params k input_path rs :
  (forall j r, opt_values k (map_pairs j r) = []) ->
  opt_values k [("-i", input_path); ("-y", ""); ("-filter_complex", py_join ";" (blocks filter_block 0 rs))] = [] ->
  opt_values k dash_pairs = [] ->
  opt_values k (cmd_opts input_path rs) = blocks (fun j r => opt_values k (param_pairs j r)) 0 rs.
Proof.
  intros Hm Hf Hd. unfold cmd_opts. rewrite !opt_values_app, !opt_values_blocks, Hf, Hd.
  by rewrite (blocks_all_nil (fun j r => opt_values k (map_pairs j r))) by (intros; apply Hm).
Qed.

(** Close the goals [decide_keys] leaves on options of the same prefix. *)
Ltac same_prefix_key :=
  first
    [ reflexivity
    | exfalso; subst;
      match goal with
      | H : ?x <> ?x |- _ => by apply H
      | Hk : ?p +:+ py_str_nat ?j = ?p +:+ py_str_nat ?i, Hn : ?j <> ?i |- _ =>
          apply Hn; by eapply py_str_nat_inj, string_app_inj_l
      end ].

Lemma opt_values_param_pairs i j r :
  let sel (v : string) := if decide (j = i) then [v] else [] in
  opt_values ("-c:v:" +:+ py_str_nat i) (param_pairs j r) = sel "libx264" /\
  opt_values ("-crf:" +:+ py_str_nat i) (param_pairs j r) = sel "23" /\
  opt_values ("-preset:" +:+ py_str_nat i) (param_pairs j r) = sel "fast" /\
  opt_values ("-b:v:" +:+ py_str_nat i) (param_pairs j r) = sel (py_str_Z r.1 +:+ "k") /\
  opt_values ("-maxrate:" +:+ py_str_nat i) (param_pairs j r) = sel (py_str_Z r.1 +:+ "k") /\
  opt_values ("-bufsize:" +:+ py_str_nat i) (param_pairs j r) = sel (py_str_Z (r.1 * 2) +:+ "k") /\
  opt_values ("-c:a:" +:+ py_str_nat i) (param_pairs j r) = sel "aac" /\
  opt_values ("-b:a:" +:+ py_str_nat i) (param_pairs j r) = sel (audio_bitrate r.2).
Proof.
  intros sel. unfold sel, opt_values, param_pairs.
  split_and!; cbn [filter list_filter fst]; decide_keys; same_prefix_key.
Qed.

(** C24: for the resolution [(w, h)] at index [i], ffmpeg receives
    exactly one value for each per-stream option: codec [libx264], CRF
    [23], preset [fast], video bitrate and maximum rate [{w}k] (the pixel
    width reused as kbps), buffer size [{2w}k], codec [aac] and audio
    bitrate [AUDIO_BITRATES.get(h, "64k")]. *)
Theorem build_command_stream_settings (input_path output_dir : string) (rs : list (Z * Z))
    (cmd : list string) opts out (i : nat) (w h : Z) :
  build_command input_path output_dir rs = Ret cmd -> ffmpeg_parse (tail cmd) = Some (opts, out) ->
  rs !! i = Some (w, h) ->
  opt_values ("-c:v:" +:+ py_str_nat i) opts = ["libx264"] /\
  opt_values ("-crf:" +:+ py_str_nat i) opts = ["23"] /\
  opt_values ("-preset:" +:+ py_str_nat i) opts = ["fast"] /\
  opt_values ("-b:v:" +:+ py_str_nat i) opts = [py_str_Z w +:+ "k"] /\
  opt_values ("-maxrate:" +:+ py_str_nat i) opts = [py_str_Z w +:+ "k"] /\
  opt_values ("-bufsize:" +:+ py_str_nat i) opts = [py_str_Z (w * 2) +:+ "k"] /\
  opt_values ("-c:a:" +:+ py_str_nat i) opts = ["aac"] /\
  opt_values ("-b:a:" +:+ py_str_nat i) opts = [audio_bitrate h].
Proof.
  intros Hb Hp Hi. destruct (build_command_opts _ _ _ _ _ _ Hb Hp) as (-> & _ & _).
  pose proof (fun j r => opt_values_param_pairs i j r) as Hpp. cbv zeta in Hpp.
  split_and!;
    (rewrite opt_values_cmd_params by (intros; reflexivity || idtac);
     rewrite (blocks_single _ 0 rs i (w, h) Hi) by
       (intros j r' Hj; cbn in Hj; destruct (Hpp j r') as (?&?&?&?&?&?&?&?);
        congruence || (rewrite decide_False in * by done; congruence));
     destruct (Hpp i (w, h)) as (?&?&?&?&?&?&?&?); rewrite decide_True in * by done; done).
Qed.

(** ** Witnesses on the catalog of four resolutions *)

Definition sample_input : string := "/tmp/clip.mp4".
Definition sample_output_dir : string := "/tmp/clip_dash_output".
Definition sample_cmd : list string := ffmpeg_cmd sample_input sample_output_dir (ffmpeg_loop RESOLUTIONS).

Lemma build_command_argv_witness :
  build_command sample_input sample_output_dir RESOLUTIONS = Ret sample_cmd /\
  exists args, sample_cmd = ffmpeg_path :: args /\
    ffmpeg_parse args = Some (cmd_opts sample_input RESOLUTIONS, path_join sample_output_dir "manifest.mpd").
Proof.
  split; [reflexivity|].
  apply (build_command_argv sample_input sample_output_dir RESOLUTIONS sample_cmd). reflexivity.
Defined.

Lemma build_command_stream_maps_witness :
  build_command sample_input sample_output_dir RESOLUTIONS = Ret sample_cmd /\
  ffmpeg_parse (tail sample_cmd) = Some (cmd_opts sample_input RESOLUTIONS, path_join sample_output_dir "manifest.mpd") /\
  length (opt_values "-map" (cmd_opts sample_input RESOLUTIONS)) = 8.
Proof.
  split; [reflexivity|]. split; [vm_compute; reflexivity|].
  destruct (build_command_stream_maps sample_input sample_output_dir RESOLUTIONS sample_cmd
    (cmd_opts sample_input RESOLUTIONS) (path_join sample_output_dir "manifest.mpd"))
    as (_ & _ & Hlen); [reflexivity|vm_compute; reflexivity|].
  rewrite Hlen. reflexivity.
Defined.

Lemma build_command_filter_graph_witness :
  ffmpeg_parse (tail sample_cmd) = Some (cmd_opts sample_input RESOLUTIONS, path_join sample_output_dir "manifest.mpd") /\
  exists graph, opt_values "-filter_complex" (cmd_opts sample_input RESOLUTIONS) = [graph] /\
    length (py_split ";" graph) = 8.
Proof.
  split; [vm_compute; reflexivity|].
  destruct (build_command_filter_graph sample_input sample_output_dir RESOLUTIONS sample_cmd
    (cmd_opts sample_input RESOLUTIONS) (path_join sample_output_dir "manifest.mpd"))
    as (graph & Hg & _ & Hlen); [reflexivity|vm_compute; reflexivity|].
  exists graph. split; [exact Hg|]. rewrite Hlen. reflexivity.
Defined.

(** At index 0 (1280x720) the video bitrate is ["1280k"] and the buffer
    ["2560k"]; the audio bitrate is ["128k"]. *)
Lemma build_command_stream_settings_witness :
  RESOLUTIONS !! 0 = Some (1280, 720)%Z /\
  opt_values ("-b:v:" +:+ py_str_nat 0) (cmd_opts sample_input RESOLUTIONS) = ["1280k"] /\
  opt_values ("-bufsize:" +:+ py_str_nat 0) (cmd_opts sample_input RESOLUTIONS) = ["2560k"] /\
  opt_values ("-b:a:" +:+ py_str_nat 0) (cmd_opts sample_input RESOLUTIONS) = ["128k"].
Proof.
  destruct (build_command_stream_settings sample_input sample_output_dir RESOLUTIONS sample_cmd
    (cmd_opts sample_input RESOLUTIONS) (path_join sample_output_dir "manifest.mpd") 0 1280 720)
    as (_ & _ & _ & Hbv & _ & Hbuf & _ & Hba); [reflexivity|vm_compute; reflexivity|reflexivity|].
  split; [reflexivity|]. rewrite Hbv, Hbuf, Hba. split_and!; reflexivity.
Defined.
