(* ===== verification/Fs.v ===== *)
(** * Fs: the world the handler acts on

    The handler's effects go to three places: the local filesystem (the
    staging paths under /tmp), the object store (downloads and uploads
    through the module-level boto3 client [s3]) and standard output
    ([print]).  The state [state] holds the filesystem as a map from
    absolute path to node (a regular file with its bytes, or a directory
    with its mode), the objects uploaded so far (source path, content
    type and bytes), and the trace of the external calls in the order
    they were made.

    What the outside answers is a [world]: whether a download or an
    upload fails and with which error, the bytes of each source object,
    what the ffmpeg process does with a command and the bytes of the
    file its [-i] argument names (its exit status, its standard error and
    the entries, with their bytes, it creates in the output directory),
    which removals fail, the umask, and the interpreter's hash seed,
    which fixes the iteration order of the set of allowed extensions
    ([Config.set_order]).  Every theorem quantifies over the world.

    The operations follow the Python library functions the code calls:
    [Path.exists], [Path.unlink] / [os.remove], [shutil.rmtree],
    [Path.mkdir(parents=True, exist_ok=True)], [os.chmod],
    [Path.iterdir] with [is_file], [s3.download_file], [s3.upload_file],
    [subprocess.run] and [print].

    The lemmas give each operation's result on the states the handler
    meets, the frame lemmas (hint database [pyfs]) for the operations
    that leave the filesystem alone, what a directory listing contains
    ([elem_of_regular_files]), the invariant [tree_ok] of a real
    filesystem (every entry has a directory as parent), and that the fuel
    of [mkdir_p] is enough ([mkdir_p_fuel_enough]). *)

From S2P Require Import Prelude PyStr PyObj.
Open Scope stdpp_scope.
Open Scope py_scope.

Inductive node : Type :=
| NFile (data : string)
| NDir (mode : Z).

#[export] Instance node_eq_dec : EqDecision node.
Proof. solve_decision. Defined.

(** An uploaded object: the local path it was read from, its
    ContentType and its bytes. *)
Record s3_object := mk_object { obj_source : string; obj_content_type : string; obj_data : string }.

(** The external calls, as they appear in the trace. *)
Inductive event : Type :=
| EvDownload (bucket key dest : string)
| EvRun (cmd : list string)
| EvUpload (src bucket key content_type : string)
| EvPrint (msg : string).

Record state := mk_state {
  st_fs : gmap string node;
  st_s3 : gmap (string * string) s3_object;
  st_trace : list event
}.

(** What [subprocess.run] observes: the process could not be started,
    or it exited with a status, a standard error text, after creating
    entries (name, node with its contents) in the output directory. *)
Inductive run_result : Type :=
| RunSpawnError (e : exn)
| RunExit (returncode : Z) (stderr : string) (created : list (string * node)).

(** [w_ffmpeg cmd input] is what the ffmpeg process does when run with
    the argument vector [cmd] on the bytes [input] of its input file
    ([None] when the file cannot be read); [w_object b k] is the content
    of the source object. *)
Record world := mk_world {
  w_download : string -> string -> option exn;
  w_ffmpeg : list string -> option string -> run_result;
  w_upload : string -> string -> string -> string -> option exn;
  w_remove_fault : string -> option exn;
  w_umask : Z;
  w_hash_seed : nat;  (* PYTHONHASHSEED: the order a str set iterates in *)
  w_object : string -> string -> string
}.

Abbreviation PyM := (M state exn).

Definition set_fs (f : gmap string node -> gmap string node) (s : state) : state :=
  mk_state (f (st_fs s)) (st_s3 s) (st_trace s).

Definition log (ev : event) : PyM unit :=
  mmodify (fun s => mk_state (st_fs s) (st_s3 s) (st_trace s ++ [ev])).

(** [print(msg)] *)
Definition print (msg : string) : PyM unit := log (EvPrint msg).

Definition lift {A} (o : outcome exn A) : PyM A :=
  match o with Ret a => mret a | Raise e => mraise e end.

(** ** Paths *)

(** The root always exists. *)
Definition fs_lookup (fs : gmap string node) (p : string) : option node :=
  if bool_decide (p = "/") then Some (NDir 493) else fs !! p.

(** [Path(p).parent] of a normalized absolute path. *)
Definition path_parent (p : string) : string :=
  match py_rfind "/"%char p with
  | Some 0 => "/"
  | Some i => String.substring 0 i p
  | None => "."
  end.

(** [q] lies strictly below the directory [d]. *)
Definition is_under (d q : string) : bool := String.prefix (d +:+ "/") q.

(** The name of [q] when it is an immediate child of [d]. *)
Definition child_name (d q : string) : option string :=
  if is_under d q then
    let rest := String.substring (String.length d + 1) (String.length q - String.length d - 1) q in
    if string_has "/"%char rest then None else Some rest
  else None.

(** A regular file. *)
Definition is_file (o : option node) : bool :=
  match o with Some (NFile _) => true | _ => false end.

(** The bytes of a regular file. *)
Definition file_data (fs : gmap string node) (p : string) : string :=
  match fs_lookup fs p with Some (NFile d) => d | _ => "" end.

(** The value following the option [flag] in an argument vector. *)
Fixpoint arg_after (flag : string) (args : list string) : option string :=
  match args with
  | a :: ((v :: _) as rest) => if bool_decide (a = flag) then Some v else arg_after flag rest
  | _ => None
  end.

(** The bytes ffmpeg reads: the regular file named by [-i]. *)
Definition input_data (cmd : list string) (fs : gmap string node) : option string :=
  match arg_after "-i" cmd with
  | Some ip => match fs_lookup fs ip with Some (NFile d) => Some d | _ => None end
  | None => None
  end.

(** ** Filesystem operations *)

Section FsOps.
Context (w : world).

(** [Path(p).exists()] *)
Definition path_exists (p : string) : PyM bool :=
  fun s => (Ret (bool_decide (is_Some (fs_lookup (st_fs s) p))), s).

(** [Path(p).is_file()] *)
Definition path_is_file (p : string) : PyM bool :=
  fun s => (Ret (is_file (fs_lookup (st_fs s) p)), s).

(** [Path(p).unlink()] and [os.remove(p)] *)
Definition os_remove (p : string) : PyM unit :=
  fun s => match fs_lookup (st_fs s) p with
           | None => (Raise (FileNotFoundError p), s)
           | Some (NDir _) => (Raise (IsADirectoryError p), s)
           | Some (NFile _) =>
               match w_remove_fault w p with
               | Some e => (Raise e, s)
               | None => (Ret tt, set_fs (delete p) s)
               end
           end.

Definition subtree (d : string) (fs : gmap string node) : list string :=
  d :: filter (fun q => is_under d q = true) (map fst (map_to_list fs)).

Definition first_fault (ps : list string) : option exn :=
  foldr (fun p acc => match w_remove_fault w p with Some e => Some e | None => acc end) None ps.

(** [shutil.rmtree(d)]: the directory and everything below it; a
    failing removal raises its error and (a simplification) removes
    nothing. *)
Definition rmtree (d : string) : PyM unit :=
  fun s => match fs_lookup (st_fs s) d with
           | None => (Raise (FileNotFoundError d), s)
           | Some (NFile _) => (Raise (NotADirectoryError d), s)
           | Some (NDir _) =>
               match first_fault (subtree d (st_fs s)) with
               | Some e => (Raise e, s)
               | None => (Ret tt, set_fs (filter (fun kv => kv.1 <> d /\ is_under d kv.1 = false)) s)
               end
           end.

Definition mkdir_mode : Z := Z.land 511 (Z.lnot (w_umask w)).

(** [os.mkdir(p)] resolves [p] from the root: a regular file on the way
    fails it with [ENOTDIR] naming [p] itself.  [mkdir_p_fuel] meets that
    file when it climbs the missing ancestors; [enotdir_at p] names [p]
    in the error it passes down. *)
Definition enotdir_at (p : string) (e : exn) : exn :=
  match e with
  | OSError n _ _ => if bool_decide (n = ENOTDIR) then NotADirectoryError p else e
  | _ => e
  end.

(** [Path(p).mkdir(parents=True, exist_ok=True)]; the fuel bounds the
    depth of missing ancestors and [String.length p] is enough, since a
    parent is shorter than its child. *)
Fixpoint mkdir_p_fuel (fuel : nat) (p : string) : PyM unit :=
  fun s => match fs_lookup (st_fs s) p with
           | Some (NDir _) => (Ret tt, s)
           | Some (NFile _) => (Raise (FileExistsError p), s)
           | None =>
               let parent := path_parent p in
               match fs_lookup (st_fs s) parent with
               | Some (NDir _) => (Ret tt, set_fs (insert p (NDir mkdir_mode)) s)
               | Some (NFile _) => (Raise (NotADirectoryError p), s)
               | None =>
                   match fuel with
                   | O => (Raise (FileNotFoundError p), s)
                   | S fuel' =>
                       match mkdir_p_fuel fuel' parent s with
                       | (Ret _, s') => (Ret tt, set_fs (insert p (NDir mkdir_mode)) s')
                       | (Raise e, s') => (Raise (enotdir_at p e), s')
                       end
                   end
               end
           end.

Definition mkdir_p (p : string) : PyM unit := mkdir_p_fuel (String.length p) p.

(** [os.chmod(p, mode)]: only directories carry a mode here. *)
Definition chmod (p : string) (mode : Z) : PyM unit :=
  fun s => match fs_lookup (st_fs s) p with
           | None => (Raise (FileNotFoundError p), s)
           | Some (NDir _) => (Ret tt, set_fs (insert p (NDir mode)) s)
           | Some (NFile _) => (Ret tt, s)
           end.

Definition children (d : string) (fs : gmap string node) : list string :=
  omap (fun kv => child_name d kv.1) (map_to_list fs).

(** [Path(d).iterdir()]: the names of the entries of [d]. *)
Definition iterdir (d : string) : PyM (list string) :=
  fun s => match fs_lookup (st_fs s) d with
           | None => (Raise (FileNotFoundError d), s)
           | Some (NFile _) => (Raise (NotADirectoryError d), s)
           | Some (NDir _) => (Ret (children d (st_fs s)), s)
           end.

(** [[f.name for f in Path(d).iterdir() if f.is_file()]] *)
Definition list_files (d : string) : PyM (list string) :=
  names <- iterdir d ;;
  fun s => (Ret (filter (fun n => is_file (fs_lookup (st_fs s) (d +:+ "/" +:+ n)) = true) names), s).

(** ** Object store and subprocess *)

(** [s3.download_file(bucket, key, dest)]: a [bucket] that is not a
    [str] fails before any request, in the transfer manager's check of
    the bucket name against its pattern ([re.Pattern.match] on a non-str
    raises [TypeError]). *)
Definition s3_download_file (bucket : json) (key dest : string) : PyM unit :=
  match bucket with
  | JStr b =>
      log (EvDownload b key dest) ;;;
      match w_download w b key with
      | Some e => mraise e
      | None =>
          fun s => match fs_lookup (st_fs s) (path_parent dest), fs_lookup (st_fs s) dest with
                   | Some (NDir _), Some (NDir _) => (Raise (IsADirectoryError dest), s)
                   | Some (NDir _), _ => (Ret tt, set_fs (insert dest (NFile (w_object w b key))) s)
                   | Some (NFile _), _ => (Raise (NotADirectoryError dest), s)
                   | None, _ => (Raise (FileNotFoundError dest), s)
                   end
      end
  | _ => mraise (TypeError ("expected string or bytes-like object, got '" +:+ type_name bucket +:+ "'"))
  end.

(** [open(src, 'rb').read()], as the transfer manager reads the file. *)
Definition read_file (src : string) : PyM string :=
  fun s => match fs_lookup (st_fs s) src with
           | Some (NFile d) => (Ret d, s)
           | Some (NDir _) => (Raise (IsADirectoryError src), s)
           | None => (Raise (FileNotFoundError src), s)
           end.

(** [s3.upload_file(src, bucket, key, ExtraArgs={"ContentType": ct})]:
    the object stored holds the bytes of [src]. *)
Definition s3_upload_file (src bucket key ct : string) : PyM unit :=
  log (EvUpload src bucket key ct) ;;;
  data <- read_file src ;;
  match w_upload w src bucket key ct with
  | Some e => mraise e
  | None => mmodify (fun s => mk_state (st_fs s) (<[(bucket, key) := mk_object src ct data]> (st_s3 s)) (st_trace s))
  end.

(** [subprocess.run(cmd, stdout=PIPE, stderr=PIPE, text=True)], the
    process writing its outputs into [out_dir]; the result is
    [(returncode, stderr)]. *)
Definition subprocess_run (cmd : list string) (out_dir : string) : PyM (Z * string) :=
  log (EvRun cmd) ;;;
  fun s =>
    match w_ffmpeg w cmd (input_data cmd (st_fs s)) with
    | RunSpawnError e => (Raise e, s)
    | RunExit rc err created =>
        (Ret (rc, err), set_fs (fun fs => foldr (fun nk fs' => <[out_dir +:+ "/" +:+ nk.1 := nk.2]> fs') fs created) s)
    end.
End FsOps.

(** ** Facts about the operations *)

Lemma fs_lookup_None_not_root fs p : fs_lookup fs p = None -> p <> "/".
Proof. unfold fs_lookup. intros H ->. by rewrite bool_decide_eq_true_2 in H. Qed.

Lemma fs_lookup_insert_ne fs p q n : p <> q -> fs_lookup (<[p := n]> fs) q = fs_lookup fs q.
Proof. intros Hne. unfold fs_lookup. case_bool_decide; [done|]. by rewrite lookup_insert_ne. Qed.

Lemma fs_lookup_insert_eq fs p n : p <> "/" -> fs_lookup (<[p := n]> fs) p = Some n.
Proof. intros Hne. unfold fs_lookup. rewrite bool_decide_eq_false_2 by done. apply lookup_insert_eq. Qed.

Lemma fs_lookup_delete_eq fs p : p <> "/" -> fs_lookup (delete p fs) p = None.
Proof. intros Hne. unfold fs_lookup. rewrite bool_decide_eq_false_2 by done. apply lookup_delete_eq. Qed.

Lemma fs_lookup_delete_ne fs p q : p <> q -> fs_lookup (delete p fs) q = fs_lookup fs q.
Proof. intros Hne. unfold fs_lookup. case_bool_decide; [done|]. by rewrite lookup_delete_ne. Qed.

Lemma fs_lookup_filter fs (P : string * node -> Prop) `{!forall x, Decision (P x)} q :
  fs_lookup (filter P fs) q = match fs_lookup fs q with
                              | Some n => if bool_decide (q = "/") || bool_decide (P (q, n)) then Some n else None
                              | None => None
                              end.
Proof.
  unfold fs_lookup. case_bool_decide; [done|]. rewrite map_lookup_filter.
  destruct (fs !! q) as [n|]; cbn; [|done]. unfold guard. by case_decide; case_bool_decide.
Qed.

(** Operations that leave the filesystem as it is. *)
Definition fs_frame {A} (m : PyM A) : Prop := forall s, st_fs (m s).2 = st_fs s.

Lemma fs_frame_preserves {A} (P : gmap string node -> Prop) (m : PyM A) :
  fs_frame m -> preserves (fun s => P (st_fs s)) m.
Proof. intros Hm s Hs. by rewrite Hm. Qed.

Lemma fs_frame_ret {A} (a : A) : fs_frame (mret a).
Proof. by intros s. Qed.

Lemma fs_frame_raise {A} e : fs_frame (@mraise state exn A e).
Proof. by intros s. Qed.

Lemma fs_frame_bind {A B} (m : PyM A) (k : A -> PyM B) :
  fs_frame m -> (forall a, fs_frame (k a)) -> fs_frame (mbind m k).
Proof.
  intros Hm Hk s. unfold mbind. specialize (Hm s).
  destruct (m s) as [[a|e] s1]; cbn in *; [by rewrite Hk|done].
Qed.

Lemma fs_frame_mfor {A} (xs : list A) (f : A -> PyM unit) :
  (forall x, fs_frame (f x)) -> fs_frame (mfor xs f).
Proof. intros Hf. induction xs; cbn; [apply fs_frame_ret|]. by apply fs_frame_bind. Qed.

Lemma fs_frame_log ev : fs_frame (log ev).
Proof. by intros s. Qed.

Lemma fs_frame_lift {A} (o : outcome exn A) : fs_frame (lift o).
Proof. by destruct o; intros s. Qed.

Lemma fs_frame_path_exists p : fs_frame (path_exists p).
Proof. by intros s. Qed.

Lemma fs_frame_path_is_file p : fs_frame (path_is_file p).
Proof. by intros s. Qed.

Lemma fs_frame_iterdir d : fs_frame (iterdir d).
Proof. intros s. unfold iterdir. by destruct (fs_lookup _ d) as [[|]|]. Qed.

Lemma fs_frame_list_files d : fs_frame (list_files d).
Proof. apply fs_frame_bind; [apply fs_frame_iterdir|]. by intros ? ?. Qed.

Lemma fs_frame_read_file src : fs_frame (read_file src).
Proof. intros s. unfold read_file. by destruct (fs_lookup _ src) as [[]|]. Qed.

Lemma fs_frame_s3_upload_file w src b k ct : fs_frame (s3_upload_file w src b k ct).
Proof.
  unfold s3_upload_file. apply fs_frame_bind; [apply fs_frame_log|]. intros _.
  apply fs_frame_bind; [apply fs_frame_read_file|]. intros d.
  destruct (w_upload w src b k ct); [apply fs_frame_raise|by intros s].
Qed.

Create HintDb pyfs discriminated.
#[export] Hint Resolve fs_frame_ret fs_frame_raise fs_frame_bind fs_frame_mfor fs_frame_log
  fs_frame_lift fs_frame_path_exists fs_frame_path_is_file fs_frame_iterdir fs_frame_list_files
  fs_frame_read_file fs_frame_s3_upload_file : pyfs.

(** [Path.parent] of an absolute path is an absolute path and a prefix of it. *)
Definition abs_path (p : string) : bool := String.prefix "/" p.

Lemma path_parent_prefix p :
  abs_path p = true -> abs_path (path_parent p) = true /\ String.prefix (path_parent p) p = true.
Proof.
  unfold abs_path, path_parent. intros Habs.
  apply string_prefix_iff in Habs as [p' ->]. rewrite string_app_cons, string_app_nil_l.
  cbn [py_rfind]. destruct (py_rfind "/"%char p') as [i|] eqn:E.
  - split; [cbn; by destruct (String.substring 0 i p')|].
    apply (string_prefix_substring (S i) (String "/" p')).
  - rewrite bool_decide_eq_true_2 by done. cbn. split; [done|by destruct p'].
Qed.

Lemma py_rfind_lt c s i : py_rfind c s = Some i -> i < String.length s.
Proof.
  revert i. induction s as [|x s IH]; intros i; cbn; [done|].
  destruct (py_rfind c s) as [j|]; [intros [= <-]; specialize (IH j eq_refl); lia|].
  case_bool_decide; [intros [= <-]; lia|done].
Qed.

Lemma substring_0_length n s : String.length (String.substring 0 n s) <= n.
Proof.
  revert s. induction n as [|n IH]; intros [|x s]; cbn; try lia. specialize (IH s). lia.
Qed.

(** A parent is strictly shorter than its child, below the root. *)
Lemma path_parent_shorter p :
  abs_path p = true -> p <> "/" -> String.length (path_parent p) < String.length p.
Proof.
  unfold abs_path, path_parent. intros Habs Hne.
  apply string_prefix_iff in Habs as [p' ->]. rewrite string_app_cons, string_app_nil_l in *.
  cbn [py_rfind]. destruct (py_rfind "/"%char p') as [i|] eqn:E.
  - apply py_rfind_lt in E. cbn [String.substring String.length].
    pose proof (substring_0_length i p'). lia.
  - rewrite bool_decide_eq_true_2 by done. destruct p'; [done|]. cbn. lia.
Qed.

Lemma os_remove_file (w : world) s p d :
  fs_lookup (st_fs s) p = Some (NFile d) -> w_remove_fault w p = None ->
  os_remove w p s = (Ret tt, set_fs (delete p) s).
Proof. intros Hp Hf. unfold os_remove. by rewrite Hp, Hf. Qed.

Lemma first_fault_None (w : world) ps :
  (forall p, p ∈ ps -> w_remove_fault w p = None) -> first_fault w ps = None.
Proof.
  induction ps as [|p ps IH]; intros Hall; [done|]. cbn.
  rewrite Hall by (apply elem_of_cons; by left). apply IH. intros q Hq. apply Hall, elem_of_cons. by right.
Qed.

Lemma elem_of_subtree d fs q : q ∈ subtree d fs -> q = d \/ is_under d q = true.
Proof.
  unfold subtree. rewrite elem_of_cons, list_elem_of_filter. intros [->|[Hq _]]; auto.
Qed.

(** Removing the tree at [d]: [d] and everything below it go. *)
Definition clear_tree (d : string) (fs : gmap string node) : gmap string node :=
  filter (fun kv => kv.1 <> d /\ is_under d kv.1 = false) fs.

Lemma rmtree_dir (w : world) s d m :
  fs_lookup (st_fs s) d = Some (NDir m) ->
  (forall q, q = d \/ is_under d q = true -> w_remove_fault w q = None) ->
  rmtree w d s = (Ret tt, set_fs (clear_tree d) s).
Proof.
  intros Hd Hf. unfold rmtree. rewrite Hd, first_fault_None; [done|].
  intros q Hq. by apply Hf, (elem_of_subtree d (st_fs s)).
Qed.

Lemma fs_lookup_clear_tree d fs q :
  q <> "/" -> fs_lookup (clear_tree d fs) q = if bool_decide (q = d) || is_under d q then None else fs_lookup fs q.
Proof.
  intros Hq. unfold clear_tree, fs_lookup. rewrite !(bool_decide_eq_false_2 (q = "/")) by done.
  rewrite map_lookup_filter. destruct (fs !! q) as [n|]; cbn; [|by destruct (_ || _)].
  unfold guard. case_decide as Hc; cbn [fst] in Hc.
  - destruct Hc as [Hne Hu]. cbn. unfold is_under. by rewrite bool_decide_eq_false_2, Hu.
  - cbn. unfold is_under in *. case_bool_decide; [done|].
    destruct (String.prefix _ q) eqn:?; [done|]. tauto.
Qed.

(** ** One step of each operation, when it succeeds *)

Definition logged (ev : event) (s : state) : state :=
  mk_state (st_fs s) (st_s3 s) (st_trace s ++ [ev]).

Lemma log_step ev s : log ev s = (Ret tt, logged ev s).
Proof. done. Qed.

Lemma s3_download_file_ok (w : world) b key dest s m :
  w_download w b key = None -> fs_lookup (st_fs s) (path_parent dest) = Some (NDir m) ->
  (forall m', fs_lookup (st_fs s) dest <> Some (NDir m')) ->
  s3_download_file w (JStr b) key dest s =
  (Ret tt, set_fs (insert dest (NFile (w_object w b key))) (logged (EvDownload b key dest) s)).
Proof.
  intros Hw Hp Hd. unfold s3_download_file. rewrite (mbind_Ret_eq _ _ _ tt _ (log_step _ s)).
  rewrite Hw. cbn [logged st_fs]. rewrite Hp.
  destruct (fs_lookup (st_fs s) dest) as [[|m']|]; [done| |done]. by destruct (Hd m').
Qed.

Lemma mkdir_p_new (w : world) p s m :
  fs_lookup (st_fs s) p = None -> fs_lookup (st_fs s) (path_parent p) = Some (NDir m) ->
  mkdir_p w p s = (Ret tt, set_fs (insert p (NDir (mkdir_mode w))) s).
Proof.
  intros Hp Hq. unfold mkdir_p. destruct (String.length p); cbn; by rewrite Hp, Hq.
Qed.

Lemma chmod_dir p mode s m :
  fs_lookup (st_fs s) p = Some (NDir m) -> chmod p mode s = (Ret tt, set_fs (insert p (NDir mode)) s).
Proof. intros Hp. unfold chmod. by rewrite Hp. Qed.

(** The entries ffmpeg writes into [out_dir]. *)
Definition add_created (out_dir : string) (created : list (string * node)) (fs : gmap string node) :=
  foldr (fun nk fs' => <[out_dir +:+ "/" +:+ nk.1 := nk.2]> fs') fs created.

Lemma under_ne (d t : string) : d +:+ "/" +:+ t <> d.
Proof.
  intros H. apply (f_equal String.length) in H. rewrite !string_length_app in H. cbn in H. lia.
Qed.

Lemma add_created_output od created fs :
  fs_lookup (add_created od created fs) od = fs_lookup fs od.
Proof.
  induction created as [|[n k] created IH]; [done|]. cbn.
  rewrite fs_lookup_insert_ne; [done|]. apply under_ne.
Qed.

Lemma subprocess_run_exit (w : world) cmd out_dir s rc err created :
  w_ffmpeg w cmd (input_data cmd (st_fs s)) = RunExit rc err created ->
  subprocess_run w cmd out_dir s =
  (Ret (rc, err), set_fs (add_created out_dir created) (logged (EvRun cmd) s)).
Proof. intros Hw. unfold subprocess_run. rewrite (mbind_Ret_eq _ _ _ tt _ (log_step _ s)). cbn. by rewrite Hw. Qed.

(** The names of the regular files directly inside [d]. *)
Definition regular_files (d : string) (fs : gmap string node) : list string :=
  filter (fun n => is_file (fs_lookup fs (d +:+ "/" +:+ n)) = true) (children d fs).

Lemma list_files_dir d s m :
  fs_lookup (st_fs s) d = Some (NDir m) -> list_files d s = (Ret (regular_files d (st_fs s)), s).
Proof. intros Hd. unfold list_files, iterdir, mbind. by rewrite Hd. Qed.

(** ** Directory listings *)

Lemma is_under_child d n : is_under d (d +:+ "/" +:+ n) = true.
Proof. unfold is_under. rewrite string_app_assoc. apply string_prefix_app. Qed.

Lemma child_rest d t :
  String.substring (String.length d + 1) (String.length (d +:+ "/" +:+ t) - String.length d - 1) (d +:+ "/" +:+ t) = t.
Proof.
  assert (Hl : String.length (d +:+ "/" +:+ t) - String.length d - 1 = String.length t)
    by (rewrite !string_length_app; cbn; lia).
  rewrite Hl. replace (String.length d + 1) with (String.length (d +:+ "/")) by (rewrite string_length_app; cbn; lia).
  by rewrite string_app_assoc, substring_app_suffix.
Qed.

Lemma child_name_child d n : string_has "/"%char n = false -> child_name d (d +:+ "/" +:+ n) = Some n.
Proof. intros Hn. unfold child_name. by rewrite is_under_child, child_rest, Hn. Qed.

Lemma child_name_Some d q n :
  child_name d q = Some n -> q = d +:+ "/" +:+ n /\ string_has "/"%char n = false.
Proof.
  unfold child_name. destruct (is_under d q) eqn:Hu; [|done].
  apply string_prefix_iff in Hu as [t ->]. rewrite <-string_app_assoc, child_rest.
  by destruct (string_has "/"%char t) eqn:Ht; [|intros [= <-]].
Qed.

Lemma elem_of_children d fs n :
  n ∈ children d fs <-> string_has "/"%char n = false /\ is_Some (fs !! (d +:+ "/" +:+ n)).
Proof.
  unfold children. rewrite list_elem_of_omap. split.
  - intros ([q v] & Hin & Hc). apply elem_of_map_to_list in Hin. cbn in Hc.
    apply child_name_Some in Hc as [-> Hn]. split; [done|]. by eexists.
  - intros [Hn [v Hv]]. exists (d +:+ "/" +:+ n, v). split; [by apply elem_of_map_to_list|].
    by apply child_name_child.
Qed.

Lemma NoDup_children d fs : NoDup (children d fs).
Proof.
  unfold children. pose proof (NoDup_fst_map_to_list fs) as Hnd.
  induction (map_to_list fs) as [|[q v] kvs IH]; cbn; [constructor|].
  apply NoDup_cons in Hnd as [Hq Hnd]. cbn in Hq.
  destruct (child_name d q) as [n|] eqn:Hc; [|by apply IH].
  constructor; [|by apply IH]. rewrite list_elem_of_omap. intros ([q' v'] & Hin & Hc').
  apply child_name_Some in Hc as [-> _], Hc' as [Hq' _]. cbn in Hq'. subst q'.
  apply Hq, list_elem_of_fmap. by exists (d +:+ "/" +:+ n, v').
Qed.

Lemma under_not_root d n : d +:+ "/" +:+ n <> "/" \/ d = "".
Proof.
  destruct d as [|c d]; [by right|left]. intros H. rewrite string_app_cons in H.
  injection H as _ H. apply (f_equal String.length) in H. rewrite !string_length_app in H. cbn in H. lia.
Qed.

(** [[f.name for f in d.iterdir() if f.is_file()]] lists each regular
    file directly inside [d] once. *)
Lemma elem_of_regular_files d fs n :
  d <> "" ->
  n ∈ regular_files d fs <-> string_has "/"%char n = false /\ is_file (fs_lookup fs (d +:+ "/" +:+ n)) = true.
Proof.
  intros Hd. unfold regular_files. rewrite list_elem_of_filter, elem_of_children.
  destruct (under_not_root d n) as [Hr|]; [|done]. unfold fs_lookup. rewrite bool_decide_eq_false_2 by done.
  split; [tauto|]. intros [Hn Hf]. split_and!; [done|done|]. destruct (fs !! _); [by eexists|done].
Qed.

Lemma is_file_Some o : is_file o = true <-> exists d, o = Some (NFile d).
Proof.
  destruct o as [[d|m]|]; cbn; [split; [by exists d|done]|split; [done|by intros [? ?]]..].
Qed.

Lemma NoDup_regular_files d fs : NoDup (regular_files d fs).
Proof. apply NoDup_filter, NoDup_children. Qed.

Lemma path_parent_child d n :
  d <> "" -> string_has "/"%char n = false -> path_parent (d +:+ "/" +:+ n) = d.
Proof.
  intros Hd Hn. unfold path_parent. change (d +:+ "/" +:+ n) with (d +:+ String "/"%char n).
  rewrite py_rfind_app_sep by done. destruct d as [|c d']; [done|].
  cbn [String.length]. apply (substring_app_prefix (String c d')).
Qed.

(** A filesystem in which every entry but the root has a directory as
    parent, as a real one has. *)
Definition tree_ok (fs : gmap string node) : Prop :=
  forall q v, q <> "/" -> fs !! q = Some v -> exists m, fs_lookup fs (path_parent q) = Some (NDir m).

Lemma tree_ok_no_child fs d n :
  tree_ok fs -> d <> "" -> string_has "/"%char n = false -> fs_lookup fs d = None ->
  fs_lookup fs (d +:+ "/" +:+ n) = None.
Proof.
  intros Ht Hd Hn Hnone. destruct (under_not_root d n) as [Hr|]; [|done].
  unfold fs_lookup at 1. rewrite bool_decide_eq_false_2 by done.
  destruct (fs !! _) as [v|] eqn:E; [|done].
  destruct (Ht _ _ Hr E) as [m Hm]. by rewrite path_parent_child, Hnone in Hm.
Qed.

Lemma s3_upload_file_ok (w : world) src b k ct s d :
  fs_lookup (st_fs s) src = Some (NFile d) -> w_upload w src b k ct = None ->
  s3_upload_file w src b k ct s =
  (Ret tt, mk_state (st_fs s) (<[(b, k) := mk_object src ct d]> (st_s3 s)) (st_trace s ++ [EvUpload src b k ct])).
Proof.
  intros Hf Hw. unfold s3_upload_file. rewrite (mbind_Ret_eq _ _ _ tt _ (log_step _ s)).
  unfold mbind at 1, read_file. cbn [logged st_fs]. rewrite Hf, Hw. done.
Qed.

(** ** Enough fuel for [mkdir(parents=True)] *)

(** On an absolute path, [mkdir_p_fuel] gives the same result with any
    fuel of at least [String.length p]: the walk up the missing ancestors
    reaches the root, which always exists, before the fuel runs out, so
    the fuel of [mkdir_p] is never what stops it. *)
Lemma mkdir_p_fuel_enough (w : world) n n' p s :
  abs_path p = true -> String.length p <= n -> n <= n' ->
  mkdir_p_fuel w n' p s = mkdir_p_fuel w n p s.
Proof.
  revert n' p s. induction n as [|n IH]; intros n' p s Habs Hl Hn.
  { destruct p; [discriminate|cbn in Hl; lia]. }
  destruct n' as [|n']; [lia|]. cbn [mkdir_p_fuel].
  destruct (fs_lookup (st_fs s) p) as [[|m]|] eqn:Ep; try done.
  destruct (fs_lookup (st_fs s) (path_parent p)) as [[|m]|] eqn:Eq; try done.
  assert (Hr : p <> "/") by (intros ->; discriminate Ep).
  destruct (path_parent_prefix p Habs) as [Habs' _].
  pose proof (path_parent_shorter p Habs Hr).
  rewrite (IH n' (path_parent p) s Habs') by lia. done.
Qed.

