(* ===== verification/FsWf.v ===== *)
(** * FsWf: the filesystem stays a tree, and what each operation writes

    A real filesystem is a tree: every entry but the root lies in a
    directory ([Fs.tree_ok]).  This file proves, operation by operation,
    that the library calls of Fs.v keep that shape ([os.remove] removes
    a file, which has no entries below it; [rmtree] removes a whole
    subtree; [mkdir] and the download create an entry only inside a
    directory; ffmpeg writes plain file names into a fresh directory),
    and which paths each call may change ([writes]), so that a whole
    handler run can be framed: what it does not write keeps its entry.
    The triples are [Prelude.hoare]. *)

From S2P Require Import Prelude PyStr PyObj Fs.
Open Scope stdpp_scope.
Open Scope py_scope.

(** ** Deciding the tree shape *)

Definition tree_okb (fs : gmap string node) : bool :=
  forallb (fun kv => bool_decide (kv.1 = "/") ||
             match fs_lookup fs (path_parent kv.1) with Some (NDir _) => true | _ => false end)
          (map_to_list fs).

Lemma tree_okb_spec fs : tree_okb fs = true <-> tree_ok fs.
Proof.
  unfold tree_okb. rewrite forallb_forall. split.
  - intros H q v Hq Hv. specialize (H (q, v)). rewrite <-list_elem_of_In, elem_of_map_to_list in H.
    specialize (H Hv). cbn in H. rewrite bool_decide_eq_false_2 in H by done. cbn in H.
    destruct (fs_lookup fs (path_parent q)) as [[|m]|]; [done|by exists m|done].
  - intros Ht [q v] Hin. rewrite <-list_elem_of_In, elem_of_map_to_list in Hin. cbn.
    case_bool_decide; [done|]. destruct (Ht q v) as [m ->]; done.
Qed.

#[export] Instance tree_ok_dec fs : Decision (tree_ok fs).
Proof. refine (cast_if (decide (tree_okb fs = true))); by rewrite <-tree_okb_spec. Defined.

(** ** The shape of a path and its parent *)

Lemma py_rfind_split c s i :
  py_rfind c s = Some i -> exists a b, s = a +:+ String c b /\ String.length a = i.
Proof.
  revert i. induction s as [|x s IH]; intros i; cbn; [done|].
  destruct (py_rfind c s) as [j|] eqn:E.
  - intros [= <-]. destruct (IH j eq_refl) as (a & b & -> & <-).
    exists (String x a), b. by rewrite string_app_cons.
  - case_bool_decide as Hx; [|done]. intros [= <-]. subst x.
    exists "", s. by rewrite string_app_nil_l.
Qed.

(** A path is its parent, a slash and a last component, unless its
    parent is the root or it is relative without a slash. *)
Lemma path_parent_cases q :
  path_parent q = "/" \/ path_parent q = "." \/ exists rest, q = path_parent q +:+ "/" +:+ rest.
Proof.
  unfold path_parent. destruct (py_rfind "/"%char q) as [[|i]|] eqn:E; [by left| |by right; left].
  right; right. destruct (py_rfind_split _ _ _ E) as (a & b & -> & Ha).
  exists b. rewrite <-Ha, substring_app_prefix. done.
Qed.

Lemma abs_path_not_dot d : abs_path d = true -> d <> ".".
Proof. by intros H ->. Qed.

Lemma under_abs_not_dot d : abs_path d = true -> is_under d "." = false.
Proof.
  intros Hd. unfold abs_path in Hd. apply string_prefix_iff in Hd as [t ->].
  unfold is_under. destruct (String.prefix _ _) eqn:E; [|done].
  apply string_prefix_iff in E as [u Hu]. rewrite string_app_cons in Hu. discriminate.
Qed.

(** If the parent of [q] is [d] or lies below [d], so does [q]. *)
Lemma under_parent d q :
  abs_path d = true -> path_parent q <> "/" ->
  path_parent q = d \/ is_under d (path_parent q) = true -> q = d \/ is_under d q = true.
Proof.
  intros Hd Hr Hpq. destruct (path_parent_cases q) as [|[Hdot|[rest Hq]]]; [done| |].
  - rewrite Hdot in Hpq. destruct Hpq as [<-|Hu]; [done|]. by rewrite under_abs_not_dot in Hu.
  - right. rewrite Hq. destruct Hpq as [->|Hu]; [apply is_under_child|].
    unfold is_under in *. apply string_prefix_iff in Hu as [t Ht]. apply string_prefix_iff.
    exists (t +:+ "/" +:+ rest). rewrite Ht, <-!string_app_assoc. done.
Qed.

(** ** Tree lemmas *)

Lemma tree_ok_file_no_child fs p d q v :
  tree_ok fs -> fs_lookup fs p = Some (NFile d) -> q <> "/" -> fs !! q = Some v -> path_parent q <> p.
Proof. intros Ht Hp Hq Hv <-. destruct (Ht _ _ Hq Hv) as [m Hm]. by rewrite Hm in Hp. Qed.

Lemma tree_ok_delete_file fs p d :
  tree_ok fs -> fs_lookup fs p = Some (NFile d) -> tree_ok (delete p fs).
Proof.
  intros Ht Hp q v Hq Hv. destruct (decide (q = p)) as [->|Hne]; [by rewrite lookup_delete_eq in Hv|].
  rewrite lookup_delete_ne in Hv by done. destruct (Ht _ _ Hq Hv) as [m Hm]. exists m.
  rewrite fs_lookup_delete_ne; [done|]. intros Heq. apply (tree_ok_file_no_child fs p d q v); auto.
Qed.

Lemma tree_ok_clear_tree fs d : abs_path d = true -> tree_ok fs -> tree_ok (clear_tree d fs).
Proof.
  intros Hd Ht q v Hq Hv. unfold clear_tree in Hv. apply map_lookup_filter_Some in Hv as [Hv [Hqd Hqu]].
  cbn [fst] in Hqd, Hqu. destruct (Ht _ _ Hq Hv) as [m Hm]. exists m.
  destruct (decide (path_parent q = "/")) as [Hr|Hr]; [rewrite Hr in *; done|].
  rewrite fs_lookup_clear_tree by done.
  destruct (bool_decide (path_parent q = d) || is_under d (path_parent q)) eqn:E; [|done].
  exfalso. assert (Hpd : path_parent q = d \/ is_under d (path_parent q) = true)
    by (apply orb_true_iff in E as [E%bool_decide_eq_true|E]; auto).
  destruct (under_parent d q Hd Hr Hpd) as [|Hu]; [done|congruence].
Qed.

(** Inserting an entry keeps a tree when its parent is a directory and,
    for a regular file, no entry lies in it. *)
Lemma tree_ok_insert fs p v :
  tree_ok fs ->
  (p <> "/" -> exists m, fs_lookup (<[p := v]> fs) (path_parent p) = Some (NDir m)) ->
  (forall d, v = NFile d -> forall q w, q <> "/" -> fs !! q = Some w -> path_parent q <> p) ->
  tree_ok (<[p := v]> fs).
Proof.
  intros Ht Hp Hf q w Hq Hw. destruct (decide (q = p)) as [->|Hne]; [by apply Hp|].
  rewrite lookup_insert_ne in Hw by done. destruct (Ht _ _ Hq Hw) as [m Hm].
  destruct (decide (path_parent q = p)) as [Hpq|Hpq].
  - rewrite Hpq. destruct (decide (p = "/")) as [->|Hpr]; [by eexists|].
    destruct v as [d|m']; [by destruct (Hf d eq_refl q w Hq Hw)|]. exists m'. by apply fs_lookup_insert_eq.
  - exists m. by rewrite fs_lookup_insert_ne.
Qed.

(** ** Each operation keeps the tree *)

Abbreviation fs_tree := (fun s : state => tree_ok (st_fs s)).

Lemma fs_frame_tree {A} (m : PyM A) : fs_frame m -> preserves fs_tree m.
Proof. intros Hm s Hs. cbn. by rewrite Hm. Qed.

Lemma tree_os_remove w p : preserves fs_tree (os_remove w p).
Proof.
  intros s Hs. unfold os_remove. destruct (fs_lookup (st_fs s) p) as [[fd|m]|] eqn:E; try done.
  destruct (w_remove_fault w p); [done|]. by apply (tree_ok_delete_file _ _ fd).
Qed.

Lemma tree_rmtree w d : abs_path d = true -> preserves fs_tree (rmtree w d).
Proof.
  intros Hd s Hs. unfold rmtree. repeat case_match; try done. by apply tree_ok_clear_tree.
Qed.

Lemma mkdir_p_fuel_dir w n p s u s' :
  mkdir_p_fuel w n p s = (Ret u, s') -> exists m, fs_lookup (st_fs s') p = Some (NDir m).
Proof.
  revert p s u s'. induction n as [|n IH]; intros p s u s'; cbn [mkdir_p_fuel].
  all: destruct (fs_lookup (st_fs s) p) as [[|m]|] eqn:Ep; try done; [by intros [= _ <-]; eexists|].
  all: assert (Hr : p <> "/") by (by intros ->).
  all: destruct (fs_lookup (st_fs s) (path_parent p)) as [[|m]|] eqn:Eq; try done;
       try (intros [= _ <-]; eexists; by apply fs_lookup_insert_eq).
  destruct (mkdir_p_fuel w n (path_parent p) s) as [[v|e] s1]; [|done].
  intros [= _ <-]. eexists. by apply fs_lookup_insert_eq.
Qed.

Lemma tree_mkdir_p_fuel w n p : preserves fs_tree (mkdir_p_fuel w n p).
Proof.
  revert p. induction n as [|n IH]; intros p s Hs; cbn [mkdir_p_fuel].
  all: destruct (fs_lookup (st_fs s) p) as [[|m]|] eqn:Ep; try done.
  all: destruct (fs_lookup (st_fs s) (path_parent p)) as [[|m]|] eqn:Eq; try done.
  1,2: apply tree_ok_insert; [done| |done]; intros Hr; exists m;
       rewrite fs_lookup_insert_ne; [done|]; intros Hpp; rewrite Hpp in Eq; congruence.
  specialize (IH (path_parent p) s Hs).
  destruct (mkdir_p_fuel w n (path_parent p) s) as [[u|e] s'] eqn:Em; [|done]. cbn in IH |- *.
  apply tree_ok_insert; [done| |done]. intros Hr.
  destruct (decide (path_parent p = p)) as [Hpp|Hpp]; [rewrite Hpp; eexists; by apply fs_lookup_insert_eq|].
  destruct (mkdir_p_fuel_dir _ _ _ _ _ _ Em) as [m Hm]. exists m. by rewrite fs_lookup_insert_ne.
Qed.

Lemma tree_chmod p mode : preserves fs_tree (chmod p mode).
Proof.
  intros s Hs. unfold chmod. destruct (fs_lookup (st_fs s) p) as [[|m]|] eqn:E; try done.
  cbn. apply tree_ok_insert; [done| |done]. intros Hr.
  destruct (decide (path_parent p = p)) as [Hpp|Hpp]; [rewrite Hpp; eexists; by apply fs_lookup_insert_eq|].
  rewrite fs_lookup_insert_ne by done. unfold fs_lookup in E. rewrite bool_decide_eq_false_2 in E by done.
  apply (Hs p (NDir m) Hr E).
Qed.

Lemma tree_download w b key dest : preserves fs_tree (s3_download_file w b key dest).
Proof.
  intros s Hs. unfold s3_download_file. destruct b; try done.
  unfold mbind at 1, log, mmodify. cbn -[fs_lookup].
  destruct (w_download w s0 key); [done|]. cbn -[fs_lookup].
  destruct (fs_lookup (st_fs s) (path_parent dest)) as [[|m]|] eqn:Ep; try done.
  destruct (fs_lookup (st_fs s) dest) as [[|m']|] eqn:Ed; try done; cbn.
  all: apply tree_ok_insert; [done| |].
  1,3: intros Hr; exists m; rewrite fs_lookup_insert_ne; [done|]; intros Hpp; rewrite Hpp in Ep; congruence.
  - intros ? _ q v Hq Hv. by apply (tree_ok_file_no_child _ _ _ _ v Hs Ed).
  - intros ? _ q v Hq Hv <-. destruct (Hs _ _ Hq Hv) as [m' Hm']. congruence.
Qed.

(** ** ffmpeg's outputs *)

(** ffmpeg writes plain file names (no [/]) into its output directory. *)
Definition flat_outputs (w : world) : Prop :=
  forall cmd inp rc err created, w_ffmpeg w cmd inp = RunExit rc err created ->
  Forall (fun nk => string_has "/"%char nk.1 = false) created.

(** No entry lies inside a direct child of [d]. *)
Definition fresh_dir (fs : gmap string node) (d : string) : Prop :=
  forall q v n, q <> "/" -> fs !! q = Some v -> string_has "/"%char n = false ->
  path_parent q <> d +:+ "/" +:+ n.

Lemma child_not_root d n : d <> "" -> d +:+ "/" +:+ n <> "/".
Proof. intros Hd. by destruct (under_not_root d n). Qed.

Lemma fresh_dir_absent fs d : tree_ok fs -> fs_lookup fs d = None -> d <> "" -> fresh_dir fs d.
Proof.
  intros Ht Hd Hne q v n Hq Hv Hn Hpq. destruct (Ht _ _ Hq Hv) as [m Hm]. rewrite Hpq in Hm.
  unfold fs_lookup in Hm. rewrite bool_decide_eq_false_2 in Hm by (by apply child_not_root).
  destruct (Ht _ _ (child_not_root d n Hne) Hm) as [m' Hm']. by rewrite path_parent_child, Hd in Hm'.
Qed.

Lemma tree_add_created fs d created :
  tree_ok fs -> (exists m, fs_lookup fs d = Some (NDir m)) -> fresh_dir fs d -> d <> "" ->
  Forall (fun nk => string_has "/"%char nk.1 = false) created ->
  tree_ok (add_created d created fs) /\ (exists m, fs_lookup (add_created d created fs) d = Some (NDir m)) /\
  fresh_dir (add_created d created fs) d.
Proof.
  intros Ht Hd Hf Hne Hall. induction Hall as [|[n v] created Hn _ IH]; [done|].
  destruct IH as (Ht' & [m Hd'] & Hf'). cbn [add_created foldr fst snd] in *. fold (add_created d created fs).
  split_and!.
  - apply tree_ok_insert; [done| |].
    + intros _. exists m. rewrite path_parent_child by done. rewrite fs_lookup_insert_ne; [done|apply under_ne].
    + intros ? _ q w Hq Hw Hpq. by apply (Hf' q w n Hq Hw Hn).
  - exists m. rewrite fs_lookup_insert_ne; [done|apply under_ne].
  - intros q w n' Hq Hw Hn' Hpq. destruct (decide (q = d +:+ "/" +:+ n)) as [->|Hqn].
    + rewrite path_parent_child in Hpq by done. symmetry in Hpq. by apply (under_ne d n').
    + rewrite lookup_insert_ne in Hw by done. by apply (Hf' q w n' Hq Hw Hn').
Qed.

Lemma tree_subprocess w cmd d :
  flat_outputs w -> d <> "" ->
  hoare (fun s => tree_ok (st_fs s) /\ (exists m, fs_lookup (st_fs s) d = Some (NDir m)) /\ fresh_dir (st_fs s) d)
        (subprocess_run w cmd d) (fun _ => fs_tree) (fun _ => fs_tree).
Proof.
  intros Hw Hne s (Ht & Hd & Hf). unfold subprocess_run, mbind at 1, log, mmodify. cbn.
  destruct (w_ffmpeg w cmd _) as [e|rc err created] eqn:E; [done|]. cbn.
  apply (tree_add_created (st_fs s) d created); auto. by apply (Hw cmd _ rc err _ E).
Qed.

(** ** What each operation writes

    [writes X m]: every path outside [X] keeps its entry (or its absence)
    through [m], on both outcomes.  Stated through [preserves], so that
    the monad's [preserves] lemmas compose it. *)

Definition writes {A} (X : string -> Prop) (m : PyM A) : Prop :=
  forall q v, ~ X q -> preserves (fun s => st_fs s !! q = v) m.

Lemma writes_mono {A} (X Y : string -> Prop) (m : PyM A) :
  writes X m -> (forall q, X q -> Y q) -> writes Y m.
Proof. intros Hm HXY q v Hq. apply Hm. auto. Qed.

Lemma writes_frame {A} X (m : PyM A) : fs_frame m -> writes X m.
Proof. intros Hm q v _ s Hs. by rewrite Hm. Qed.

Lemma writes_bind {A B} X (m : PyM A) (k : A -> PyM B) :
  writes X m -> (forall a, writes X (k a)) -> writes X (mbind m k).
Proof. intros Hm Hk q v Hq. apply preserves_bind; [by apply Hm|]. intros a. by apply Hk. Qed.

Lemma writes_try_except {A} X (m : PyM A) h :
  writes X m -> (forall e, writes X (h e)) -> writes X (try_except m h).
Proof. intros Hm Hh q v Hq. apply preserves_try_except; [by apply Hm|]. intros e. by apply Hh. Qed.

Lemma writes_try_finally {A} X (m : PyM A) fin :
  writes X m -> writes X fin -> writes X (try_finally m fin).
Proof. intros Hm Hf q v Hq. apply preserves_try_finally; auto. Qed.

Lemma writes_os_remove w p : writes (fun q => q = p) (os_remove w p).
Proof.
  intros q v Hq s Hs. unfold os_remove.
  repeat case_match; try done. cbn. by rewrite lookup_delete_ne by congruence.
Qed.

Lemma writes_rmtree w d : writes (fun q => q = d \/ is_under d q = true) (rmtree w d).
Proof.
  intros q v Hq s Hs. unfold rmtree. repeat case_match; try done. cbn.
  rewrite map_lookup_filter, Hs. destruct v as [nd|]; [|done]. cbn. unfold guard.
  case_decide as Hc; [done|]. exfalso. apply Hc. cbn. split; [naive_solver|].
  unfold is_under in Hq. destruct (String.prefix _ q); naive_solver.
Qed.

Lemma writes_chmod p mode : writes (fun q => q = p) (chmod p mode).
Proof.
  intros q v Hq s Hs. unfold chmod. repeat case_match; try done. cbn.
  by rewrite lookup_insert_ne by congruence.
Qed.

Lemma writes_download w b key dest : writes (fun q => q = dest) (s3_download_file w b key dest).
Proof.
  intros q v Hq. unfold s3_download_file. destruct b; try apply preserves_raise.
  apply preserves_bind; [apply (fs_frame_preserves (fun fs => fs !! q = v)), fs_frame_log|]. intros _.
  case_match; [apply preserves_raise|]. intros st Hs. repeat case_match; try done; cbn;
    by rewrite lookup_insert_ne by congruence.
Qed.

Lemma writes_subprocess w cmd d : writes (fun q => is_under d q = true) (subprocess_run w cmd d).
Proof.
  intros q v Hq. unfold subprocess_run. apply preserves_bind; [apply (fs_frame_preserves (fun fs => fs !! q = v)), fs_frame_log|].
  intros _ s Hs. destruct (w_ffmpeg w cmd _) as [e|rc err created]; [done|]. cbn.
  induction created as [|[n k] created IH]; cbn; [done|].
  rewrite lookup_insert_ne; [done|]. intros <-. by rewrite is_under_child in Hq.
Qed.

(** [mkdir] of a path whose parent is a directory writes that path only. *)
Lemma mkdir_p_fuel_parent_dir w fuel p q v :
  q <> p ->
  hoare (fun s => st_fs s !! q = v /\ exists m, fs_lookup (st_fs s) (path_parent p) = Some (NDir m))
        (mkdir_p_fuel w fuel p) (fun _ s => st_fs s !! q = v) (fun _ s => st_fs s !! q = v).
Proof.
  intros Hq s [Hs [m Hm]]. destruct fuel; cbn [mkdir_p_fuel];
    destruct (fs_lookup (st_fs s) p) as [[|m']|]; try done; rewrite Hm; cbn;
    by rewrite lookup_insert_ne by congruence.
Qed.

(** ** Entries below a missing directory *)

Lemma last_slash_split t :
  string_has "/"%char t = true -> exists t1 t2, t = t1 +:+ "/" +:+ t2 /\ string_has "/"%char t2 = false.
Proof.
  induction t as [|x t IH]; cbn; [done|]. intros H.
  destruct (string_has "/"%char t) eqn:Ht.
  - destruct (IH eq_refl) as (t1 & t2 & -> & H2). exists (String x t1), t2. by rewrite string_app_cons.
  - rewrite orb_false_r in H. apply bool_decide_eq_true in H as ->. exists "", t. done.
Qed.

(** In a tree, nothing lies below a path that does not exist. *)
Lemma tree_ok_absent_under fs d :
  tree_ok fs -> d <> "" -> fs_lookup fs d = None -> forall q, is_under d q = true -> fs !! q = None.
Proof.
  intros Ht Hd Hnone q. remember (String.length q) as n eqn:En. revert q En.
  induction n as [n IH] using lt_wf_ind. intros q En Hq. unfold is_under in Hq. apply string_prefix_iff in Hq as [t Ht'].
  rewrite <-string_app_assoc in Ht'. subst q.
  destruct (fs !! (d +:+ "/" +:+ t)) as [v|] eqn:Hv; [exfalso|done].
  destruct (Ht _ _ (child_not_root d t Hd) Hv) as [m Hm].
  destruct (string_has "/"%char t) eqn:Hs.
  - destruct (last_slash_split t Hs) as (t1 & t2 & -> & H2).
    rewrite (string_app_assoc d "/"), (string_app_assoc _ t1), <-(string_app_assoc d "/" t1) in Hm, Hv.
    rewrite path_parent_child in Hm by (done || by destruct d).
    unfold fs_lookup in Hm. rewrite bool_decide_eq_false_2 in Hm by (by apply child_not_root).
    assert (Hlt : String.length (d +:+ "/" +:+ t1) < n) by (rewrite En, !string_length_app; cbn; lia).
    by rewrite (IH _ Hlt _ eq_refl (is_under_child d t1)) in Hm.
  - rewrite path_parent_child, Hnone in Hm by done. done.
Qed.

(** ** Creating the output directory keeps it fresh *)

Lemma fresh_dir_insert fs d p v :
  fresh_dir fs d -> abs_path p = true -> String.length p <= String.length d ->
  fresh_dir (<[p := v]> fs) d.
Proof.
  intros Hf Hp Hlen q w n Hq Hw Hn Heq. destruct (decide (q = p)) as [->|Hne].
  - pose proof (path_parent_shorter p Hp Hq) as Hs. rewrite Heq, !string_length_app in Hs. cbn in Hs. lia.
  - rewrite lookup_insert_ne in Hw by done. by apply (Hf q w n).
Qed.

Lemma fresh_mkdir_p_fuel w fuel p d :
  abs_path p = true -> String.length p <= String.length d ->
  preserves (fun s => fresh_dir (st_fs s) d) (mkdir_p_fuel w fuel p).
Proof.
  revert p. induction fuel as [|fuel IH]; intros p Hp Hlen s Hs; cbn [mkdir_p_fuel].
  all: destruct (fs_lookup (st_fs s) p) as [[|m]|] eqn:Ep; try done.
  all: apply fs_lookup_None_not_root in Ep.
  all: destruct (fs_lookup (st_fs s) (path_parent p)) as [[|m]|]; try done.
  1,2: by apply fresh_dir_insert.
  destruct (path_parent_prefix p Hp) as [Hp' _]. pose proof (path_parent_shorter p Hp Ep).
  specialize (IH (path_parent p) Hp' ltac:(lia) s Hs).
  destruct (mkdir_p_fuel w fuel (path_parent p) s) as [[u|e] s']; [|done]. by apply fresh_dir_insert.
Qed.

Lemma fresh_chmod p mode d :
  abs_path p = true -> String.length p <= String.length d -> preserves (fun s => fresh_dir (st_fs s) d) (chmod p mode).
Proof.
  intros Hp Hlen s Hs. unfold chmod. destruct (fs_lookup (st_fs s) p) as [[|m]|] eqn:E; try done.
  by apply fresh_dir_insert.
Qed.

(** [chmod] of a directory leaves a directory. *)
Lemma chmod_keeps_dir p mode :
  preserves (fun s => exists m, fs_lookup (st_fs s) p = Some (NDir m)) (chmod p mode).
Proof.
  intros s [m Hm]. unfold chmod. rewrite Hm. cbn.
  unfold fs_lookup. case_bool_decide; [by eexists|]. exists mode. apply lookup_insert_eq.
Qed.

(** A download that returns found a directory at the parent of its
    destination, and only the destination changed. *)
Lemma download_parent_dir w b key dest :
  path_parent dest <> dest ->
  hoare (fun _ => True) (s3_download_file w b key dest)
    (fun _ s => exists m, fs_lookup (st_fs s) (path_parent dest) = Some (NDir m)) (fun _ _ => True).
Proof.
  intros Hne s _. unfold s3_download_file. destruct b; try done.
  rewrite (mbind_Ret_eq _ _ _ tt _ (log_step _ s)). destruct (w_download w s0 key); [done|].
  cbn [logged st_fs]. destruct (fs_lookup (st_fs s) (path_parent dest)) as [[|m]|] eqn:E; try done.
  destruct (fs_lookup (st_fs s) dest) as [[|m']|]; try done; cbn; exists m;
    by rewrite fs_lookup_insert_ne by (intros H; by apply Hne).
Qed.

(** ** What depends only on the filesystem

    [fs_only m]: what [m] does is a function of the filesystem it starts
    from: two runs from states with the same filesystem have the same
    outcome and [same_effect]: they leave the same filesystem, set every
    object key they set to the same object, and append the same calls to
    the trace.  The object store and the trace are only ever written. *)

Definition same_effect (s s' t t' : state) : Prop :=
  st_fs t = st_fs t' /\
  (forall k, (st_s3 t !! k = st_s3 s !! k /\ st_s3 t' !! k = st_s3 s' !! k) \/ st_s3 t !! k = st_s3 t' !! k) /\
  exists e, st_trace t = st_trace s ++ e /\ st_trace t' = st_trace s' ++ e.

Lemma same_effect_refl s s' : st_fs s = st_fs s' -> same_effect s s' s s'.
Proof. intros E. split_and!; [done|by left|exists []; by rewrite !app_nil_r]. Qed.

Lemma same_effect_trans s s' t t' u u' :
  same_effect s s' t t' -> same_effect t t' u u' -> same_effect s s' u u'.
Proof.
  intros (E1 & S1 & e1 & T1 & T1') (E2 & S2 & e2 & T2 & T2'). split_and!; [done| |].
  - intros k. destruct (S2 k) as [[-> ->]|H]; [|by right]. destruct (S1 k) as [H|H]; [by left|by right].
  - exists (e1 ++ e2). rewrite T2, T2', T1, T1'. by rewrite !app_assoc.
Qed.

Definition fs_only {A} (m : PyM A) : Prop :=
  forall s s', st_fs s = st_fs s' -> (m s).1 = (m s').1 /\ same_effect s s' (m s).2 (m s').2.

Lemma fs_only_ret {A} (a : A) : fs_only (mret a).
Proof. intros s s' E. split; [done|by apply same_effect_refl]. Qed.

Lemma fs_only_raise {A} e : fs_only (@mraise state exn A e).
Proof. intros s s' E. split; [done|by apply same_effect_refl]. Qed.

Lemma fs_only_bind {A B} (m : PyM A) (k : A -> PyM B) :
  fs_only m -> (forall a, fs_only (k a)) -> fs_only (mbind m k).
Proof.
  intros Hm Hk s s' E. unfold mbind. destruct (Hm s s' E) as [H1 H2].
  destruct (m s) as [[a|e] s1], (m s') as [[a'|e'] s1']; cbn in *; try discriminate H1.
  2: { injection H1 as <-. by split. }
  injection H1 as <-. destruct (Hk a s1 s1' (proj1 H2)) as [H3 H4].
  split; [done|]. by eapply same_effect_trans.
Qed.

Lemma fs_only_try_except {A} (m : PyM A) h :
  fs_only m -> (forall e, fs_only (h e)) -> fs_only (try_except m h).
Proof.
  intros Hm Hh s s' E. unfold try_except. destruct (Hm s s' E) as [H1 H2].
  destruct (m s) as [[a|e] s1], (m s') as [[a'|e'] s1']; cbn in *; try discriminate H1; [by split|].
  injection H1 as <-. destruct (Hh e s1 s1' (proj1 H2)) as [H3 H4].
  split; [done|]. by eapply same_effect_trans.
Qed.

Lemma fs_only_try_finally {A} (m : PyM A) fin :
  fs_only m -> fs_only fin -> fs_only (try_finally m fin).
Proof.
  intros Hm Hf s s' E. unfold try_finally. destruct (Hm s s' E) as [H1 H2].
  destruct (m s) as [r s1], (m s') as [r' s1']. cbn in *. subst r'.
  destruct (Hf s1 s1' (proj1 H2)) as [H3 H4].
  destruct (fin s1) as [[u|e] s2], (fin s1') as [[u'|e'] s2']; cbn in *; try done;
    (split; [congruence|by eapply same_effect_trans]).
Qed.

Lemma fs_only_mfor {A} (xs : list A) (f : A -> PyM unit) :
  (forall x, fs_only (f x)) -> fs_only (mfor xs f).
Proof.
  intros Hf. induction xs as [|x xs IH]; cbn; [apply fs_only_ret|]. by apply fs_only_bind.
Qed.

(** Close the [same_effect] of two runs of one step that leave the
    object store alone. *)
Ltac same_effect_step E :=
  unfold same_effect; cbn; rewrite ?E; split_and!;
  [done|intros ?; by left|first [exists []; by rewrite !app_nil_r|eexists; split; reflexivity]].

(** Unfold an operation and compare its two runs case by case. *)
Ltac fs_only_op :=
  let s := fresh "s" in let s' := fresh "s'" in let E := fresh "E" in
  intros s s' E; unfold mbind, log, mmodify, mret, mraise, lift, set_fs; cbn; rewrite ?E;
  repeat (case_match; cbn; rewrite ?E); (split; [done|same_effect_step E]).

Lemma fs_only_log ev : fs_only (log ev).
Proof. fs_only_op. Qed.

Lemma fs_only_lift {A} (o : outcome exn A) : fs_only (lift o).
Proof. fs_only_op. Qed.

Lemma fs_only_path_exists p : fs_only (path_exists p).
Proof. unfold path_exists. fs_only_op. Qed.

Lemma fs_only_path_is_file p : fs_only (path_is_file p).
Proof. unfold path_is_file. fs_only_op. Qed.

Lemma fs_only_os_remove w p : fs_only (os_remove w p).
Proof. unfold os_remove. fs_only_op. Qed.

Lemma fs_only_rmtree w d : fs_only (rmtree w d).
Proof. unfold rmtree. fs_only_op. Qed.

Lemma fs_only_chmod p mode : fs_only (chmod p mode).
Proof. unfold chmod. fs_only_op. Qed.

Lemma fs_only_iterdir d : fs_only (iterdir d).
Proof. unfold iterdir. fs_only_op. Qed.

Lemma fs_only_list_files d : fs_only (list_files d).
Proof. unfold list_files. apply fs_only_bind; [apply fs_only_iterdir|]. intros names. fs_only_op. Qed.

Lemma fs_only_mkdir_p_fuel w fuel p : fs_only (mkdir_p_fuel w fuel p).
Proof.
  revert p. induction fuel as [|fuel IH]; intros p s s' E; cbn [mkdir_p_fuel]; rewrite E.
  all: destruct (fs_lookup (st_fs s') p) as [[|m]|]; cbn; try (split; [done|same_effect_step E]).
  all: destruct (fs_lookup (st_fs s') (path_parent p)) as [[|m]|]; cbn; try (split; [done|same_effect_step E]).
  destruct (IH (path_parent p) s s' E) as [Hr He].
  destruct (mkdir_p_fuel w fuel (path_parent p) s) as [[u|e] t1], (mkdir_p_fuel w fuel (path_parent p) s') as [[u'|e'] t1'];
    cbn in *; simplify_eq; try done; split; [done|]; (eapply same_effect_trans; [exact He|]).
  same_effect_step (proj1 He).
Qed.

Lemma fs_only_download w b key dest : fs_only (s3_download_file w b key dest).
Proof.
  unfold s3_download_file. destruct b; try apply fs_only_raise.
  apply fs_only_bind; [apply fs_only_log|]. intros _. case_match; [apply fs_only_raise|]. fs_only_op.
Qed.

Lemma fs_only_upload w src b key ct : fs_only (s3_upload_file w src b key ct).
Proof.
  unfold s3_upload_file. apply fs_only_bind; [apply fs_only_log|]. intros _.
  apply fs_only_bind; [unfold read_file; fs_only_op|]. intros data. case_match; [apply fs_only_raise|].
  intros s s' E. split; [done|]. unfold same_effect; cbn. split_and!; [done| |exists []; by rewrite !app_nil_r].
  intros k. destruct (decide (k = (b, key))) as [->|Hk]; [right; by rewrite !lookup_insert_eq|].
  left. by rewrite !lookup_insert_ne by congruence.
Qed.

Lemma fs_only_subprocess w cmd d : fs_only (subprocess_run w cmd d).
Proof.
  unfold subprocess_run. apply fs_only_bind; [apply fs_only_log|]. intros _. fs_only_op.
Qed.

#[export] Hint Resolve fs_only_ret fs_only_raise fs_only_bind fs_only_try_except fs_only_try_finally
  fs_only_mfor fs_only_log fs_only_lift fs_only_path_exists fs_only_path_is_file fs_only_os_remove
  fs_only_rmtree fs_only_chmod fs_only_iterdir fs_only_list_files fs_only_mkdir_p_fuel fs_only_download
  fs_only_upload fs_only_subprocess : pyfs.

Lemma writes_hoare {A} X (m : PyM A) q v :
  writes X m -> ~ X q ->
  hoare (fun s => st_fs s !! q = v) m (fun _ s => st_fs s !! q = v) (fun _ s => st_fs s !! q = v).
Proof. intros Hm Hq. apply hoare_of_preserves; [by apply Hm|done]. Qed.

(** Split a [writes] goal along the program and close the calls that
    leave the filesystem as it is. *)
Ltac writes_split :=
  repeat match goal with
  | |- writes _ (mbind _ _) => apply writes_bind; [|intros ?]
  | |- writes _ (try_except _ _) => apply writes_try_except; [|intros ?]
  | |- writes _ (try_finally _ _) => apply writes_try_finally
  | |- writes _ (if bool_decide _ then _ else _) => case_bool_decide
  | |- writes _ _ => apply writes_frame; solve [eauto with pyfs]
  end.

Ltac fs_only_split :=
  repeat match goal with
  | |- fs_only (mbind _ _) => apply fs_only_bind; [|intros ?]
  | |- fs_only (try_except _ _) => apply fs_only_try_except; [|intros ?]
  | |- fs_only (try_finally _ _) => apply fs_only_try_finally
  | |- fs_only (mfor _ _) => apply fs_only_mfor; intros ?
  | |- fs_only (if ?b then _ else _) => destruct b
  | |- fs_only _ => solve [eauto with pyfs]
  end.
