(* ===== verification/RunFfmpeg.v ===== *)
(** * RunFfmpeg: run_ffmpeg_dash with its effects

    Lines 30-104 of src/lambda_function.py: create the output directory
    with its parents and make it world-writable, build the command
    (FfmpegCmd.v), run the subprocess, turn a non-zero exit status into
    [RuntimeError("FFmpeg failed with error: " + stderr)], and list the
    regular files of the output directory. *)

From S2P Require Import Prelude PyStr PyObj Config FfmpegCmd Fs.
Open Scope stdpp_scope.
Open Scope py_scope.

Definition ffmpeg_failed_msg (stderr : string) : string :=
  "FFmpeg failed with error: " +:+ stderr.

Section Run.
Context (w : world).

Definition run_ffmpeg_dash (input_path output_dir : string) (resolutions : list (Z * Z))
    : PyM (list string) :=
  mkdir_p w output_dir ;;;
  chmod output_dir 511 ;;;
  cmd <- lift (build_command input_path output_dir resolutions) ;;
  res <- subprocess_run w cmd output_dir ;;
  if bool_decide (res.1 <> 0)%Z then mraise (RuntimeError (ffmpeg_failed_msg res.2))
  else list_files output_dir.
End Run.

(** ** Every branch of run_ffmpeg_dash

    From a state where the output directory does not exist and its
    parent is a directory: the directory is created and made mode 0o777
    before anything else; an empty resolution list raises [ValueError]
    without starting a process; otherwise the command of FfmpegCmd.v is
    run, and its exit status decides between [RuntimeError] with the
    standard error and the list of regular files in the directory. *)

Section RunSteps.
Context (w : world) (input_path output_dir : string) (s : state) (m : Z).
Context (Hod : fs_lookup (st_fs s) output_dir = None)
        (Hpar : fs_lookup (st_fs s) (path_parent output_dir) = Some (NDir m)).

(** The state after [mkdir] and [chmod]. *)
Definition prepared : state :=
  set_fs (insert output_dir (NDir 511)) (set_fs (insert output_dir (NDir (mkdir_mode w))) s).

Lemma prepared_output_dir : fs_lookup (st_fs prepared) output_dir = Some (NDir 511).
Proof.
  unfold prepared. cbn. apply fs_lookup_insert_eq. by eapply fs_lookup_None_not_root.
Qed.

Lemma ffmpeg_cmd_input ip od acc : arg_after "-i" (ffmpeg_cmd ip od acc) = Some ip.
Proof. done. Qed.

(** ffmpeg reads the input file as it was before the output directory
    was made. *)
Lemma prepared_input acc :
  input_data (ffmpeg_cmd input_path output_dir acc) (st_fs prepared)
  = input_data (ffmpeg_cmd input_path output_dir acc) (st_fs s).
Proof.
  unfold input_data. rewrite ffmpeg_cmd_input. unfold prepared. cbn.
  destruct (decide (input_path = output_dir)) as [->|Hne].
  - rewrite Hod, fs_lookup_insert_eq; [done|]. by eapply fs_lookup_None_not_root.
  - by rewrite !fs_lookup_insert_ne by done.
Qed.

Lemma prepare_step {A} (k : PyM A) :
  (mkdir_p w output_dir ;;; chmod output_dir 511 ;;; k) s = k prepared.
Proof.
  rewrite (mbind_Ret_eq _ _ _ tt _ (mkdir_p_new w output_dir s m Hod Hpar)).
  erewrite (mbind_Ret_eq _ _ _ tt); [reflexivity|]. apply (chmod_dir _ _ _ (mkdir_mode w)).
  cbn. apply fs_lookup_insert_eq. by eapply fs_lookup_None_not_root.
Qed.

(** C29: [ValueError] comes after the directory is created and before any
    process is started. *)
Theorem run_ffmpeg_dash_empty :
  run_ffmpeg_dash w input_path output_dir [] s = (Raise (ValueError no_chains_msg), prepared).
Proof. unfold run_ffmpeg_dash. by rewrite prepare_step. Qed.

Definition after_exit (rs : list (Z * Z)) (created : list (string * node)) : state :=
  set_fs (add_created output_dir created)
    (logged (EvRun (ffmpeg_cmd input_path output_dir (ffmpeg_loop rs))) prepared).

Lemma run_ffmpeg_dash_exit rs rc err created :
  rs <> [] ->
  w_ffmpeg w (ffmpeg_cmd input_path output_dir (ffmpeg_loop rs))
    (input_data (ffmpeg_cmd input_path output_dir (ffmpeg_loop rs)) (st_fs s)) = RunExit rc err created ->
  run_ffmpeg_dash w input_path output_dir rs s =
  if bool_decide (rc <> 0)%Z then (Raise (RuntimeError (ffmpeg_failed_msg err)), after_exit rs created)
  else (Ret (regular_files output_dir (st_fs (after_exit rs created))), after_exit rs created).
Proof.
  intros Hrs Hw. unfold run_ffmpeg_dash. rewrite prepare_step.
  rewrite (mbind_Ret_eq _ _ _ (ffmpeg_cmd input_path output_dir (ffmpeg_loop rs)) prepared)
    by (unfold lift; by rewrite build_command_cases, bool_decide_eq_false_2).
  rewrite <-prepared_input in Hw.
  rewrite (mbind_Ret_eq _ _ _ (rc, err) _ (subprocess_run_exit _ _ _ _ _ _ _ Hw)). cbn [fst snd].
  case_bool_decide; [done|]. eapply list_files_dir. cbn. rewrite add_created_output.
  apply prepared_output_dir.
Qed.
(** [subprocess.run] itself raises (the binary cannot be started): the
    exception propagates after the run was attempted, with the output
    directory created and nothing written into it. *)
Lemma run_ffmpeg_dash_spawn rs e :
  rs <> [] ->
  w_ffmpeg w (ffmpeg_cmd input_path output_dir (ffmpeg_loop rs))
    (input_data (ffmpeg_cmd input_path output_dir (ffmpeg_loop rs)) (st_fs s)) = RunSpawnError e ->
  run_ffmpeg_dash w input_path output_dir rs s =
  (Raise e, logged (EvRun (ffmpeg_cmd input_path output_dir (ffmpeg_loop rs))) prepared).
Proof.
  intros Hrs Hw. unfold run_ffmpeg_dash. rewrite prepare_step.
  rewrite (mbind_Ret_eq _ _ _ (ffmpeg_cmd input_path output_dir (ffmpeg_loop rs)) prepared)
    by (unfold lift; by rewrite build_command_cases, bool_decide_eq_false_2).
  apply mbind_Raise_eq. unfold subprocess_run. rewrite (mbind_Ret_eq _ _ _ tt _ (log_step _ _)).
  rewrite <-prepared_input in Hw. cbv beta. cbn [logged st_fs]. by rewrite Hw.
Qed.
End RunSteps.
