(* ===== verification/Handler.v ===== *)
(** * Handler: lambda_handler

    Lines 107-194 of src/lambda_function.py.  The outer [try] turns every
    exception into a 500 response; inside it the handler reads the first
    record of the event, decodes the key, rejects an unsupported
    extension with 400, removes stale staging paths, and then, inside a
    [try/finally] whose [finally] always removes the staging paths,
    downloads the object, runs [run_ffmpeg_dash], uploads every regular
    file of the output directory and builds the 200 response. *)

From S2P Require Import Prelude Unicode PyStr PyObj Config FfmpegCmd Fs RunFfmpeg.
Open Scope stdpp_scope.
Open Scope py_scope.

Inductive body : Type :=
| BStr (s : string)
| BOk (message manifest_url : string) (files : list string) (output_prefix : string).

Record response := mk_response { statusCode : Z; resp_body : body }.

Definition output_bucket : string := "manifestdatabucket".
Definition temp_dir : string := "/tmp".

(** The values the handler derives from the key. *)
Definition key_ext (key : string) : string := py_lower (path_suffix key).
Definition key_file_id (key : string) : string := path_stem key.
Definition dash_prefix (file_id : string) : string := "dash/" +:+ file_id.
Definition input_path_of (file_id ext : string) : string := path_join temp_dir (file_id +:+ ext).
Definition output_dir_of (file_id : string) : string := path_join temp_dir (file_id +:+ "_dash_output").

Definition unsupported_body (ext : string) (order : list string) : string :=
  "Unsupported format: " +:+ ext +:+ ". Allowed: " +:+ set_repr order.

Definition content_type (file_path : string) : string :=
  if bool_decide (path_suffix file_path = ".mpd") then "application/dash+xml" else "video/mp4".

Definition manifest_url (bucket : json) (prefix : string) : string :=
  "https://" +:+ py_str_json bucket +:+ ".s3.amazonaws.com/" +:+ prefix +:+ "/manifest.mpd".

Definition warn_delete (p : string) (e : exn) : string :=
  "Warning: Failed to delete " +:+ p +:+ ": " +:+ exn_str e.

Section Handler.
Context (w : world).

(** [if p.exists(): remove(p)] *)
Definition remove_if_exists (remove : string -> PyM unit) (p : string) : PyM unit :=
  b <- path_exists p ;;
  if b then remove p else mret tt.

(** The [finally] clause: best-effort removal of both staging paths. *)
Definition cleanup (input_path output_dir : string) : PyM unit :=
  remove_if_exists (fun p => try_except (os_remove w p) (fun e => print (warn_delete p e))) input_path ;;;
  remove_if_exists (fun p => try_except (rmtree w p) (fun e => print (warn_delete p e))) output_dir.

(** The loop [for file in output_dir.iterdir(): if file.is_file(): upload]. *)
Definition upload_outputs (output_dir prefix : string) : PyM unit :=
  entries <- iterdir output_dir ;;
  mfor entries (fun name =>
    let file := output_dir +:+ "/" +:+ name in
    isf <- path_is_file file ;;
    if isf then s3_upload_file w file output_bucket (prefix +:+ "/" +:+ name) (content_type file)
    else mret tt).

(** The body of the inner [try]. *)
Definition process (bucket : json) (key file_id input_path output_dir : string) : PyM response :=
  s3_download_file w bucket key input_path ;;;
  output_files <- run_ffmpeg_dash w input_path output_dir RESOLUTIONS ;;
  upload_outputs output_dir (dash_prefix file_id) ;;;
  mret (mk_response 200
    (BOk "DASH conversion successful" (manifest_url bucket (dash_prefix file_id)) output_files
         ("s3://" +:+ py_str_json bucket +:+ "/" +:+ dash_prefix file_id +:+ "/"))).

(** [record = event["Records"][0]], [bucket = record["s3"]["bucket"]["name"]],
    [key = unquote_plus(record["s3"]["object"]["key"])], in this order. *)
Definition parse_event (event : json) : outcome exn (json * string) :=
  match py_getpath event [KStr "Records"; KInt 0] with
  | Raise e => Raise e
  | Ret record =>
      match py_getpath record [KStr "s3"; KStr "bucket"; KStr "name"] with
      | Raise e => Raise e
      | Ret bucket =>
          match py_getpath record [KStr "s3"; KStr "object"; KStr "key"] with
          | Raise e => Raise e
          | Ret v => match py_unquote_plus v with
                     | Ret key => Ret (bucket, key)
                     | Raise e => Raise e
                     end
          end
      end
  end.

(** The body of the outer [try], once the event is read. *)
Definition handle_key (bucket : json) (key : string) : PyM response :=
  let ext := key_ext key in
  if negb (ext_allowed ext) then mret (mk_response 400 (BStr (unsupported_body ext (set_order (w_hash_seed w)))))
  else
    let file_id := key_file_id key in
    let input_path := input_path_of file_id ext in
    let output_dir := output_dir_of file_id in
    remove_if_exists (os_remove w) input_path ;;;
    remove_if_exists (rmtree w) output_dir ;;;
    try_finally (try_except (process bucket key file_id input_path output_dir) mraise)
                (cleanup input_path output_dir).

Definition handle (event : json) : PyM response :=
  bk <- lift (parse_event event) ;;
  handle_key bk.1 bk.2.

Definition error_response (e : exn) : response := mk_response 500 (BStr ("Error: " +:+ exn_str e)).

Definition lambda_handler (event : json) : PyM response :=
  try_except (handle event) (fun e =>
    print ("Error processing video: " +:+ exn_str e) ;;;
    mret (error_response e)).
End Handler.

(** ** The handler always answers *)

(** Decompose a [returns] goal along the structure of the program. *)
Ltac returns_tac :=
  repeat match goal with
  | |- returns _ (mbind _ _) => apply returns_bind; intros ?
  | |- returns _ (try_finally _ _) => apply returns_try_finally
  | |- returns _ (try_except _ mraise) => apply returns_try_except; [|intros ?; apply returns_raise]
  | |- returns _ (mret _) => apply returns_ret
  | |- returns _ (mraise _) => apply returns_raise
  | |- returns _ (if ?b then _ else _) => destruct b
  | |- returns _ (let '(_, _) := ?p in _) => destruct p
  end.

Lemma handle_returns w event :
  returns (fun r => statusCode r = 200 \/ statusCode r = 400)%Z (handle w event).
Proof.
  unfold handle, handle_key, process. returns_tac; cbn; auto.
Qed.

(** C1: [lambda_handler] never lets an exception escape: on every event
    and in every world it returns a response, whose status is 200, 400
    or 500. *)
Theorem lambda_handler_total (w : world) (event : json) (s : state) :
  exists r s', lambda_handler w event s = (Ret r, s') /\
    (statusCode r = 200 \/ statusCode r = 400 \/ statusCode r = 500)%Z.
Proof.
  unfold lambda_handler, try_except. destruct (handle w event s) as [[r|e] s'] eqn:H.
  - exists r, s'. split; [done|]. apply handle_returns in H. tauto.
  - eexists _, _. split; [reflexivity|]. cbn. auto.
Qed.

(** ** Reading the event *)

(** C4: an event whose key has an extension outside
    [ALLOWED_EXTENSIONS] (after lower-casing) gets the 400 response that
    names the extension and the allowed set, and the handler touches
    nothing: no download, no filesystem change, no output. *)
Theorem lambda_handler_unsupported (w : world) (event : json) (s : state) bucket key :
  parse_event event = Ret (bucket, key) -> ext_allowed (key_ext key) = false ->
  lambda_handler w event s =
  (Ret (mk_response 400 (BStr (unsupported_body (key_ext key) (set_order (w_hash_seed w))))), s).
Proof.
  intros Hp Hx. unfold lambda_handler, try_except, handle, mbind, lift.
  rewrite Hp. cbn. unfold handle_key. by rewrite Hx.
Qed.

(** C21: an event that cannot be read (a missing field, a wrong type, a
    key that is not a string) gets the 500 response carrying [str(e)] of
    the exception, after one line on standard output and nothing else. *)
Theorem lambda_handler_bad_event (w : world) (event : json) (s : state) (e : exn) :
  parse_event event = Raise e ->
  lambda_handler w event s =
  (Ret (error_response e),
   mk_state (st_fs s) (st_s3 s) (st_trace s ++ [EvPrint ("Error processing video: " +:+ exn_str e)])).
Proof.
  intros Hp. unfold lambda_handler, try_except, handle, mbind, lift. by rewrite Hp.
Qed.

(** C31: lines 113-115 read the notification: when [Records[0]] of the
    event carries the bucket name [b] and, as the object key, the form
    encoding [quote_plus k] of a key [k] (any [str]: spaces, [+], [%] and
    non-ASCII letters included), [parse_event] yields exactly the bucket
    [b] and the key [k] the object was stored under. *)
Theorem parse_event_quoted event record (b : json) (k : string) :
  py_getpath event [KStr "Records"; KInt 0] = Ret record ->
  py_getpath record [KStr "s3"; KStr "bucket"; KStr "name"] = Ret b ->
  py_getpath record [KStr "s3"; KStr "object"; KStr "key"] = Ret (JStr (quote_plus k)) ->
  utf8_valid k = true ->
  parse_event event = Ret (b, k).
Proof.
  intros Hr Hb Hk Hv. unfold parse_event. rewrite Hr, Hb, Hk. cbn.
  by rewrite unquote_plus_quote_plus.
Qed.

(** A storage notification for one object: the key is sent form-encoded. *)
Definition s3_notification (bucket key : string) : json :=
  let s3 := JObj [("bucket", JObj [("name", JStr bucket)]); ("object", JObj [("key", JStr key)])] in
  JObj [("Records", JList [JObj [("s3", s3)]])].

Definition sample_event (key : string) : json := s3_notification "srcbucket" key.

(** ffmpeg writes a manifest, an initialization segment and one media
    segment carrying the input's bytes; it fails on an unreadable input.
    The source object [k] holds ["bytes of k"]. *)
Definition sample_ffmpeg (cmd : list string) (input : option string) : run_result :=
  match input with
  | Some d => RunExit 0 "" [("manifest.mpd", NFile "<MPD/>"); ("init_0.m4s", NFile "ftyp");
                            ("segment_0_1.m4s", NFile ("moof" +:+ d))]
  | None => RunExit 1 "No such file or directory" []
  end.

Definition sample_world : world :=
  mk_world (fun _ _ => None) sample_ffmpeg
    (fun _ _ _ _ => None) (fun _ => None) 18 0
    (fun _ k => "bytes of " +:+ k).

Definition sample_state : state := mk_state {[ "/tmp" := NDir 511 ]} ∅ [].

Lemma lambda_handler_unsupported_witness :
  parse_event (sample_event "videos/clip.txt") = Ret (JStr "srcbucket", "videos/clip.txt") /\
  ext_allowed (key_ext "videos/clip.txt") = false /\
  lambda_handler sample_world (sample_event "videos/clip.txt") sample_state =
  (Ret (mk_response 400 (BStr (unsupported_body (key_ext "videos/clip.txt") (set_order (w_hash_seed sample_world))))),
   sample_state).
Proof.
  split; [reflexivity|]. split; [reflexivity|].
  apply (lambda_handler_unsupported sample_world _ sample_state (JStr "srcbucket")); reflexivity.
Defined.

Lemma lambda_handler_bad_event_witness :
  parse_event (JObj []) = Raise (KeyError (KStr "Records")) /\
  lambda_handler sample_world (JObj []) sample_state =
  (Ret (error_response (KeyError (KStr "Records"))),
   mk_state (st_fs sample_state) (st_s3 sample_state)
     [EvPrint ("Error processing video: " +:+ exn_str (KeyError (KStr "Records")))]).
Proof.
  split; [reflexivity|]. apply (lambda_handler_bad_event sample_world _ sample_state). reflexivity.
Defined.

Lemma parse_event_quoted_witness :
  let ev := s3_notification "srcbucket" (quote_plus cafe_key) in
  let rec := JObj [("s3", JObj [("bucket", JObj [("name", JStr "srcbucket")]);
                                ("object", JObj [("key", JStr (quote_plus cafe_key))])])] in
  py_getpath ev [KStr "Records"; KInt 0] = Ret rec /\
  py_getpath rec [KStr "s3"; KStr "bucket"; KStr "name"] = Ret (JStr "srcbucket") /\
  py_getpath rec [KStr "s3"; KStr "object"; KStr "key"] = Ret (JStr (quote_plus cafe_key)) /\
  utf8_valid cafe_key = true /\
  parse_event ev = Ret (JStr "srcbucket", cafe_key).
Proof.
  cbv zeta. split_and!; [reflexivity|reflexivity|reflexivity|vm_compute; reflexivity|].
  apply (parse_event_quoted _ (JObj [("s3", JObj [("bucket", JObj [("name", JStr "srcbucket")]);
                                ("object", JObj [("key", JStr (quote_plus cafe_key))])])]));
    [reflexivity|reflexivity|reflexivity|vm_compute; reflexivity].
Defined.

Lemma handle_eq w event s bucket key :
  parse_event event = Ret (bucket, key) -> handle w event s = handle_key w bucket key s.
Proof.
  intros Hp. unfold handle. erewrite (mbind_Ret_eq _ _ _ (bucket, key) s); [reflexivity|].
  unfold lift. by rewrite Hp.
Qed.

(** The outer [except]: an exception of the body becomes a printed line
    and the 500 response. *)
Lemma lambda_handler_eq w event s bucket key r s' :
  parse_event event = Ret (bucket, key) -> handle_key w bucket key s = (r, s') ->
  lambda_handler w event s =
  match r with
  | Ret v => (Ret v, s')
  | Raise e => (Ret (error_response e), logged (EvPrint ("Error processing video: " +:+ exn_str e)) s')
  end.
Proof.
  intros Hp Hh. unfold lambda_handler, try_except. rewrite (handle_eq w event s bucket key Hp), Hh.
  by destruct r.
Qed.

(** The allowed extensions are ASCII and lowercase. *)
Lemma allowed_ext_chars e :
  e ∈ ALLOWED_EXTENSIONS -> utf8_valid e = true /\ Forall (fun a => 0 <= a < 128)%Z (utf8_decode e).
Proof.
  unfold ALLOWED_EXTENSIONS. set_unfold. intros He.
  destruct_or! He; subst; (split; [reflexivity|refine (bool_decide_unpack _ _); vm_compute; exact I]).
Qed.

(** C20: an object key passes the extension check (lines 117-118)
    exactly when the suffix of its name lowers, character by character,
    to one of [ALLOWED_EXTENSIONS]: each character is the allowed one,
    its ASCII capital, or, for ["k"], U+212A KELVIN SIGN, which
    [str.lower()] maps to ["k"]. No other character of Unicode lowers to
    an ASCII one. *)
Theorem key_ext_allowed_iff key :
  ext_allowed (key_ext key) = true <->
  exists e, e ∈ ALLOWED_EXTENSIONS /\ Forall2 lowers_to (utf8_decode (path_suffix key)) (utf8_decode e).
Proof.
  unfold ext_allowed, key_ext, py_lower. rewrite bool_decide_eq_true.
  pose proof (lower_go_scalar [] _ (proj1 (utf8_decode_scalar_len (path_suffix key)))) as Hsc.
  split.
  - intros He. eexists; split; [exact He|]. destruct (allowed_ext_chars _ He) as [_ Ha].
    rewrite utf8_decode_encode in Ha |- * by done. by apply lower_str_ascii.
  - intros (e & He & Hf). destruct (allowed_ext_chars _ He) as [Hv Ha].
    apply lower_str_ascii in Hf; [|done]. by rewrite Hf, utf8_encode_decode_valid.
Qed.

(** A key whose suffix is [".M"], U+212A, ["V"] (bytes E2 84 AA) is
    staged and converted as a [.mkv] file. *)
Definition kelvin_key : string :=
  "videos/clip.M" +:+ String "226"%char (String "132"%char (String "170"%char "V")).

Example kelvin_key_ext : key_ext kelvin_key = ".mkv" /\ ext_allowed (key_ext kelvin_key) = true.
Proof. split; vm_compute; reflexivity. Qed.

(** C30: the ContentType of the file [name] of the output directory is
    [application/dash+xml] exactly when the suffix of [name] itself
    ([Path(name).suffix]) is [.mpd], and [video/mp4] otherwise: a dot in
    the directory (a stem such as [my.mpd]) never changes it, so
    [manifest.mpd] is sent as [application/dash+xml] and the [.m4s]
    segments as [video/mp4]. *)
Theorem content_type_by_name d n :
  string_has "/"%char n = false -> n <> "" -> n <> "." ->
  content_type (d +:+ "/" +:+ n) =
    if bool_decide (path_suffix n = ".mpd") then "application/dash+xml" else "video/mp4".
Proof. intros Hn H1 H2. unfold content_type. by rewrite path_suffix_child. Qed.

(** ** The upload loop *)

Definition upload_event (output_dir prefix name : string) : event :=
  EvUpload (output_dir +:+ "/" +:+ name) output_bucket (prefix +:+ "/" +:+ name)
           (content_type (output_dir +:+ "/" +:+ name)).

Definition store_upload (fs : gmap string node) (output_dir prefix : string)
    (s3 : gmap (string * string) s3_object) (name : string) :=
  <[(output_bucket, prefix +:+ "/" +:+ name) :=
     mk_object (output_dir +:+ "/" +:+ name) (content_type (output_dir +:+ "/" +:+ name))
               (file_data fs (output_dir +:+ "/" +:+ name))]> s3.

(** The first upload of [files] that fails, with its position. *)
Fixpoint first_upload_fault (w : world) (output_dir prefix : string) (files : list string) : option (nat * exn) :=
  match files with
  | [] => None
  | n :: ns =>
      match w_upload w (output_dir +:+ "/" +:+ n) output_bucket (prefix +:+ "/" +:+ n)
              (content_type (output_dir +:+ "/" +:+ n)) with
      | Some e => Some (0, e)
      | None => option_map (fun ie => (S ie.1, ie.2)) (first_upload_fault w output_dir prefix ns)
      end
  end.

Lemma first_upload_fault_None w output_dir prefix files :
  (forall src k ct, w_upload w src output_bucket k ct = None) ->
  first_upload_fault w output_dir prefix files = None.
Proof. intros Hup. induction files as [|n ns IH]; cbn; [done|]. by rewrite Hup, IH. Qed.

(** The loop uploads the regular files in the order [iterdir] gives
    them and stops at the first upload that raises; the objects stored
    are those of the uploads before it. *)
Lemma upload_loop w output_dir prefix names s :
  let files := filter (fun n => is_file (fs_lookup (st_fs s) (output_dir +:+ "/" +:+ n)) = true) names in
  mfor names (fun name =>
    let file := output_dir +:+ "/" +:+ name in
    isf <- path_is_file file ;;
    if isf then s3_upload_file w file output_bucket (prefix +:+ "/" +:+ name) (content_type file)
    else mret tt) s =
  match first_upload_fault w output_dir prefix files with
  | None => (Ret tt, mk_state (st_fs s) (foldl (store_upload (st_fs s) output_dir prefix) (st_s3 s) files)
                              (st_trace s ++ map (upload_event output_dir prefix) files))
  | Some (i, e) => (Raise e, mk_state (st_fs s) (foldl (store_upload (st_fs s) output_dir prefix) (st_s3 s) (take i files))
                              (st_trace s ++ map (upload_event output_dir prefix) (take (S i) files)))
  end.
Proof.
  intros files. subst files. revert s. induction names as [|n names IH]; intros s.
  - cbn. rewrite app_nil_r. by destruct s.
  - rewrite filter_cons. cbn [mfor].
    destruct (decide (is_file (fs_lookup (st_fs s) (output_dir +:+ "/" +:+ n)) = true)) as [Hf|Hf].
    + cbn [first_upload_fault].
      assert (Hstep : forall r s', s3_upload_file w (output_dir +:+ "/" +:+ n) output_bucket (prefix +:+ "/" +:+ n)
                (content_type (output_dir +:+ "/" +:+ n)) s = (r, s') ->
                (let file := output_dir +:+ "/" +:+ n in
                 isf <- path_is_file file ;;
                 if isf then s3_upload_file w file output_bucket (prefix +:+ "/" +:+ n) (content_type file)
                 else mret tt) s = (r, s')).
      { intros r s' H. cbv zeta. unfold mbind at 1, path_is_file. by rewrite Hf. }
      destruct (proj1 (is_file_Some _) Hf) as [d Hd].
      destruct (w_upload w (output_dir +:+ "/" +:+ n) output_bucket (prefix +:+ "/" +:+ n)
                  (content_type (output_dir +:+ "/" +:+ n))) as [e|] eqn:Hw.
      * erewrite mbind_Raise_eq; [done|]. apply Hstep. unfold s3_upload_file.
        rewrite (mbind_Ret_eq _ _ _ tt _ (log_step _ s)). unfold mbind at 1, read_file.
        cbn [logged st_fs]. by rewrite Hd, Hw.
      * erewrite mbind_Ret_eq; [|apply Hstep, (s3_upload_file_ok _ _ _ _ _ _ _ Hd Hw)].
        rewrite IH. cbn [st_fs st_s3 st_trace].
        replace (<[_ := mk_object _ _ d]> (st_s3 s)) with (store_upload (st_fs s) output_dir prefix (st_s3 s) n)
          by (unfold store_upload, file_data; by rewrite Hd).
        destruct (first_upload_fault _ _ _ _) as [[i e]|]; cbn; by rewrite <-app_assoc.
    + erewrite mbind_Ret_eq; [apply IH|].
      cbv zeta. unfold mbind at 1, path_is_file. by apply not_true_is_false in Hf as ->.
Qed.

Lemma foldl_store_upload fs od prefix files s3 n :
  n ∈ files \/ s3 !! (output_bucket, prefix +:+ "/" +:+ n) =
    Some (mk_object (od +:+ "/" +:+ n) (content_type (od +:+ "/" +:+ n)) (file_data fs (od +:+ "/" +:+ n))) ->
  foldl (store_upload fs od prefix) s3 files !! (output_bucket, prefix +:+ "/" +:+ n) =
    Some (mk_object (od +:+ "/" +:+ n) (content_type (od +:+ "/" +:+ n)) (file_data fs (od +:+ "/" +:+ n))).
Proof.
  revert s3. induction files as [|x files IH]; intros s3 H; cbn.
  - destruct H as [H|H]; [by apply not_elem_of_nil in H|done].
  - apply IH. rewrite elem_of_cons in H. unfold store_upload.
    destruct (decide (x = n)) as [->|Hne]; [right; apply lookup_insert_eq|].
    destruct H as [[->|H]|H]; [done|by left|right].
    rewrite lookup_insert_ne; [done|]. intros [= Hk]. apply Hne. by do 2 apply string_app_inj_l in Hk.
Qed.

Lemma upload_outputs_run w output_dir prefix s m :
  fs_lookup (st_fs s) output_dir = Some (NDir m) ->
  upload_outputs w output_dir prefix s =
  let files := regular_files output_dir (st_fs s) in
  match first_upload_fault w output_dir prefix files with
  | None => (Ret tt, mk_state (st_fs s) (foldl (store_upload (st_fs s) output_dir prefix) (st_s3 s) files)
                              (st_trace s ++ map (upload_event output_dir prefix) files))
  | Some (i, e) => (Raise e, mk_state (st_fs s) (foldl (store_upload (st_fs s) output_dir prefix) (st_s3 s) (take i files))
                              (st_trace s ++ map (upload_event output_dir prefix) (take (S i) files)))
  end.
Proof. intros Hd. unfold upload_outputs, iterdir, mbind at 1. rewrite Hd. apply upload_loop. Qed.

Lemma upload_outputs_ok w output_dir prefix s m :
  fs_lookup (st_fs s) output_dir = Some (NDir m) ->
  (forall src k ct, w_upload w src output_bucket k ct = None) ->
  upload_outputs w output_dir prefix s =
  (Ret tt, mk_state (st_fs s) (foldl (store_upload (st_fs s) output_dir prefix) (st_s3 s) (regular_files output_dir (st_fs s)))
                    (st_trace s ++ map (upload_event output_dir prefix) (regular_files output_dir (st_fs s)))).
Proof. intros Hd Hup. rewrite (upload_outputs_run _ _ _ _ _ Hd). cbv zeta. by rewrite first_upload_fault_None. Qed.
