(* ===== verification/Protocol.v ===== *)
(** * Protocol: the order of the handler's external calls

    The specification describes an invocation as a state machine
    [Received -> Validated -> Downloaded -> Transcoded -> Uploaded ->
    Responded] with a cleanup phase.  Its observable part is the order
    of the calls to the outside that the trace of Fs.v records: the
    download, the ffmpeg run, the uploads and the printed lines.  This
    file states that order as a step relation [step] on the phases
    [PStart], [PDownloaded], [PTranscoded] and [PClosing], with its
    reflexive-transitive closure [steps] and an executable form
    [run_phases], and proves, for every event, world and state, that the
    calls [lambda_handler] makes are a path of the machine.

    The proof is a small Hoare logic on the trace: [htr P m Q E] says
    that from a phase in [P], the calls [m] makes lead the machine to a
    phase in [Q a] when [m] returns [a], and to a phase in [E] when it
    raises.  Its rules follow the monad's combinators, and each library
    operation of Fs.v gets its triple. *)

From S2P Require Import Prelude PyStr PyObj Config FfmpegCmd Fs RunFfmpeg Handler.
Open Scope stdpp_scope.
Open Scope py_scope.

Inductive phase : Type := PStart | PDownloaded | PTranscoded | PClosing.

#[global] Instance phase_eq_dec : EqDecision phase.
Proof. solve_decision. Defined.

(** One call moves the machine: the download comes first, ffmpeg runs
    once after it, uploads to the output bucket follow the run, and once
    a line is printed only printed lines follow. *)
Inductive step : phase -> event -> phase -> Prop :=
| step_download b k d : step PStart (EvDownload b k d) PDownloaded
| step_run cmd : step PDownloaded (EvRun cmd) PTranscoded
| step_upload src k ct : step PTranscoded (EvUpload src output_bucket k ct) PTranscoded
| step_print p msg : step p (EvPrint msg) PClosing.

Inductive steps : phase -> list event -> phase -> Prop :=
| steps_nil p : steps p [] p
| steps_cons p ev q t r : step p ev q -> steps q t r -> steps p (ev :: t) r.

Definition advance (p : phase) (ev : event) : option phase :=
  match p, ev with
  | PStart, EvDownload _ _ _ => Some PDownloaded
  | PDownloaded, EvRun _ => Some PTranscoded
  | PTranscoded, EvUpload _ b _ _ => if bool_decide (b = output_bucket) then Some PTranscoded else None
  | _, EvPrint _ => Some PClosing
  | _, _ => None
  end.

Fixpoint run_phases (p : phase) (t : list event) : option phase :=
  match t with
  | [] => Some p
  | ev :: t' => advance p ev ≫= fun q => run_phases q t'
  end.

(** ** The machine *)

Lemma advance_step p ev q : advance p ev = Some q <-> step p ev q.
Proof.
  split.
  - destruct p, ev; cbn; try case_bool_decide; intros; simplify_eq; constructor.
  - intros []; cbn; try done. match goal with p : phase |- _ => by destruct p end.
Qed.

Lemma run_phases_steps p t q : run_phases p t = Some q <-> steps p t q.
Proof.
  revert p. induction t as [|ev t IH]; intros p; cbn.
  - split; [intros [= <-]; constructor|by inversion 1].
  - split.
    + destruct (advance p ev) as [p'|] eqn:E; [|done]. cbn. intros H.
      apply advance_step in E. econstructor; [done|]. by apply IH.
    + inversion 1 as [|? ? p' ? ? Hs Ht]; subst. apply advance_step in Hs as ->. cbn. by apply IH.
Qed.

Lemma steps_app p t1 q t2 r : steps p t1 q -> steps q t2 r -> steps p (t1 ++ t2) r.
Proof. induction 1; [done|]. intros. econstructor; eauto. Qed.

Create HintDb pyproto.
#[export] Hint Constructors step steps : pyproto.

(** ** A Hoare logic on the trace *)

Definition htr {A} (P : phase -> Prop) (m : PyM A) (Q : A -> phase -> Prop) (E : phase -> Prop) : Prop :=
  forall s p, P p -> exists t q,
    st_trace (m s).2 = st_trace s ++ t /\ steps p t q /\
    match (m s).1 with Ret a => Q a q | Raise _ => E q end.

Section Rules.
Context {A B : Type}.

Lemma htr_ret (P : phase -> Prop) (a : A) (Q : A -> phase -> Prop) E :
  (forall p, P p -> Q a p) -> htr P (mret a) Q E.
Proof. intros H s p Hp. exists [], p. rewrite app_nil_r. split_and!; [done|constructor|cbn; auto]. Qed.

Lemma htr_raise (P : phase -> Prop) e (Q : A -> phase -> Prop) (E : phase -> Prop) :
  (forall p, P p -> E p) -> htr P (mraise e) Q E.
Proof. intros H s p Hp. exists [], p. rewrite app_nil_r. split_and!; [done|constructor|cbn; auto]. Qed.

Lemma htr_bind P (m : PyM A) (k : A -> PyM B) R Q E :
  htr P m R E -> (forall a, htr (R a) (k a) Q E) -> htr P (mbind m k) Q E.
Proof.
  intros Hm Hk s p Hp. destruct (Hm s p Hp) as (t1 & q1 & Ht1 & Hs1 & Hr).
  unfold mbind. destruct (m s) as [[a|e] s1] eqn:E1; cbn in *.
  - destruct (Hk a s1 q1 Hr) as (t2 & q2 & Ht2 & Hs2 & Hq). exists (t1 ++ t2), q2.
    split_and!; [by rewrite Ht2, Ht1, app_assoc|by eapply steps_app|done].
  - by exists t1, q1.
Qed.

Lemma htr_try_except P (m : PyM A) h Q E' E :
  htr P m Q E' -> (forall e, htr E' (h e) Q E) -> htr P (try_except m h) Q E.
Proof.
  intros Hm Hh s p Hp. destruct (Hm s p Hp) as (t1 & q1 & Ht1 & Hs1 & Hr).
  unfold try_except. destruct (m s) as [[a|e] s1] eqn:E1; cbn in *; [by exists t1, q1|].
  destruct (Hh e s1 q1 Hr) as (t2 & q2 & Ht2 & Hs2 & Hq). exists (t1 ++ t2), q2.
  split_and!; [by rewrite Ht2, Ht1, app_assoc|by eapply steps_app|done].
Qed.

Lemma htr_try_finally P (m : PyM A) (fin : PyM unit) Q1 E1 F E2 :
  htr P m Q1 E1 -> htr (fun p => (exists a, Q1 a p) \/ E1 p) fin (fun _ => F) E2 ->
  htr P (try_finally m fin) (fun _ => F) (fun q => F q \/ E2 q).
Proof.
  intros Hm Hf s p Hp. destruct (Hm s p Hp) as (t1 & q1 & Ht1 & Hs1 & Hr).
  unfold try_finally. destruct (m s) as [r s1] eqn:Em; cbn in *.
  assert (Hq1 : (exists a, Q1 a q1) \/ E1 q1) by (destruct r; eauto).
  destruct (Hf s1 q1 Hq1) as (t2 & q2 & Ht2 & Hs2 & Hq).
  destruct (fin s1) as [[u|e] s2]; cbn in *; exists (t1 ++ t2), q2;
    (split_and!; [by rewrite Ht2, Ht1, app_assoc|by eapply steps_app|]); destruct r; auto.
Qed.

Lemma htr_weaken P P' (m : PyM A) Q Q' E E' :
  htr P m Q E -> (forall p, P' p -> P p) -> (forall a p, Q a p -> Q' a p) -> (forall p, E p -> E' p) ->
  htr P' m Q' E'.
Proof.
  intros Hm HP HQ HE s p Hp. destruct (Hm s p (HP p Hp)) as (t & q & Ht & Hs & Hr).
  exists t, q. split_and!; [done|done|]. destruct (m s).1; auto.
Qed.

(** A computation that makes no call leaves the machine where it is. *)
Definition silent (m : PyM A) : Prop := forall s, st_trace (m s).2 = st_trace s.

Lemma htr_silent (P : phase -> Prop) (m : PyM A) : silent m -> htr P m (fun _ => P) P.
Proof.
  intros Hm s p Hp. exists [], p. rewrite app_nil_r. split_and!; [apply Hm|constructor|].
  by destruct (m s).1.
Qed.
End Rules.

Lemma htr_mfor {A} (I : phase -> Prop) (xs : list A) (f : A -> PyM unit) E :
  (forall x, htr I (f x) (fun _ => I) E) -> htr I (mfor xs f) (fun _ => I) E.
Proof.
  intros Hf. induction xs as [|x xs IH]; cbn [mfor]; [by apply htr_ret|].
  eapply htr_bind; [apply Hf|]. intros u. apply IH.
Qed.

Lemma htr_log P ev (Q : unit -> phase -> Prop) E :
  (forall p, P p -> exists q, step p ev q /\ Q tt q) -> htr P (log ev) Q E.
Proof.
  intros H s p Hp. destruct (H p Hp) as (q & Hs & Hq). exists [ev], q.
  split_and!; [done|eauto with pyproto|done].
Qed.

(** ** The operations that make no call *)

Lemma silent_path_exists p : silent (path_exists p).
Proof. done. Qed.

Lemma silent_path_is_file p : silent (path_is_file p).
Proof. done. Qed.

Lemma silent_os_remove w p : silent (os_remove w p).
Proof. intros s. unfold os_remove. by repeat case_match. Qed.

Lemma silent_rmtree w p : silent (rmtree w p).
Proof. intros s. unfold rmtree. by repeat case_match. Qed.

Lemma silent_mkdir_p w p : silent (mkdir_p w p).
Proof.
  unfold mkdir_p. generalize (String.length p) as fuel. intros fuel. revert p.
  induction fuel as [|fuel IH]; intros p s; cbn [mkdir_p_fuel]; repeat case_match; try done.
  all: match goal with H : mkdir_p_fuel _ _ _ _ = (_, ?s') |- _ =>
         pose proof (IH (path_parent p) s) as Hs; rewrite H in Hs; cbn in Hs |- *; done end.
Qed.

Lemma silent_chmod p mode : silent (chmod p mode).
Proof. intros s. unfold chmod. by repeat case_match. Qed.

Lemma silent_iterdir d : silent (iterdir d).
Proof. intros s. unfold iterdir. by repeat case_match. Qed.

Lemma silent_list_files d : silent (list_files d).
Proof. intros s. unfold list_files, mbind. rewrite <-(silent_iterdir d s). by repeat case_match. Qed.

Lemma silent_read_file src : silent (read_file src).
Proof. intros s. unfold read_file. by repeat case_match. Qed.

Lemma silent_lift {A} (o : outcome exn A) : silent (lift o).
Proof. by destruct o. Qed.

Lemma silent_remove_if_exists rm p : (forall q, silent (rm q)) -> silent (remove_if_exists rm p).
Proof.
  intros Hrm s. unfold remove_if_exists, mbind, path_exists. cbn.
  case_bool_decide; [apply Hrm|done].
Qed.

Create HintDb pysilent.
#[export] Hint Resolve silent_path_exists silent_path_is_file silent_os_remove silent_rmtree silent_mkdir_p
  silent_chmod silent_iterdir silent_list_files silent_read_file silent_lift : pysilent.

(** ** The operations that make a call *)

Definition at_phase (p : phase) : phase -> Prop := fun q => q = p.

Lemma htr_download w bucket key dest :
  htr (at_phase PStart) (s3_download_file w bucket key dest) (fun _ => at_phase PDownloaded)
      (fun q => q = PStart \/ q = PDownloaded).
Proof.
  unfold s3_download_file. destruct bucket; try (apply htr_raise; by left).
  apply (htr_bind _ _ _ (fun _ => at_phase PDownloaded)).
  { apply htr_log. intros p ->. exists PDownloaded. split; [constructor|done]. }
  intros []. destruct (w_download w s key) as [e|].
  - apply htr_raise. unfold at_phase. by right.
  - eapply htr_weaken; [apply htr_silent| | |]; [|done..|by right].
    intros st. by repeat case_match.
Qed.

Lemma htr_subprocess_run w cmd od :
  htr (at_phase PDownloaded) (subprocess_run w cmd od) (fun _ => at_phase PTranscoded) (at_phase PTranscoded).
Proof.
  unfold subprocess_run. apply (htr_bind _ _ _ (fun _ => at_phase PTranscoded)).
  { apply htr_log. intros p ->. exists PTranscoded. split; [constructor|done]. }
  intros []. apply htr_silent. intros s. by case_match.
Qed.

Lemma htr_upload w src k ct :
  htr (at_phase PTranscoded) (s3_upload_file w src output_bucket k ct) (fun _ => at_phase PTranscoded)
      (at_phase PTranscoded).
Proof.
  unfold s3_upload_file. apply (htr_bind _ _ _ (fun _ => at_phase PTranscoded)).
  { apply htr_log. intros p ->. exists PTranscoded. split; [constructor|done]. }
  intros []. apply (htr_bind _ _ _ (fun _ => at_phase PTranscoded)); [by apply htr_silent, silent_read_file|].
  intros d. destruct (w_upload w src output_bucket k ct); [by apply htr_raise|by apply htr_silent].
Qed.

Lemma htr_print P msg E : htr P (print msg) (fun _ => at_phase PClosing) E.
Proof. apply htr_log. intros p _. exists PClosing. split; [constructor|done]. Qed.

Lemma htr_run_ffmpeg_dash w ip od rs :
  htr (at_phase PDownloaded) (run_ffmpeg_dash w ip od rs) (fun _ => at_phase PTranscoded)
      (fun q => q = PDownloaded \/ q = PTranscoded).
Proof.
  unfold run_ffmpeg_dash.
  apply (htr_bind _ _ _ (fun _ => at_phase PDownloaded)); [eapply htr_weaken; [by apply htr_silent, silent_mkdir_p|done..|by left]|].
  intros []. apply (htr_bind _ _ _ (fun _ => at_phase PDownloaded)); [eapply htr_weaken; [by apply htr_silent, silent_chmod|done..|by left]|].
  intros []. apply (htr_bind _ _ _ (fun _ => at_phase PDownloaded)); [eapply htr_weaken; [by apply htr_silent, silent_lift|done..|by left]|].
  intros cmd. apply (htr_bind _ _ _ (fun _ => at_phase PTranscoded)); [eapply htr_weaken; [apply htr_subprocess_run|done..|by right]|].
  intros res. case_bool_decide; [apply htr_raise; by right|].
  eapply htr_weaken; [by apply htr_silent, silent_list_files|done..|by right].
Qed.

Lemma htr_upload_outputs w od prefix :
  htr (at_phase PTranscoded) (upload_outputs w od prefix) (fun _ => at_phase PTranscoded) (at_phase PTranscoded).
Proof.
  unfold upload_outputs. apply (htr_bind _ _ _ (fun _ => at_phase PTranscoded)); [by apply htr_silent, silent_iterdir|].
  intros names. apply htr_mfor. intros name. cbv zeta.
  apply (htr_bind _ _ _ (fun _ => at_phase PTranscoded)); [by apply htr_silent|].
  intros []; [apply htr_upload|by apply htr_ret].
Qed.

(** ** The handler *)

Definition open_phase (q : phase) : Prop := q <> PClosing.

Lemma htr_process w bucket key fid ip od :
  htr (at_phase PStart) (process w bucket key fid ip od) (fun _ => open_phase) open_phase.
Proof.
  unfold process. apply (htr_bind _ _ _ (fun _ => at_phase PDownloaded)).
  { eapply htr_weaken; [apply htr_download|done..|by intros ? [-> | ->]]. }
  intros []. apply (htr_bind _ _ _ (fun _ => at_phase PTranscoded)).
  { eapply htr_weaken; [apply htr_run_ffmpeg_dash|done..|by intros ? [-> | ->]]. }
  intros files. apply (htr_bind _ _ _ (fun _ => at_phase PTranscoded)).
  { eapply htr_weaken; [apply htr_upload_outputs|done..|by intros ? ->]. }
  intros []. apply htr_ret. by intros ? ->.
Qed.

Lemma htr_cleanup w ip od : htr (fun _ => True) (cleanup w ip od) (fun _ _ => True) (fun _ => True).
Proof.
  unfold cleanup, remove_if_exists.
  apply (htr_bind _ _ _ (fun _ _ => True)); [|intros []].
  all: apply (htr_bind _ _ _ (fun _ _ => True)); [apply (htr_silent (fun _ => True)), silent_path_exists|].
  all: intros []; [|by apply htr_ret].
  all: apply htr_try_except with (E' := fun _ => True);
         [apply (htr_silent (fun _ => True)), silent_os_remove || apply (htr_silent (fun _ => True)), silent_rmtree|].
  all: intros e; eapply htr_weaken; [apply (htr_print (fun _ => True) _ (fun _ => True))|intros; exact I..].
Qed.

Lemma htr_handle_key w bucket key :
  htr (at_phase PStart) (handle_key w bucket key) (fun _ _ => True) (fun _ => True).
Proof.
  unfold handle_key. cbv zeta. destruct (negb _); [by apply htr_ret|].
  apply (htr_bind _ _ _ (fun _ => at_phase PStart)).
  { eapply htr_weaken; [apply htr_silent, silent_remove_if_exists; intros q; apply silent_os_remove|done..]. }
  intros []. apply (htr_bind _ _ _ (fun _ => at_phase PStart)).
  { eapply htr_weaken; [apply htr_silent, silent_remove_if_exists; intros q; apply silent_rmtree|done..]. }
  intros []. eapply htr_weaken; [apply htr_try_finally with (Q1 := fun _ => open_phase) (E1 := open_phase)|done..].
  - apply htr_try_except with (E' := open_phase); [apply htr_process|]. intros e. by apply htr_raise.
  - eapply htr_weaken; [apply htr_cleanup|done..].
Qed.

(** Every run of [lambda_handler] appends to the trace a path of the
    machine from [PStart]. *)
Lemma lambda_handler_steps w event s :
  exists t q, st_trace (lambda_handler w event s).2 = st_trace s ++ t /\ steps PStart t q.
Proof.
  assert (H : htr (at_phase PStart) (lambda_handler w event) (fun _ _ => True) (fun _ => True)).
  { unfold lambda_handler, handle. apply htr_try_except with (E' := fun _ => True).
    - apply (htr_bind _ _ _ (fun _ => at_phase PStart)); [eapply htr_weaken; [apply htr_silent, silent_lift|done..]|].
      intros bk. apply htr_handle_key.
    - intros e. apply (htr_bind _ _ _ (fun _ _ => True)); [eapply htr_weaken; [apply (htr_print (fun _ => True) _ (fun _ => True))|intros; exact I..]|].
      intros []. by apply htr_ret. }
  destruct (H s PStart eq_refl) as (t & q & Ht & Hs & _). eauto.
Qed.

(** ** What a path of the machine looks like *)

Definition is_run (ev : event) : bool := match ev with EvRun _ => true | _ => false end.
Definition is_download (ev : event) : bool := match ev with EvDownload _ _ _ => true | _ => false end.
Definition is_print (ev : event) : bool := match ev with EvPrint _ => true | _ => false end.

Definition run_budget (p : phase) : nat := match p with PStart | PDownloaded => 1 | _ => 0 end.
Definition download_budget (p : phase) : nat := match p with PStart => 1 | _ => 0 end.

Lemma steps_runs p t q : steps p t q -> length (List.filter is_run t) <= run_budget p.
Proof. induction 1 as [|p ev q t r Hs _ IH]; cbn; [lia|]. inversion Hs; subst; cbn in *; lia. Qed.

Lemma steps_downloads p t q : steps p t q -> length (List.filter is_download t) <= download_budget p.
Proof. induction 1 as [|p ev q t r Hs _ IH]; cbn; [lia|]. inversion Hs; subst; cbn in *; try lia; by destruct p. Qed.

Lemma steps_app_inv p t1 t2 q : steps p (t1 ++ t2) q -> exists r, steps p t1 r /\ steps r t2 q.
Proof.
  revert p. induction t1 as [|ev t1 IH]; intros p Hs; cbn in Hs; [eauto with pyproto|].
  inversion Hs as [|? ? p' ? ? Hst Hrest]; subst. destruct (IH _ Hrest) as (r & H1 & H2). eauto with pyproto.
Qed.

Lemma steps_reach_download p t r :
  steps p t r -> p = PStart -> r = PDownloaded \/ r = PTranscoded -> exists b k d, EvDownload b k d ∈ t.
Proof.
  induction 1 as [p|p ev q t r Hs Ht IH]; intros -> Hr; [by destruct Hr|].
  inversion Hs; subst; [do 3 eexists; by left|].
  exfalso. clear -Ht Hr. remember PClosing as c. induction Ht; subst; [by destruct Hr|].
  inversion H; subst; auto.
Qed.

Lemma steps_reach_run p t r :
  steps p t r -> p <> PTranscoded -> r = PTranscoded -> exists cmd, EvRun cmd ∈ t.
Proof.
  induction 1 as [p|p ev q t r Hs Ht IH]; intros Hp ->; [done|].
  inversion Hs; subst.
  - destruct IH as [cmd Hc]; [done|done|]. exists cmd. by right.
  - exists cmd. by left.
  - done.
  - destruct IH as [cmd Hc]; [done|done|]. exists cmd. by right.
Qed.

Lemma steps_closing t q : steps PClosing t q -> Forall (fun ev => is_print ev = true) t.
Proof.
  remember PClosing as c. induction 1 as [|p ev q t r Hs _ IH]; [constructor|]. subst.
  inversion Hs; subst; constructor; auto.
Qed.

(** ** The handler follows the protocol *)

(** C7: in every invocation, whatever fails: the object is downloaded at
    most once and ffmpeg runs at most once; ffmpeg runs only after the
    download; every upload goes to the output bucket and comes after the
    ffmpeg run; and once a line is printed no download, run or upload
    follows. *)
Theorem lambda_handler_call_order w event s :
  exists t, st_trace (lambda_handler w event s).2 = st_trace s ++ t /\
    length (List.filter is_download t) <= 1 /\ length (List.filter is_run t) <= 1 /\
    (forall t1 cmd t2, t = t1 ++ EvRun cmd :: t2 -> exists b k d, EvDownload b k d ∈ t1) /\
    (forall t1 src b k ct t2, t = t1 ++ EvUpload src b k ct :: t2 ->
       b = output_bucket /\ exists cmd, EvRun cmd ∈ t1) /\
    (forall t1 msg t2, t = t1 ++ EvPrint msg :: t2 -> Forall (fun ev => is_print ev = true) t2).
Proof.
  destruct (lambda_handler_steps w event s) as (t & q & Ht & Hs).
  exists t. split_and!; [done|by apply steps_downloads in Hs|by apply steps_runs in Hs| | |].
  - intros t1 cmd t2 ->. apply steps_app_inv in Hs as (r & H1 & H2).
    inversion H2 as [|? ? ? ? ? Hst]; subst. inversion Hst; subst.
    eapply steps_reach_download; [exact H1|done|by left].
  - intros t1 src b k ct t2 ->. apply steps_app_inv in Hs as (r & H1 & H2).
    inversion H2 as [|? ? ? ? ? Hst]; subst. inversion Hst; subst. split; [done|].
    by eapply steps_reach_run.
  - intros t1 msg t2 ->. apply steps_app_inv in Hs as (r & H1 & H2).
    inversion H2 as [|? ? ? ? ? Hst Hrest]; subst. inversion Hst; subst. by eapply steps_closing.
Qed.
