(* ===== verification/Cleanup.v ===== *)
(** * Cleanup: the staging paths and the guarantee of the [finally] clause

    The handler stages the object at [/tmp/{stem}{ext}] and the ffmpeg
    output under [/tmp/{stem}_dash_output] (Handler.v, [input_path_of],
    [output_dir_of]).  It removes stale copies of both before the inner
    [try] (lines 132-135) and again in its [finally] clause (lines
    175-187).  This file shows that the two paths never collide with each
    other or with what ffmpeg writes, that no operation of the inner
    [try] puts a directory at the input path or a file at the output
    path, and from this that both staging paths are gone when the handler
    returns, whichever way the inner [try] ended, and that leftovers of
    an earlier run do not change the result.  It also shows where the
    guarantee stops: a stale path of the wrong kind makes the removal
    before the [try] raise, and the handler answers 500 with the path
    left in place. *)

From S2P Require Import Prelude PyStr PyObj Config FfmpegCmd Fs RunFfmpeg Handler.
Open Scope stdpp_scope.
Open Scope py_scope.

(** ** The staging paths *)

Lemma allowed_ext_dot ext : ext_allowed ext = true -> exists t, ext = String "." t.
Proof.
  unfold ext_allowed, ALLOWED_EXTENSIONS. intros H%bool_decide_eq_true.
  rewrite !elem_of_union, !elem_of_singleton in H.
  destruct H as [[[[->| ->]| ->]| ->]| ->]; eexists; reflexivity.
Qed.

Lemma app_head_ne (a b c : string) (x y : Ascii.ascii) :
  x <> y -> a +:+ String x b <> a +:+ String y c.
Proof. intros Hxy H. apply string_app_inj_l in H. congruence. Qed.

(** The common head of both staging paths. *)
Lemma input_path_of_eq fid ext : input_path_of fid ext = ("/tmp/" +:+ fid) +:+ ext.
Proof. unfold input_path_of, path_join, temp_dir. by rewrite !string_app_assoc. Qed.

Lemma output_dir_of_eq fid : output_dir_of fid = ("/tmp/" +:+ fid) +:+ "_dash_output".
Proof. unfold output_dir_of, path_join, temp_dir. by rewrite !string_app_assoc. Qed.

Section Staging.
Context (fid ext : string) (Hext : ext_allowed ext = true).

Lemma staging_distinct : input_path_of fid ext <> output_dir_of fid.
Proof.
  destruct (allowed_ext_dot _ Hext) as [t ->].
  rewrite input_path_of_eq, output_dir_of_eq. by apply app_head_ne.
Qed.

Lemma input_not_under_output t : input_path_of fid ext <> output_dir_of fid +:+ "/" +:+ t.
Proof.
  destruct (allowed_ext_dot _ Hext) as [e ->].
  rewrite input_path_of_eq, output_dir_of_eq, <-(string_app_assoc _ "_dash_output").
  by apply app_head_ne.
Qed.

Lemma input_not_prefix_output : String.prefix (input_path_of fid ext) (output_dir_of fid) = false.
Proof.
  destruct (String.prefix _ _) eqn:E; [|done]. apply string_prefix_iff in E as [t Ht].
  destruct (allowed_ext_dot _ Hext) as [e ->].
  rewrite input_path_of_eq, output_dir_of_eq, <-(string_app_assoc _ (String "." e)) in Ht.
  exfalso. by eapply app_head_ne; [|exact Ht].
Qed.

Lemma is_under_output_input : is_under (output_dir_of fid) (input_path_of fid ext) = false.
Proof.
  unfold is_under. destruct (String.prefix _ _) eqn:E; [|done].
  apply string_prefix_iff in E as [t Ht]. rewrite <-string_app_assoc in Ht.
  by destruct (input_not_under_output t).
Qed.
End Staging.

Lemma input_path_not_root fid ext : input_path_of fid ext <> "/".
Proof. rewrite input_path_of_eq, <-!string_app_assoc. by intros H. Qed.

Lemma output_dir_not_root fid : output_dir_of fid <> "/".
Proof. rewrite output_dir_of_eq, <-!string_app_assoc. by intros H. Qed.

(** ** What the inner [try] may do to the staging paths

    [fs_ok ip od]: there is no directory at the input path and no regular
    file at the output path.  Every operation of the inner [try] keeps it,
    on its exceptional paths too, and it is all the [finally] clause needs
    to remove both. *)

Definition fs_ok (ip od : string) (fs : gmap string node) : Prop :=
  (forall m, fs_lookup fs ip <> Some (NDir m)) /\ (forall d, fs_lookup fs od <> Some (NFile d)).

Abbreviation staging_ok ip od := (fun s : state => fs_ok ip od (st_fs s)).

Section Invariant.
Context (w : world) (fid ext : string) (Hext : ext_allowed ext = true).
Local Abbreviation ip := (input_path_of fid ext).
Local Abbreviation od := (output_dir_of fid).

Lemma fs_ok_insert q n fs :
  fs_ok ip od fs -> q <> "/" -> (q = ip -> forall m, n <> NDir m) -> (q = od -> forall d, n <> NFile d) ->
  fs_ok ip od (<[q := n]> fs).
Proof.
  intros [Hip Hod] Hroot Hqi Hqo. split.
  - intros m. destruct (decide (q = ip)) as [->|Hne].
    + rewrite fs_lookup_insert_eq by done. intros [= Hn]. by apply (Hqi eq_refl m).
    + by rewrite fs_lookup_insert_ne.
  - intros d. destruct (decide (q = od)) as [->|Hne].
    + rewrite fs_lookup_insert_eq by done. intros [= Hn]. by apply (Hqo eq_refl d).
    + by rewrite fs_lookup_insert_ne.
Qed.

Lemma download_ok bucket key : preserves (staging_ok ip od) (s3_download_file w bucket key ip).
Proof.
  unfold s3_download_file. destruct bucket; try apply preserves_raise.
  apply preserves_bind; [apply fs_frame_preserves, fs_frame_log|]. intros _.
  destruct (w_download w s key); [apply preserves_raise|].
  intros st Hs. cbn beta iota.
  destruct (fs_lookup (st_fs st) (path_parent ip)) as [[|m]|];
    [done| |done]. destruct (fs_lookup (st_fs st) ip) as [[|m']|]; [| done |];
    apply fs_ok_insert; try done; try apply input_path_not_root.
  all: intros Heq; by destruct (staging_distinct fid ext Hext).
Qed.

Lemma mkdir_ok fuel p :
  abs_path p = true -> String.prefix p od = true -> preserves (staging_ok ip od) (mkdir_p_fuel w fuel p).
Proof.
  assert (Hins : forall q fs, String.prefix q od = true -> q <> "/" -> fs_ok ip od fs ->
                   fs_ok ip od (<[q := NDir (mkdir_mode w)]> fs)).
  { intros q fs Hpre Hroot Hfs. apply fs_ok_insert; [done|done| |done].
    intros ->. by rewrite (input_not_prefix_output fid ext Hext) in Hpre. }
  revert p. induction fuel as [|fuel IH]; intros p Habs Hpre st Hs; cbn [mkdir_p_fuel];
    destruct (fs_lookup (st_fs st) p) as [[|m]|] eqn:Hp; try done;
    apply fs_lookup_None_not_root in Hp;
    destruct (fs_lookup (st_fs st) (path_parent p)) as [[|m]|] eqn:Hq; try done;
    try by apply Hins.
  destruct (path_parent_prefix p Habs) as [Habs' Hpre'].
  specialize (IH _ Habs' (string_prefix_trans _ _ _ Hpre' Hpre) st Hs).
  destruct (mkdir_p_fuel w fuel (path_parent p) st) as [[u|e] st'] eqn:Hm; [|done].
  by apply Hins.
Qed.
Lemma chmod_ok mode : preserves (staging_ok ip od) (chmod od mode).
Proof.
  intros st Hs. unfold chmod. destruct (fs_lookup (st_fs st) od) as [[|m]|]; [done| |done].
  apply fs_ok_insert; [done|apply output_dir_not_root| |done].
  intros Heq. by destruct (staging_distinct fid ext Hext).
Qed.

Lemma under_output_not_root t : od +:+ "/" +:+ t <> "/".
Proof.
  intros H. apply (f_equal String.length) in H.
  rewrite output_dir_of_eq, !string_length_app in H. cbn in H. lia.
Qed.

Lemma subprocess_ok cmd : preserves (staging_ok ip od) (subprocess_run w cmd od).
Proof.
  unfold subprocess_run. apply preserves_bind; [apply fs_frame_preserves, fs_frame_log|]. intros _.
  intros st Hs. destruct (w_ffmpeg w cmd _) as [e|rc err created]; [done|]. cbn.
  induction created as [|[n k] created IH]; cbn; [done|].
  apply fs_ok_insert; [done|apply under_output_not_root| |].
  - intros Heq. by destruct (input_not_under_output fid ext Hext n).
  - intros Heq. by destruct (under_ne od n).
Qed.

Lemma abs_output_dir : abs_path od = true.
Proof. rewrite output_dir_of_eq, <-!string_app_assoc. reflexivity. Qed.

Lemma run_ffmpeg_dash_ok rs : preserves (staging_ok ip od) (run_ffmpeg_dash w ip od rs).
Proof.
  unfold run_ffmpeg_dash. apply preserves_bind.
  { apply mkdir_ok; [apply abs_output_dir|]. apply string_prefix_iff. exists "". by rewrite string_app_nil_r. }
  intros _. apply preserves_bind; [apply chmod_ok|]. intros _.
  apply preserves_bind; [apply fs_frame_preserves, fs_frame_lift|]. intros cmd.
  apply preserves_bind; [apply subprocess_ok|]. intros res.
  case_bool_decide; [apply preserves_raise|apply fs_frame_preserves, fs_frame_list_files].
Qed.

Lemma upload_outputs_frame prefix : fs_frame (upload_outputs w od prefix).
Proof.
  unfold upload_outputs. apply fs_frame_bind; [apply fs_frame_iterdir|]. intros names.
  apply fs_frame_mfor. intros n. apply fs_frame_bind; [apply fs_frame_path_is_file|].
  intros []; [apply fs_frame_s3_upload_file|apply fs_frame_ret].
Qed.

Lemma process_ok bucket key : preserves (staging_ok ip od) (process w bucket key fid ip od).
Proof.
  unfold process. apply preserves_bind; [apply download_ok|]. intros _.
  apply preserves_bind; [apply run_ffmpeg_dash_ok|]. intros files.
  apply preserves_bind; [apply fs_frame_preserves, upload_outputs_frame|]. intros _.
  apply preserves_ret.
Qed.
End Invariant.

(** ** Removing the staging paths *)

Definition no_remove_faults (w : world) (ip od : string) : Prop :=
  w_remove_fault w ip = None /\ forall q, q = od \/ is_under od q = true -> w_remove_fault w q = None.

(** What the two [if exists: remove] steps leave: no input file, and no
    output tree if there was an output directory. *)
Definition clear_staging (ip od : string) (fs : gmap string node) : gmap string node :=
  let fs1 := delete ip fs in
  if bool_decide (is_Some (fs_lookup fs1 od)) then clear_tree od fs1 else fs1.

Lemma set_fs_id s : set_fs (fun fs => fs) s = s.
Proof. by destruct s. Qed.

Lemma set_fs_set_fs f g s : set_fs f (set_fs g s) = set_fs (fun fs => f (g fs)) s.
Proof. done. Qed.

Section Removal.
Context (w : world) (fid ext : string) (Hext : ext_allowed ext = true).
Local Abbreviation ip := (input_path_of fid ext).
Local Abbreviation od := (output_dir_of fid).
Context (Hnf : no_remove_faults w ip od).

Lemma remove_input (rm : string -> PyM unit) s :
  (forall s d, fs_lookup (st_fs s) ip = Some (NFile d) -> rm ip s = (Ret tt, set_fs (delete ip) s)) ->
  (forall m, fs_lookup (st_fs s) ip <> Some (NDir m)) ->
  remove_if_exists rm ip s = (Ret tt, set_fs (delete ip) s).
Proof.
  intros Hrm Hip. unfold remove_if_exists, path_exists, mbind.
  destruct (fs_lookup (st_fs s) ip) as [[d|m]|] eqn:E; cbn -[set_fs].
  - by apply (Hrm s d).
  - by destruct (Hip m).
  - unfold fs_lookup in E. rewrite bool_decide_eq_false_2 in E by apply input_path_not_root.
    unfold set_fs. rewrite (delete_id _ _ E). by destruct s.
Qed.

Lemma remove_output (rm : string -> PyM unit) s :
  (forall s m, fs_lookup (st_fs s) od = Some (NDir m) -> rm od s = (Ret tt, set_fs (clear_tree od) s)) ->
  (forall d, fs_lookup (st_fs s) od <> Some (NFile d)) ->
  remove_if_exists rm od s =
  (Ret tt, set_fs (fun fs => if bool_decide (is_Some (fs_lookup fs od)) then clear_tree od fs else fs) s).
Proof.
  intros Hrm Hod. unfold remove_if_exists, path_exists, mbind.
  destruct (fs_lookup (st_fs s) od) as [[d|m]|] eqn:E; cbn -[set_fs]; [by destruct (Hod d)| |unfold set_fs; rewrite E; by destruct s].
  rewrite (Hrm s m E). unfold set_fs. cbv beta. by rewrite E.
Qed.

Lemma os_remove_input s d :
  fs_lookup (st_fs s) ip = Some (NFile d) -> os_remove w ip s = (Ret tt, set_fs (delete ip) s).
Proof. intros H. apply (os_remove_file _ _ _ d); [done|]. by destruct Hnf. Qed.

Lemma rmtree_output s m :
  fs_lookup (st_fs s) od = Some (NDir m) -> rmtree w od s = (Ret tt, set_fs (clear_tree od) s).
Proof. intros H. eapply rmtree_dir; [done|]. by destruct Hnf. Qed.

Lemma fs_ok_delete_input fs : fs_ok ip od fs -> forall d, fs_lookup (delete ip fs) od <> Some (NFile d).
Proof. intros [_ Hod] d. rewrite fs_lookup_delete_ne; [done|apply (staging_distinct fid ext Hext)]. Qed.

(** Lines 132-135: the stale staging paths are removed before the inner
    [try]. *)
Lemma preclean_step s (k : PyM response) :
  fs_ok ip od (st_fs s) ->
  (remove_if_exists (os_remove w) ip ;;; remove_if_exists (rmtree w) od ;;; k) s =
  k (set_fs (clear_staging ip od) s).
Proof.
  intros Hs. rewrite (mbind_Ret_eq _ _ _ tt (set_fs (delete ip) s)).
  2: { apply remove_input; [apply os_remove_input|apply Hs]. }
  erewrite (mbind_Ret_eq _ _ _ tt); [reflexivity|].
  apply remove_output; [apply rmtree_output|by apply fs_ok_delete_input].
Qed.

(** Lines 175-187: the [finally] clause. *)
Lemma cleanup_step s : fs_ok ip od (st_fs s) -> cleanup w ip od s = (Ret tt, set_fs (clear_staging ip od) s).
Proof.
  intros Hs. unfold cleanup. rewrite (mbind_Ret_eq _ _ _ tt (set_fs (delete ip) s)).
  2: { apply remove_input; [|apply Hs]. intros s' d H. apply try_except_Ret_eq, (os_remove_input _ d), H. }
  apply remove_output; [|by apply fs_ok_delete_input].
  intros s' m H. apply try_except_Ret_eq. eapply rmtree_output, H.
Qed.
End Removal.

Lemma clear_staging_gone fid ext fs :
  ext_allowed ext = true ->
  fs_lookup (clear_staging (input_path_of fid ext) (output_dir_of fid) fs) (input_path_of fid ext) = None /\
  fs_lookup (clear_staging (input_path_of fid ext) (output_dir_of fid) fs) (output_dir_of fid) = None.
Proof.
  intros Hext. pose proof (staging_distinct fid ext Hext) as Hd.
  pose proof (input_path_not_root fid ext). pose proof (output_dir_not_root fid).
  unfold clear_staging. case_bool_decide as Hod.
  - rewrite !fs_lookup_clear_tree by done. rewrite (is_under_output_input fid ext Hext).
    rewrite bool_decide_eq_false_2 by done. rewrite bool_decide_eq_true_2 by done.
    by rewrite fs_lookup_delete_eq.
  - rewrite fs_lookup_delete_eq by done. split; [done|]. destruct (fs_lookup _ _); [|done].
    by destruct Hod.
Qed.

Lemma clear_staging_ok fid ext fs :
  ext_allowed ext = true ->
  fs_ok (input_path_of fid ext) (output_dir_of fid) (clear_staging (input_path_of fid ext) (output_dir_of fid) fs).
Proof.
  intros Hext. destruct (clear_staging_gone fid ext fs Hext) as [H1 H2].
  unfold fs_ok. rewrite H1, H2. by split.
Qed.

(** The handler on a key with an allowed extension, when the stale
    paths are removable: the body runs from the state with both staging
    paths removed, and whatever it does, the [finally] clause removes them
    again from the state it leaves. *)
Lemma handle_key_process w bucket key s r s2 :
  ext_allowed (key_ext key) = true ->
  fs_ok (input_path_of (key_file_id key) (key_ext key)) (output_dir_of (key_file_id key)) (st_fs s) ->
  no_remove_faults w (input_path_of (key_file_id key) (key_ext key)) (output_dir_of (key_file_id key)) ->
  process w bucket key (key_file_id key) (input_path_of (key_file_id key) (key_ext key)) (output_dir_of (key_file_id key))
    (set_fs (clear_staging (input_path_of (key_file_id key) (key_ext key)) (output_dir_of (key_file_id key))) s) = (r, s2) ->
  handle_key w bucket key s =
    (r, set_fs (clear_staging (input_path_of (key_file_id key) (key_ext key)) (output_dir_of (key_file_id key))) s2).
Proof.
  intros Hx Hok Hnf Hpr. unfold handle_key. cbv zeta. rewrite Hx. cbn [negb].
  set (fid := key_file_id key) in *. set (ext := key_ext key) in *.
  rewrite (preclean_step w fid ext Hx Hnf s _ Hok).
  eapply try_finally_eq; [rewrite try_except_reraise; exact Hpr|]. apply (cleanup_step w _ _ Hx Hnf).
  pose proof (process_ok w fid ext Hx bucket key (set_fs (clear_staging (input_path_of fid ext) (output_dir_of fid)) s)
    (clear_staging_ok fid ext (st_fs s) Hx)) as Hinv.
  by rewrite Hpr in Hinv.
Qed.

Lemma handle_key_staging w bucket key s :
  ext_allowed (key_ext key) = true ->
  fs_ok (input_path_of (key_file_id key) (key_ext key)) (output_dir_of (key_file_id key)) (st_fs s) ->
  no_remove_faults w (input_path_of (key_file_id key) (key_ext key)) (output_dir_of (key_file_id key)) ->
  exists r s2, handle_key w bucket key s =
    (r, set_fs (clear_staging (input_path_of (key_file_id key) (key_ext key)) (output_dir_of (key_file_id key))) s2).
Proof.
  intros Hx Hok Hnf.
  destruct (process w bucket key (key_file_id key) (input_path_of (key_file_id key) (key_ext key))
    (output_dir_of (key_file_id key))
    (set_fs (clear_staging (input_path_of (key_file_id key) (key_ext key)) (output_dir_of (key_file_id key))) s))
    as [r s2] eqn:Hpr.
  exists r, s2. by apply handle_key_process.
Qed.

(** C5: on an event whose key has an allowed extension, when the input
    path holds no directory and the output path no regular file and the
    removals do not fail, neither staging path exists when the handler
    returns, whether the transfer succeeded or failed at any step. *)
Theorem lambda_handler_cleanup (w : world) (event : json) (s : state) bucket key :
  parse_event event = Ret (bucket, key) -> ext_allowed (key_ext key) = true ->
  fs_ok (input_path_of (key_file_id key) (key_ext key)) (output_dir_of (key_file_id key)) (st_fs s) ->
  no_remove_faults w (input_path_of (key_file_id key) (key_ext key)) (output_dir_of (key_file_id key)) ->
  fs_lookup (st_fs (lambda_handler w event s).2) (input_path_of (key_file_id key) (key_ext key)) = None /\
  fs_lookup (st_fs (lambda_handler w event s).2) (output_dir_of (key_file_id key)) = None.
Proof.
  intros Hp Hx Hok Hnf.
  destruct (handle_key_staging w bucket key s Hx Hok Hnf) as (r & s2 & Hh).
  unfold lambda_handler, try_except. rewrite (handle_eq w event s bucket key Hp), Hh.
  destruct r; cbn [fst snd st_fs set_fs print log mmodify mbind mret];
    apply clear_staging_gone, Hx.
Qed.

(** ** When a stale staging path has the wrong kind

    Lines 132-135 run before the [try ... finally]: when the input path
    is a directory, [unlink] raises [IsADirectoryError]; when the output
    path is a regular file, [rmtree] raises [NotADirectoryError].  Either
    exception reaches the outer [except], so the handler answers 500
    without downloading anything, and the [finally] clause never runs:
    the offending path stays, and every later invocation for the same
    stem fails the same way. *)

Lemma remove_if_exists_raise (rm : string -> PyM unit) p e s s' {A} (k : PyM A) :
  is_Some (fs_lookup (st_fs s) p) -> rm p s = (Raise e, s') ->
  (remove_if_exists rm p ;;; k) s = (Raise e, s').
Proof.
  intros Hs Hrm. apply mbind_Raise_eq. unfold remove_if_exists.
  rewrite (mbind_Ret_eq _ _ _ true s); [done|]. unfold path_exists. by rewrite bool_decide_eq_true_2.
Qed.

Section Stale.
Context (w : world) (event : json) (s : state) (bucket : json) (key : string).
Local Abbreviation ip := (input_path_of (key_file_id key) (key_ext key)).
Local Abbreviation od := (output_dir_of (key_file_id key)).
Context (Hp : parse_event event = Ret (bucket, key)) (Hx : ext_allowed (key_ext key) = true).

(** C18: a directory at the input path makes the handler answer 500 with
    [IsADirectoryError], and the state is the one before the call but
    for the printed line: the directory is still there. *)
Theorem lambda_handler_stale_input_dir mode :
  fs_lookup (st_fs s) ip = Some (NDir mode) ->
  lambda_handler w event s =
  (Ret (error_response (IsADirectoryError ip)),
   logged (EvPrint ("Error processing video: " +:+ exn_str (IsADirectoryError ip))) s).
Proof.
  intros Hd. apply (lambda_handler_eq w event s bucket key (Raise (IsADirectoryError ip)) s Hp).
  unfold handle_key. cbv zeta. rewrite Hx. cbn [negb].
  apply (remove_if_exists_raise _ _ _ s s); [by rewrite Hd|]. unfold os_remove. by rewrite Hd.
Qed.

(** C19: a regular file at the output path (and none or a file at the
    input path) makes the handler answer 500 with [NotADirectoryError];
    the input file is removed, the output file stays. *)
Theorem lambda_handler_stale_output_file d :
  (forall m, fs_lookup (st_fs s) ip <> Some (NDir m)) -> w_remove_fault w ip = None ->
  fs_lookup (st_fs s) od = Some (NFile d) ->
  lambda_handler w event s =
  (Ret (error_response (NotADirectoryError od)),
   logged (EvPrint ("Error processing video: " +:+ exn_str (NotADirectoryError od))) (set_fs (delete ip) s)).
Proof.
  intros Hi Hf Ho. apply (lambda_handler_eq w event s bucket key (Raise (NotADirectoryError od)) _ Hp).
  unfold handle_key. cbv zeta. rewrite Hx. cbn [negb].
  rewrite (mbind_Ret_eq _ _ _ tt (set_fs (delete ip) s)).
  2: { apply (remove_input (key_file_id key) (key_ext key)); [|done]. intros s' d' H. by apply (os_remove_file _ _ _ d'). }
  pose proof (fs_lookup_delete_ne (st_fs s) _ _ (staging_distinct (key_file_id key) (key_ext key) Hx)) as Hdel.
  apply (remove_if_exists_raise _ _ _ (set_fs (delete ip) s) (set_fs (delete ip) s)); [cbn; rewrite Hdel, Ho; by eexists|]. unfold rmtree. cbn. by rewrite Hdel, Ho.
Qed.
End Stale.

(** ** Leftovers of an earlier run do not change the outcome *)

Lemma clear_staging_idem fid ext fs :
  ext_allowed ext = true ->
  clear_staging (input_path_of fid ext) (output_dir_of fid) (clear_staging (input_path_of fid ext) (output_dir_of fid) fs) =
  clear_staging (input_path_of fid ext) (output_dir_of fid) fs.
Proof.
  intros Hx. destruct (clear_staging_gone fid ext fs Hx) as [Hi Ho].
  set (fs1 := clear_staging _ _ fs) in *.
  assert (Hdel : delete (input_path_of fid ext) fs1 = fs1).
  { apply delete_id. unfold fs_lookup in Hi. by rewrite bool_decide_eq_false_2 in Hi by apply input_path_not_root. }
  unfold clear_staging at 1. rewrite Hdel, Ho. by rewrite bool_decide_eq_false_2 by apply is_Some_None.
Qed.

Lemma lambda_handler_cleared w event s bucket key :
  parse_event event = Ret (bucket, key) -> ext_allowed (key_ext key) = true ->
  fs_ok (input_path_of (key_file_id key) (key_ext key)) (output_dir_of (key_file_id key)) (st_fs s) ->
  no_remove_faults w (input_path_of (key_file_id key) (key_ext key)) (output_dir_of (key_file_id key)) ->
  lambda_handler w event s =
  lambda_handler w event (set_fs (clear_staging (input_path_of (key_file_id key) (key_ext key)) (output_dir_of (key_file_id key))) s).
Proof.
  intros Hp Hx Hok Hnf.
  destruct (process w bucket key (key_file_id key) (input_path_of (key_file_id key) (key_ext key))
    (output_dir_of (key_file_id key))
    (set_fs (clear_staging (input_path_of (key_file_id key) (key_ext key)) (output_dir_of (key_file_id key))) s))
    as [r s2] eqn:Hpr.
  assert (Hs1 : handle_key w bucket key s =
    (r, set_fs (clear_staging (input_path_of (key_file_id key) (key_ext key)) (output_dir_of (key_file_id key))) s2))
    by (by apply handle_key_process).
  assert (Hs2 : handle_key w bucket key
    (set_fs (clear_staging (input_path_of (key_file_id key) (key_ext key)) (output_dir_of (key_file_id key))) s) =
    (r, set_fs (clear_staging (input_path_of (key_file_id key) (key_ext key)) (output_dir_of (key_file_id key))) s2)).
  { apply handle_key_process; [done|apply clear_staging_ok, Hx|done|].
    rewrite <-Hpr. f_equal. unfold set_fs. cbn [st_fs st_s3 st_trace]. by rewrite clear_staging_idem. }
  by rewrite (lambda_handler_eq _ _ _ _ _ _ _ Hp Hs1), (lambda_handler_eq _ _ _ _ _ _ _ Hp Hs2).
Qed.

(** C6: when the stale staging paths have the right kind and can be
    removed, the handler's response, trace, uploads and final
    filesystem are the same as on the state with both paths already
    absent: files left by an earlier run of the same stem change
    nothing. *)
Theorem lambda_handler_leftovers w event s bucket key :
  parse_event event = Ret (bucket, key) -> ext_allowed (key_ext key) = true ->
  fs_ok (input_path_of (key_file_id key) (key_ext key)) (output_dir_of (key_file_id key)) (st_fs s) ->
  no_remove_faults w (input_path_of (key_file_id key) (key_ext key)) (output_dir_of (key_file_id key)) ->
  lambda_handler w event s =
  lambda_handler w event (set_fs (clear_staging (input_path_of (key_file_id key) (key_ext key)) (output_dir_of (key_file_id key))) s).
Proof. apply lambda_handler_cleared. Qed.
