(* ===== verification/Transfer.v ===== *)
(** * Transfer: what one invocation does, end to end

    The inner [try] of the handler (Handler.v, [process]) downloads the
    object to the input path, creates the output directory, runs ffmpeg
    with the command of FfmpegCmd.v, and uploads every regular file of
    the output directory under [dash/{stem}/].  This file runs it step by
    step from the state the stale-path removal leaves and gives, for each
    way the invocation can go, the response, the trace of external calls,
    the uploaded objects and the filesystem left behind: success (200,
    with exactly the files ffmpeg wrote), a failed download, a non-zero
    ffmpeg exit, and a failed upload (500 each); on success each stored
    object holds the bytes ffmpeg produced from the source object's
    bytes.  It also shows that the
    staging paths of any key are direct children of /tmp, and holds the
    witnesses of the claims on the sample event [videos/clip.MP4]. *)

From S2P Require Import Prelude PyStr PyObj Config FfmpegCmd Fs RunFfmpeg Handler Cleanup.
Open Scope stdpp_scope.
Open Scope py_scope.

(** ** Where the staging paths live *)

Lemma path_parent_tmp n : string_has "/"%char n = false -> path_parent (path_join temp_dir n) = temp_dir.
Proof.
  intros Hn. unfold path_parent, path_join, temp_dir.
  change ("/tmp" +:+ "/" +:+ n) with ("/tmp" +:+ String "/"%char n).
  rewrite py_rfind_app_sep by done. apply (substring_app_prefix "/tmp").
Qed.

Lemma allowed_ext_no_slash ext : ext_allowed ext = true -> string_has "/"%char ext = false.
Proof.
  unfold ext_allowed, ALLOWED_EXTENSIONS. intros H%bool_decide_eq_true.
  rewrite !elem_of_union, !elem_of_singleton in H.
  by destruct H as [[[[->| ->]| ->]| ->]| ->].
Qed.

Lemma parent_input_path key :
  ext_allowed (key_ext key) = true ->
  path_parent (input_path_of (key_file_id key) (key_ext key)) = temp_dir.
Proof.
  intros Hx. apply path_parent_tmp. rewrite string_has_app, path_stem_no_slash.
  by apply allowed_ext_no_slash.
Qed.

Lemma parent_output_dir key : path_parent (output_dir_of (key_file_id key)) = temp_dir.
Proof. apply path_parent_tmp. by rewrite string_has_app, path_stem_no_slash. Qed.

(** C22: for any object key with an allowed extension, both staging paths
    are direct children of /tmp whatever [..] or [/] the key holds, the
    file id has no [/], the two paths differ, and the input file does not
    lie inside the output directory: removing the output tree never
    touches the input file, and nothing outside /tmp is ever written. *)
Theorem staging_paths_in_tmp key :
  ext_allowed (key_ext key) = true ->
  string_has "/"%char (key_file_id key) = false /\
  path_parent (input_path_of (key_file_id key) (key_ext key)) = temp_dir /\
  path_parent (output_dir_of (key_file_id key)) = temp_dir /\
  input_path_of (key_file_id key) (key_ext key) <> output_dir_of (key_file_id key) /\
  is_under (output_dir_of (key_file_id key)) (input_path_of (key_file_id key) (key_ext key)) = false.
Proof.
  intros Hx. split_and!; [apply path_stem_no_slash|by apply parent_input_path|apply parent_output_dir
    |by apply staging_distinct|by apply is_under_output_input].
Qed.

Lemma string_length_ge_prefix (a b : string) : String.length a <= String.length (a +:+ b).
Proof. rewrite string_length_app. lia. Qed.

Lemma temp_dir_not_staging fid ext :
  temp_dir <> input_path_of fid ext /\ temp_dir <> output_dir_of fid /\
  is_under (output_dir_of fid) temp_dir = false.
Proof.
  assert (Hlen : forall t, String.length temp_dir < String.length (path_join temp_dir t)).
  { intros t. unfold path_join. rewrite !string_length_app. cbn. lia. }
  split_and!.
  - intros H. specialize (Hlen (fid +:+ ext)). unfold input_path_of in H. rewrite <-H in Hlen. exact (Nat.lt_irrefl _ Hlen).
  - intros H. specialize (Hlen (fid +:+ "_dash_output")). unfold output_dir_of in H. rewrite <-H in Hlen. exact (Nat.lt_irrefl _ Hlen).
  - unfold is_under. destruct (String.prefix _ _) eqn:E; [|done].
    apply string_prefix_iff in E as [t Ht]. exfalso.
    pose proof (Hlen (fid +:+ "_dash_output")) as Hl. fold (output_dir_of fid) in Hl.
    pose proof (string_length_ge_prefix (output_dir_of fid) ("/" +:+ t)) as Hge.
    rewrite string_app_assoc, <-Ht in Hge. exact (Nat.lt_irrefl _ (Nat.lt_le_trans _ _ _ Hl Hge)).
Qed.

Lemma clear_staging_other ip od fs q :
  q <> ip -> q <> od -> is_under od q = false -> q <> "/" ->
  fs_lookup (clear_staging ip od fs) q = fs_lookup fs q.
Proof.
  intros Hi Ho Hu Hr. unfold clear_staging.
  case_bool_decide; [rewrite fs_lookup_clear_tree, bool_decide_eq_false_2, Hu by done; cbn|];
    by rewrite fs_lookup_delete_ne.
Qed.

(** The filesystem after the download, the directory creation, the
    [chmod] and ffmpeg's writes. *)
Definition run_fs (w : world) (ip od input : string) (created : list (string * node)) (fs : gmap string node) :=
  add_created od created (<[od := NDir 511]> (<[od := NDir (mkdir_mode w)]> (<[ip := NFile input]> fs))).

(** The paths one invocation owns: the input file, the output directory
    and everything under it. *)
Lemma add_created_lookup od created fs n :
  od <> "" ->
  fs_lookup (add_created od created fs) (od +:+ "/" +:+ n) =
  match (list_to_map created : gmap string node) !! n with
  | Some v => Some v
  | None => fs_lookup fs (od +:+ "/" +:+ n)
  end.
Proof.
  intros Hod. assert (Hr : od +:+ "/" +:+ n <> "/") by (by destruct (under_not_root od n)).
  induction created as [|[n' v] created IH]; cbn [add_created foldr fst snd]; [done|].
  rewrite list_to_map_cons. destruct (decide (n' = n)) as [->|Hne].
  - by rewrite lookup_insert_eq, fs_lookup_insert_eq.
  - rewrite lookup_insert_ne, fs_lookup_insert_ne by (done || (intros H; apply Hne; by do 2 apply string_app_inj_l in H)).
    apply IH.
Qed.

Definition staged (ip od q : string) : bool :=
  bool_decide (q = ip) || bool_decide (q = od) || is_under od q.

Lemma fs_lookup_root fs fs' : fs_lookup fs "/" = fs_lookup fs' "/".
Proof. done. Qed.

Section Residue.
Context (w : world) (fid ext : string) (Hext : ext_allowed ext = true).
Local Abbreviation ip := (input_path_of fid ext).
Local Abbreviation od := (output_dir_of fid).

(** Removing the staging paths after a run leaves exactly the paths the
    invocation does not own, as they were before it. *)
Lemma run_fs_cleared input created fs q :
  fs_lookup (clear_staging ip od (run_fs w ip od input created (clear_staging ip od fs))) q =
  if staged ip od q then None else fs_lookup fs q.
Proof.
  destruct (decide (q = "/")) as [->|Hr].
  { unfold staged. rewrite !bool_decide_eq_false_2 by (apply not_eq_sym, input_path_not_root || apply not_eq_sym, output_dir_not_root).
    destruct (is_under od "/") eqn:E; [|apply fs_lookup_root].
    unfold is_under in E. apply string_prefix_iff in E as [t Ht].
    apply (f_equal String.length) in Ht. rewrite !string_length_app, output_dir_of_eq, !string_length_app in Ht. cbn in Ht. lia. }
  pose proof (staging_distinct fid ext Hext) as Hd.
  pose proof (output_dir_not_root fid) as Hodr.
  unfold clear_staging at 1. rewrite fs_lookup_delete_ne by exact Hd.
  rewrite bool_decide_eq_true_2.
  2: { unfold run_fs. rewrite add_created_output, fs_lookup_insert_eq by done. by eexists. }
  rewrite fs_lookup_clear_tree by done. unfold staged.
  destruct (decide (q = ip)) as [->|Hi].
  { rewrite (bool_decide_eq_true_2 (ip = ip)), fs_lookup_delete_eq by (done || apply input_path_not_root).
    by destruct (_ || _). }
  rewrite (bool_decide_eq_false_2 (q = ip)) by done. cbn [orb].
  destruct (bool_decide (q = od) || is_under od q) eqn:Hu; [done|].
  apply orb_false_iff in Hu as [Ho%bool_decide_eq_false_1 Hu].
  rewrite fs_lookup_delete_ne by (apply not_eq_sym, Hi).
  unfold run_fs. induction created as [|[n k] created IH]; cbn [add_created foldr fst snd].
  - rewrite !fs_lookup_insert_ne by (apply not_eq_sym; done).
    apply clear_staging_other; done.
  - rewrite fs_lookup_insert_ne; [apply IH|]. intros <-. unfold is_under in Hu.
    rewrite string_app_assoc, string_prefix_app in Hu. done.
Qed.

Lemma output_dir_nonempty : od <> "".
Proof. by rewrite output_dir_of_eq, <-!string_app_assoc. Qed.

Lemma clear_staging_child fs n :
  tree_ok fs -> string_has "/"%char n = false -> fs_lookup (clear_staging ip od fs) (od +:+ "/" +:+ n) = None.
Proof.
  intros Ht Hn. pose proof (staging_distinct fid ext Hext) as Hd.
  assert (Hr : od +:+ "/" +:+ n <> "/") by (destruct (under_not_root od n); [done|by destruct output_dir_nonempty]).
  assert (Hi : ip <> od +:+ "/" +:+ n) by apply (input_not_under_output fid ext Hext).
  unfold clear_staging. case_bool_decide as Hs.
  - rewrite fs_lookup_clear_tree, is_under_child by done. by rewrite orb_true_r.
  - rewrite fs_lookup_delete_ne by done. apply tree_ok_no_child; [done|apply output_dir_nonempty|done|].
    rewrite fs_lookup_delete_ne in Hs by done. destruct (fs_lookup fs od); [exfalso; apply Hs; by eexists|done].
Qed.

(** The regular files directly in the output directory after ffmpeg
    ran are the names it wrote as regular files, each once. *)
Lemma run_fs_files input created fs :
  tree_ok fs ->
  let files := regular_files od (run_fs w ip od input created (clear_staging ip od fs)) in
  NoDup files /\
  forall n, n ∈ files <-> string_has "/"%char n = false /\ is_file ((list_to_map created : gmap string node) !! n) = true.
Proof.
  intros Ht files. split; [apply NoDup_regular_files|]. intros n.
  unfold files. rewrite elem_of_regular_files by apply output_dir_nonempty.
  unfold run_fs. rewrite add_created_lookup by apply output_dir_nonempty.
  destruct ((list_to_map created : gmap string node) !! n); [done|].
  split; intros [Hn H]; split; try done. revert H.
  rewrite !fs_lookup_insert_ne; [by rewrite clear_staging_child|apply (input_not_under_output fid ext Hext)
    |apply not_eq_sym, under_ne..].
Qed.
End Residue.

(** ** The inner [try], step by step *)

Section Process.
Context (w : world) (b key : string) (Hx : ext_allowed (key_ext key) = true).
Local Abbreviation fid := (key_file_id key).
Local Abbreviation ip := (input_path_of (key_file_id key) (key_ext key)).
Local Abbreviation od := (output_dir_of (key_file_id key)).
Context (Hdl : w_download w b key = None).
Context (s1 : state) (m : Z) (Htmp : fs_lookup (st_fs s1) temp_dir = Some (NDir m))
        (Hip : fs_lookup (st_fs s1) ip = None) (Hod : fs_lookup (st_fs s1) od = None).

(** The state after the download. *)
Definition downloaded : state := set_fs (insert ip (NFile (w_object w b key))) (logged (EvDownload b key ip) s1).

Lemma download_step {A} (k : PyM A) : (s3_download_file w (JStr b) key ip ;;; k) s1 = k downloaded.
Proof.
  rewrite (mbind_Ret_eq _ _ _ tt downloaded); [done|].
  apply (s3_download_file_ok _ _ _ _ _ m); [done| |intros m'; by rewrite Hip].
  by rewrite parent_input_path.
Qed.

Lemma downloaded_od : fs_lookup (st_fs downloaded) od = None.
Proof. cbn. rewrite fs_lookup_insert_ne; [done|apply (staging_distinct _ _ Hx)]. Qed.

Lemma downloaded_parent : fs_lookup (st_fs downloaded) (path_parent od) = Some (NDir m).
Proof.
  rewrite parent_output_dir. cbn. rewrite fs_lookup_insert_ne; [done|].
  apply not_eq_sym, (temp_dir_not_staging (key_file_id key) (key_ext key)).
Qed.

(** ffmpeg reads the downloaded object. *)
Lemma downloaded_input acc : input_data (ffmpeg_cmd ip od acc) (st_fs downloaded) = Some (w_object w b key).
Proof.
  unfold input_data. rewrite ffmpeg_cmd_input. cbn. rewrite fs_lookup_insert_eq; [done|].
  apply input_path_not_root.
Qed.

(** The state ffmpeg leaves. *)
Definition ran (created : list (string * node)) : state :=
  after_exit w ip od downloaded RESOLUTIONS created.

Lemma ran_od created : fs_lookup (st_fs (ran created)) od = Some (NDir 511).
Proof. unfold ran, after_exit. cbn [st_fs set_fs logged]. rewrite add_created_output. apply prepared_output_dir, downloaded_od. Qed.

Lemma process_ffmpeg_failure rc err created :
  w_ffmpeg w (ffmpeg_cmd ip od (ffmpeg_loop RESOLUTIONS)) (Some (w_object w b key)) = RunExit rc err created ->
  rc <> 0%Z ->
  process w (JStr b) key fid ip od s1 = (Raise (RuntimeError (ffmpeg_failed_msg err)), ran created).
Proof.
  intros Hw Hrc. rewrite <-(downloaded_input (ffmpeg_loop RESOLUTIONS)) in Hw. unfold process. rewrite download_step. apply mbind_Raise_eq.
  rewrite (run_ffmpeg_dash_exit _ _ _ _ _ downloaded_od downloaded_parent RESOLUTIONS _ _ _ ltac:(by compute) Hw).
  by rewrite bool_decide_eq_true_2.
Qed.

Lemma process_success err created :
  w_ffmpeg w (ffmpeg_cmd ip od (ffmpeg_loop RESOLUTIONS)) (Some (w_object w b key)) = RunExit 0 err created ->
  (forall src k ct, w_upload w src output_bucket k ct = None) ->
  let files := regular_files od (st_fs (ran created)) in
  process w (JStr b) key fid ip od s1 =
  (Ret (mk_response 200
     (BOk "DASH conversion successful" (manifest_url (JStr b) (dash_prefix fid)) files
          ("s3://" +:+ b +:+ "/" +:+ dash_prefix fid +:+ "/"))),
   mk_state (st_fs (ran created)) (foldl (store_upload (st_fs (ran created)) od (dash_prefix fid)) (st_s3 s1) files)
     (st_trace (ran created) ++ map (upload_event od (dash_prefix fid)) files)).
Proof.
  intros Hw Hup files. rewrite <-(downloaded_input (ffmpeg_loop RESOLUTIONS)) in Hw. unfold process. rewrite download_step.
  rewrite (mbind_Ret_eq _ _ _ files (ran created)).
  2: { rewrite (run_ffmpeg_dash_exit _ _ _ _ _ downloaded_od downloaded_parent RESOLUTIONS _ _ _ ltac:(by compute) Hw).
       rewrite bool_decide_eq_false_2; [reflexivity|lia]. }
  by rewrite (mbind_Ret_eq _ _ _ tt _ (upload_outputs_ok _ _ _ _ 511 (ran_od created) Hup)).
Qed.
Lemma process_upload_failure err created i e :
  w_ffmpeg w (ffmpeg_cmd ip od (ffmpeg_loop RESOLUTIONS)) (Some (w_object w b key)) = RunExit 0 err created ->
  let files := regular_files od (st_fs (ran created)) in
  first_upload_fault w od (dash_prefix fid) files = Some (i, e) ->
  process w (JStr b) key fid ip od s1 =
  (Raise e, mk_state (st_fs (ran created)) (foldl (store_upload (st_fs (ran created)) od (dash_prefix fid)) (st_s3 s1) (take i files))
     (st_trace (ran created) ++ map (upload_event od (dash_prefix fid)) (take (S i) files))).
Proof.
  intros Hw files Hf. rewrite <-(downloaded_input (ffmpeg_loop RESOLUTIONS)) in Hw. unfold process. rewrite download_step.
  rewrite (mbind_Ret_eq _ _ _ files (ran created)).
  2: { rewrite (run_ffmpeg_dash_exit _ _ _ _ _ downloaded_od downloaded_parent RESOLUTIONS _ _ _ ltac:(by compute) Hw).
       rewrite bool_decide_eq_false_2; [reflexivity|]. intros H; by apply H. }
  apply mbind_Raise_eq. rewrite (upload_outputs_run _ _ _ _ 511 (ran_od created)). cbv zeta.
  fold files. by rewrite Hf.
Qed.
Lemma process_spawn_failure e :
  w_ffmpeg w (ffmpeg_cmd ip od (ffmpeg_loop RESOLUTIONS)) (Some (w_object w b key)) = RunSpawnError e ->
  process w (JStr b) key fid ip od s1 =
  (Raise e, logged (EvRun (ffmpeg_cmd ip od (ffmpeg_loop RESOLUTIONS))) (prepared w od downloaded)).
Proof.
  intros Hw. rewrite <-(downloaded_input (ffmpeg_loop RESOLUTIONS)) in Hw. unfold process. rewrite download_step.
  apply mbind_Raise_eq.
  exact (run_ffmpeg_dash_spawn _ _ _ _ _ downloaded_od downloaded_parent RESOLUTIONS _ ltac:(by compute) Hw).
Qed.
End Process.

(** ** One invocation, end to end *)

Lemma cleared_start key s m :
  ext_allowed (key_ext key) = true ->
  fs_lookup (st_fs s) temp_dir = Some (NDir m) ->
  let fs1 := clear_staging (input_path_of (key_file_id key) (key_ext key)) (output_dir_of (key_file_id key)) (st_fs s) in
  fs_lookup fs1 temp_dir = Some (NDir m) /\
  fs_lookup fs1 (input_path_of (key_file_id key) (key_ext key)) = None /\
  fs_lookup fs1 (output_dir_of (key_file_id key)) = None.
Proof.
  intros Hx Htmp fs1. destruct (temp_dir_not_staging (key_file_id key) (key_ext key)) as (H1 & H2 & H3).
  split; [|apply (clear_staging_gone _ _ _ Hx)]. unfold fs1.
  rewrite clear_staging_other; [done..|by unfold temp_dir].
Qed.

Lemma process_download_failure w b key fid ip od s e :
  w_download w b key = Some e ->
  process w (JStr b) key fid ip od s = (Raise e, logged (EvDownload b key ip) s).
Proof.
  intros Hd. unfold process, s3_download_file. apply mbind_Raise_eq.
  by rewrite (mbind_Ret_eq _ _ _ tt _ (log_step _ s)), Hd.
Qed.

(** C14: a download that raises gives 500 with the exception's text; ffmpeg
    never runs, nothing is uploaded, and the filesystem is the one before
    the call with the staging paths removed. *)
Theorem lambda_handler_download_failure w event s b key e :
  parse_event event = Ret (JStr b, key) -> ext_allowed (key_ext key) = true ->
  fs_ok (input_path_of (key_file_id key) (key_ext key)) (output_dir_of (key_file_id key)) (st_fs s) ->
  no_remove_faults w (input_path_of (key_file_id key) (key_ext key)) (output_dir_of (key_file_id key)) ->
  w_download w b key = Some e ->
  lambda_handler w event s =
  (Ret (error_response e),
   mk_state (clear_staging (input_path_of (key_file_id key) (key_ext key)) (output_dir_of (key_file_id key)) (st_fs s))
     (st_s3 s)
     (st_trace s ++ [EvDownload b key (input_path_of (key_file_id key) (key_ext key));
                     EvPrint ("Error processing video: " +:+ exn_str e)])).
Proof.
  intros Hp Hx Hok Hnf Hd. erewrite lambda_handler_eq; [|exact Hp|].
  2: { eapply (handle_key_process _ _ _ _ _ _ Hx Hok Hnf). by apply process_download_failure. }
  cbv iota. unfold logged, set_fs. cbn [st_fs st_s3 st_trace].
  rewrite clear_staging_idem by done. by rewrite <-app_assoc.
Qed.

Section EndToEnd.
Context (w : world) (event : json) (s : state) (b key : string) (m : Z).
Local Abbreviation fid := (key_file_id key).
Local Abbreviation ip := (input_path_of (key_file_id key) (key_ext key)).
Local Abbreviation od := (output_dir_of (key_file_id key)).
Local Abbreviation cmd := (ffmpeg_cmd ip od (ffmpeg_loop RESOLUTIONS)).
Context (Hp : parse_event event = Ret (JStr b, key)) (Hx : ext_allowed (key_ext key) = true)
        (Hok : fs_ok ip od (st_fs s)) (Hnf : no_remove_faults w ip od)
        (Htmp : fs_lookup (st_fs s) temp_dir = Some (NDir m)) (Hdl : w_download w b key = None).

(** The filesystem the run leaves before the [finally] clause. *)
Abbreviation fs_run created := (run_fs w ip od (w_object w b key) created (clear_staging ip od (st_fs s))).

(** C3: ffmpeg exits with a non-zero status: the handler returns 500
    with ffmpeg's standard error in the body, nothing is uploaded, the
    trace is the download, the run and the printed error, and the
    filesystem is the one before the call with the staging paths gone. *)
Theorem lambda_handler_ffmpeg_failure rc err created :
  w_ffmpeg w cmd (Some (w_object w b key)) = RunExit rc err created -> rc <> 0%Z ->
  let res := lambda_handler w event s in
  res.1 = Ret (mk_response 500 (BStr ("Error: " +:+ ffmpeg_failed_msg err))) /\
  st_s3 res.2 = st_s3 s /\
  st_trace res.2 = st_trace s ++
    [EvDownload b key ip; EvRun cmd; EvPrint ("Error processing video: " +:+ ffmpeg_failed_msg err)] /\
  forall q, fs_lookup (st_fs res.2) q = if staged ip od q then None else fs_lookup (st_fs s) q.
Proof.
  intros Hw Hrc res. destruct (cleared_start key s m Hx Htmp) as (H1 & H2 & H3).
  unfold res. erewrite lambda_handler_eq; [|exact Hp|].
  2: { eapply (handle_key_process _ _ _ _ _ _ Hx Hok Hnf).
       exact (process_ffmpeg_failure _ _ _ Hx Hdl (set_fs (clear_staging ip od) s) m H1 H2 H3 _ _ _ Hw Hrc). }
  cbn [fst snd]. split_and!; [done|done| |].
  - cbn. by rewrite <-!app_assoc.
  - intros q. apply (run_fs_cleared w _ _ Hx).
Qed.

(** C16: ffmpeg cannot be started ([subprocess.run] raises, e.g. the
    binary is missing): the handler returns 500 with the exception's
    text, nothing is uploaded, the trace is the download, the attempted
    run and the printed error, and the filesystem is the one before the
    call with the staging paths gone. *)
Theorem lambda_handler_spawn_failure e :
  w_ffmpeg w cmd (Some (w_object w b key)) = RunSpawnError e ->
  let res := lambda_handler w event s in
  res.1 = Ret (error_response e) /\
  st_s3 res.2 = st_s3 s /\
  st_trace res.2 = st_trace s ++ [EvDownload b key ip; EvRun cmd; EvPrint ("Error processing video: " +:+ exn_str e)] /\
  forall q, fs_lookup (st_fs res.2) q = if staged ip od q then None else fs_lookup (st_fs s) q.
Proof.
  intros Hw res. destruct (cleared_start key s m Hx Htmp) as (H1 & H2 & H3).
  unfold res. erewrite lambda_handler_eq; [|exact Hp|].
  2: { eapply (handle_key_process _ _ _ _ _ _ Hx Hok Hnf).
       exact (process_spawn_failure _ _ _ Hx Hdl (set_fs (clear_staging ip od) s) m H1 H2 H3 _ Hw). }
  cbn [fst snd]. split_and!; [done|done| |].
  - cbn. by rewrite <-!app_assoc.
  - intros q. exact (run_fs_cleared w _ _ Hx _ [] (st_fs s) q).
Qed.

(** C2: ffmpeg exits with 0 and every upload succeeds: the handler
    returns 200 with the regular files ffmpeg wrote, a manifest URL and
    an output prefix that name the source bucket, one upload per file to
    the output bucket under [dash/{stem}/], and leaves the filesystem as
    it was apart from the staging paths. *)
Theorem lambda_handler_success err created :
  w_ffmpeg w cmd (Some (w_object w b key)) = RunExit 0 err created ->
  (forall src k ct, w_upload w src output_bucket k ct = None) ->
  let files := regular_files od (fs_run created) in
  let res := lambda_handler w event s in
  res.1 = Ret (mk_response 200
    (BOk "DASH conversion successful" ("https://" +:+ b +:+ ".s3.amazonaws.com/" +:+ dash_prefix fid +:+ "/manifest.mpd")
         files ("s3://" +:+ b +:+ "/" +:+ dash_prefix fid +:+ "/"))) /\
  st_s3 res.2 = foldl (store_upload (fs_run created) od (dash_prefix fid)) (st_s3 s) files /\
  st_trace res.2 = st_trace s ++ [EvDownload b key ip; EvRun cmd] ++ map (upload_event od (dash_prefix fid)) files /\
  forall q, fs_lookup (st_fs res.2) q = if staged ip od q then None else fs_lookup (st_fs s) q.
Proof.
  intros Hw Hup files res. destruct (cleared_start key s m Hx Htmp) as (H1 & H2 & H3).
  unfold res. erewrite lambda_handler_eq; [|exact Hp|].
  2: { eapply (handle_key_process _ _ _ _ _ _ Hx Hok Hnf).
       exact (process_success _ _ _ Hx Hdl (set_fs (clear_staging ip od) s) m H1 H2 H3 _ _ Hw Hup). }
  cbn [fst snd]. split_and!; [done|done| |].
  - cbn. by rewrite <-!app_assoc.
  - intros q. apply (run_fs_cleared w _ _ Hx).
Qed.

(** C15: ffmpeg succeeds and the upload of the [i]-th listed file raises
    [e]: the handler answers 500 with [e]'s text, the files listed before
    it stay uploaded (no rollback), the trace shows the [i + 1] upload
    attempts, and the staging paths are removed. *)
Theorem lambda_handler_upload_failure err created i e :
  w_ffmpeg w cmd (Some (w_object w b key)) = RunExit 0 err created ->
  let files := regular_files od (fs_run created) in
  first_upload_fault w od (dash_prefix fid) files = Some (i, e) ->
  let res := lambda_handler w event s in
  res.1 = Ret (error_response e) /\
  st_s3 res.2 = foldl (store_upload (fs_run created) od (dash_prefix fid)) (st_s3 s) (take i files) /\
  st_trace res.2 = st_trace s ++ [EvDownload b key ip; EvRun cmd] ++
    map (upload_event od (dash_prefix fid)) (take (S i) files) ++
    [EvPrint ("Error processing video: " +:+ exn_str e)] /\
  forall q, fs_lookup (st_fs res.2) q = if staged ip od q then None else fs_lookup (st_fs s) q.
Proof.
  intros Hw files Hf res. destruct (cleared_start key s m Hx Htmp) as (H1 & H2 & H3).
  unfold res. erewrite lambda_handler_eq; [|exact Hp|].
  2: { eapply (handle_key_process _ _ _ _ _ _ Hx Hok Hnf).
       exact (process_upload_failure _ _ _ Hx Hdl (set_fs (clear_staging ip od) s) m H1 H2 H3 _ _ _ _ Hw Hf). }
  cbn [fst snd]. split_and!; [done|done| |].
  - cbn. by rewrite <-!app_assoc.
  - intros q. apply (run_fs_cleared w _ _ Hx).
Qed.

(** C17: in the 200 response of a successful run, [files] lists each
    regular file ffmpeg wrote directly into the output directory exactly
    once, and nothing else: no file of an earlier run, no subdirectory,
    no file in a subdirectory. *)
Theorem lambda_handler_success_files err created :
  tree_ok (st_fs s) ->
  w_ffmpeg w cmd (Some (w_object w b key)) = RunExit 0 err created ->
  (forall src k ct, w_upload w src output_bucket k ct = None) ->
  exists files,
    (lambda_handler w event s).1 = Ret (mk_response 200
      (BOk "DASH conversion successful" (manifest_url (JStr b) (dash_prefix fid)) files
           ("s3://" +:+ b +:+ "/" +:+ dash_prefix fid +:+ "/"))) /\
    NoDup files /\
    forall n, n ∈ files <-> string_has "/"%char n = false /\ is_file ((list_to_map created : gmap string node) !! n) = true.
Proof.
  intros Ht Hw Hup. destruct (cleared_start key s m Hx Htmp) as (H1 & H2 & H3).
  exists (regular_files od (fs_run created)). split; [|apply (run_fs_files w _ _ Hx), Ht].
  rewrite (lambda_handler_eq _ _ _ _ _ _ _ Hp (handle_key_process _ _ _ _ _ _ Hx Hok Hnf
    (process_success _ _ _ Hx Hdl (set_fs (clear_staging ip od) s) m H1 H2 H3 _ _ Hw Hup))).
  done.
Qed.
(** C10: in a successful run, the object stored for each regular file
    ffmpeg wrote holds exactly the bytes ffmpeg produced under that name
    from the bytes of the source object [w_object w b key], read from
    the output directory with the content type of its name: the package
    in the output bucket is the transcoding of the object the
    notification names. *)
Theorem lambda_handler_uploaded_bytes err created n d :
  w_ffmpeg w cmd (Some (w_object w b key)) = RunExit 0 err created ->
  (forall src k ct, w_upload w src output_bucket k ct = None) ->
  tree_ok (st_fs s) ->
  string_has "/"%char n = false -> (list_to_map created : gmap string node) !! n = Some (NFile d) ->
  st_s3 (lambda_handler w event s).2 !! (output_bucket, dash_prefix fid +:+ "/" +:+ n) =
    Some (mk_object (od +:+ "/" +:+ n) (content_type (od +:+ "/" +:+ n)) d).
Proof.
  intros Hw Hup Ht Hn Hd. destruct (cleared_start key s m Hx Htmp) as (H1 & H2 & H3).
  rewrite (lambda_handler_eq _ _ _ _ _ _ _ Hp (handle_key_process _ _ _ _ _ _ Hx Hok Hnf
    (process_success _ _ _ Hx Hdl (set_fs (clear_staging ip od) s) m H1 H2 H3 _ _ Hw Hup))).
  cbn [fst snd st_s3 set_fs]. rewrite foldl_store_upload.
  - unfold file_data. replace (st_fs (ran w b key _ created)) with (fs_run created) by reflexivity.
    unfold run_fs.
    by rewrite add_created_lookup, Hd by apply output_dir_nonempty.
  - left. apply (run_fs_files w _ _ Hx _ _ _ Ht). rewrite Hd. done.
Qed.
End EndToEnd.

(** ** Witnesses on the sample event [videos/clip.MP4] *)

Definition sample_key : string := "videos/clip.MP4".
Definition sample_ip : string := "/tmp/clip.mp4".
Definition sample_od : string := "/tmp/clip_dash_output".
Definition sample_run_cmd : list string := ffmpeg_cmd sample_ip sample_od (ffmpeg_loop RESOLUTIONS).
Definition sample_created : list (string * node) :=
  [("manifest.mpd", NFile "<MPD/>"); ("init_0.m4s", NFile "ftyp");
   ("segment_0_1.m4s", NFile ("moof" +:+ "bytes of " +:+ sample_key))].

Definition failing_world : world :=
  mk_world (fun _ _ => None) (fun _ _ => RunExit 1 "moov atom not found" [])
    (fun _ _ _ _ => None) (fun _ => None) 18 0 (w_object sample_world).

Lemma sample_paths :
  input_path_of (key_file_id sample_key) (key_ext sample_key) = sample_ip /\
  output_dir_of (key_file_id sample_key) = sample_od /\ key_file_id sample_key = "clip".
Proof. vm_compute. auto. Qed.

Ltac sample_hyps :=
  match goal with
  | |- parse_event _ = _ => reflexivity
  | |- ext_allowed _ = true => reflexivity
  | |- fs_ok _ _ _ => split; [intros ?|]; vm_compute; discriminate
  | |- no_remove_faults _ _ _ => split; [reflexivity|intros ? ?; reflexivity]
  | |- fs_lookup _ _ = _ => reflexivity
  | |- w_download _ _ _ = None => reflexivity
  | |- w_ffmpeg _ _ _ = _ => reflexivity
  | |- forall _ _ _, w_upload _ _ _ _ _ = None => intros ? ? ?; reflexivity
  | |- _ <> 0%Z => discriminate
  | |- w_download _ _ _ = Some _ => reflexivity
  | |- first_upload_fault _ _ _ _ = _ => vm_compute; reflexivity
  end.

Lemma lambda_handler_ffmpeg_failure_witness :
  let res := lambda_handler failing_world (sample_event sample_key) sample_state in
  res.1 = Ret (mk_response 500 (BStr ("Error: " +:+ ffmpeg_failed_msg "moov atom not found"))) /\
  st_s3 res.2 = ∅ /\
  st_trace res.2 = [] ++ [EvDownload "srcbucket" sample_key sample_ip; EvRun sample_run_cmd;
    EvPrint ("Error processing video: " +:+ ffmpeg_failed_msg "moov atom not found")] /\
  forall q, fs_lookup (st_fs res.2) q = if staged sample_ip sample_od q then None else fs_lookup (st_fs sample_state) q.
Proof.
  exact (lambda_handler_ffmpeg_failure failing_world (sample_event sample_key) sample_state "srcbucket" sample_key 511
    ltac:(sample_hyps) ltac:(sample_hyps) ltac:(sample_hyps) ltac:(sample_hyps) ltac:(sample_hyps) ltac:(sample_hyps)
    1 "moov atom not found" [] ltac:(sample_hyps) ltac:(sample_hyps)).
Defined.

Definition sample_files : list string := ["segment_0_1.m4s"; "manifest.mpd"; "init_0.m4s"].

Lemma sample_regular_files :
  regular_files sample_od (run_fs sample_world sample_ip sample_od ("bytes of " +:+ sample_key) sample_created
    (clear_staging sample_ip sample_od (st_fs sample_state))) = sample_files.
Proof. vm_compute. reflexivity. Qed.

Lemma lambda_handler_success_witness :
  let res := lambda_handler sample_world (sample_event sample_key) sample_state in
  res.1 = Ret (mk_response 200
    (BOk "DASH conversion successful" "https://srcbucket.s3.amazonaws.com/dash/clip/manifest.mpd"
         sample_files "s3://srcbucket/dash/clip/")) /\
  st_s3 res.2 = foldl (store_upload (run_fs sample_world sample_ip sample_od ("bytes of " +:+ sample_key)
    sample_created (clear_staging sample_ip sample_od (st_fs sample_state))) sample_od "dash/clip") ∅ sample_files /\
  st_trace res.2 = [] ++ [EvDownload "srcbucket" sample_key sample_ip; EvRun sample_run_cmd] ++
    map (upload_event sample_od "dash/clip") sample_files /\
  forall q, fs_lookup (st_fs res.2) q = if staged sample_ip sample_od q then None else fs_lookup (st_fs sample_state) q.
Proof.
  rewrite <-sample_regular_files.
  exact (lambda_handler_success sample_world (sample_event sample_key) sample_state "srcbucket" sample_key 511
    ltac:(sample_hyps) ltac:(sample_hyps) ltac:(sample_hyps) ltac:(sample_hyps) ltac:(sample_hyps) ltac:(sample_hyps)
    "" sample_created ltac:(sample_hyps) ltac:(sample_hyps)).
Defined.

(** A state with leftovers of an earlier run of the same stem. *)
Definition leftover_state : state :=
  mk_state {[ "/tmp" := NDir 511; sample_ip := NFile "old input"; sample_od := NDir 493;
              sample_od +:+ "/old.m4s" := NFile "old segment" ]} ∅ [].

Lemma lambda_handler_cleanup_witness :
  fs_lookup (st_fs (lambda_handler failing_world (sample_event sample_key) leftover_state).2) sample_ip = None /\
  fs_lookup (st_fs (lambda_handler failing_world (sample_event sample_key) leftover_state).2) sample_od = None.
Proof.
  exact (lambda_handler_cleanup failing_world (sample_event sample_key) leftover_state (JStr "srcbucket") sample_key
    ltac:(sample_hyps) ltac:(sample_hyps) ltac:(sample_hyps) ltac:(sample_hyps)).
Defined.

Definition stale_dir_state : state := mk_state {[ "/tmp" := NDir 511; sample_ip := NDir 493 ]} ∅ [].
Definition stale_file_state : state := mk_state {[ "/tmp" := NDir 511; sample_od := NFile "" ]} ∅ [].

Lemma lambda_handler_stale_input_dir_witness :
  lambda_handler sample_world (sample_event sample_key) stale_dir_state =
  (Ret (error_response (IsADirectoryError sample_ip)),
   logged (EvPrint ("Error processing video: " +:+ exn_str (IsADirectoryError sample_ip))) stale_dir_state).
Proof.
  exact (lambda_handler_stale_input_dir sample_world (sample_event sample_key) stale_dir_state (JStr "srcbucket")
    sample_key ltac:(sample_hyps) ltac:(sample_hyps) 493 ltac:(sample_hyps)).
Defined.

Lemma lambda_handler_stale_output_file_witness :
  lambda_handler sample_world (sample_event sample_key) stale_file_state =
  (Ret (error_response (NotADirectoryError sample_od)),
   logged (EvPrint ("Error processing video: " +:+ exn_str (NotADirectoryError sample_od)))
     (set_fs (delete sample_ip) stale_file_state)).
Proof.
  exact (lambda_handler_stale_output_file sample_world (sample_event sample_key) stale_file_state (JStr "srcbucket")
    sample_key ltac:(sample_hyps) ltac:(sample_hyps) "" ltac:(intros ?; vm_compute; discriminate)
    ltac:(reflexivity) ltac:(sample_hyps)).
Defined.

Lemma run_ffmpeg_dash_empty_witness :
  run_ffmpeg_dash sample_world sample_ip sample_od [] sample_state =
  (Raise (ValueError no_chains_msg), prepared sample_world sample_od sample_state) /\
  st_fs (prepared sample_world sample_od sample_state) = {[ "/tmp" := NDir 511; sample_od := NDir 511 ]}.
Proof.
  split.
  - exact (run_ffmpeg_dash_empty sample_world sample_ip sample_od sample_state 511
      ltac:(reflexivity) ltac:(reflexivity)).
  - vm_compute. reflexivity.
Defined.

Lemma staging_paths_in_tmp_witness :
  ext_allowed (key_ext "uploads/../../etc/passwd.Mov") = true /\
  input_path_of (key_file_id "uploads/../../etc/passwd.Mov") (key_ext "uploads/../../etc/passwd.Mov") = "/tmp/passwd.mov" /\
  path_parent (input_path_of (key_file_id "uploads/../../etc/passwd.Mov") (key_ext "uploads/../../etc/passwd.Mov")) = temp_dir.
Proof.
  split_and!; [reflexivity|vm_compute; reflexivity|].
  apply (staging_paths_in_tmp "uploads/../../etc/passwd.Mov"). reflexivity.
Defined.

Lemma lambda_handler_leftovers_witness :
  lambda_handler sample_world (sample_event sample_key) leftover_state =
  lambda_handler sample_world (sample_event sample_key)
    (set_fs (clear_staging sample_ip sample_od) leftover_state).
Proof.
  exact (lambda_handler_leftovers sample_world (sample_event sample_key) leftover_state (JStr "srcbucket") sample_key
    ltac:(sample_hyps) ltac:(sample_hyps) ltac:(sample_hyps) ltac:(sample_hyps)).
Defined.

Definition not_found : exn :=
  ClientError "An error occurred (404) when calling the HeadObject operation: Not Found".
Definition access_denied : exn :=
  ClientError "An error occurred (AccessDenied) when calling the PutObject operation: Access Denied".

Definition missing_world : world :=
  mk_world (fun _ _ => Some not_found) (w_ffmpeg sample_world)
    (fun _ _ _ _ => None) (fun _ => None) 18 0 (w_object sample_world).

(** The upload of the manifest is refused. *)
Definition upload_fail_world : world :=
  mk_world (fun _ _ => None) (w_ffmpeg sample_world)
    (fun _ _ k _ => if bool_decide (k = "dash/clip/manifest.mpd") then Some access_denied else None)
    (fun _ => None) 18 0 (w_object sample_world).

Lemma lambda_handler_download_failure_witness :
  lambda_handler missing_world (sample_event sample_key) leftover_state =
  (Ret (error_response not_found),
   mk_state (clear_staging sample_ip sample_od (st_fs leftover_state)) ∅
     [EvDownload "srcbucket" sample_key sample_ip; EvPrint ("Error processing video: " +:+ exn_str not_found)]).
Proof.
  exact (lambda_handler_download_failure missing_world (sample_event sample_key) leftover_state "srcbucket" sample_key
    not_found ltac:(sample_hyps) ltac:(sample_hyps) ltac:(sample_hyps) ltac:(sample_hyps) ltac:(sample_hyps)).
Defined.

Lemma upload_fail_regular_files :
  regular_files sample_od (run_fs upload_fail_world sample_ip sample_od ("bytes of " +:+ sample_key) sample_created
    (clear_staging sample_ip sample_od (st_fs sample_state))) = sample_files.
Proof. vm_compute. reflexivity. Qed.

Lemma lambda_handler_upload_failure_witness :
  let res := lambda_handler upload_fail_world (sample_event sample_key) sample_state in
  res.1 = Ret (error_response access_denied) /\
  st_s3 res.2 = foldl (store_upload (run_fs upload_fail_world sample_ip sample_od ("bytes of " +:+ sample_key)
    sample_created (clear_staging sample_ip sample_od (st_fs sample_state))) sample_od "dash/clip") ∅ (take 1 sample_files) /\
  st_trace res.2 = [] ++ [EvDownload "srcbucket" sample_key sample_ip; EvRun sample_run_cmd] ++
    map (upload_event sample_od "dash/clip") (take 2 sample_files) ++
    [EvPrint ("Error processing video: " +:+ exn_str access_denied)] /\
  forall q, fs_lookup (st_fs res.2) q = if staged sample_ip sample_od q then None else fs_lookup (st_fs sample_state) q.
Proof.
  rewrite <-upload_fail_regular_files.
  exact (lambda_handler_upload_failure upload_fail_world (sample_event sample_key) sample_state "srcbucket" sample_key 511
    ltac:(sample_hyps) ltac:(sample_hyps) ltac:(sample_hyps) ltac:(sample_hyps) ltac:(sample_hyps) ltac:(sample_hyps)
    "" sample_created 1 access_denied ltac:(sample_hyps) ltac:(sample_hyps)).
Defined.

(** The ffmpeg binary is missing from the deployment package. *)
Definition no_ffmpeg_world : world :=
  mk_world (fun _ _ => None) (fun _ _ => RunSpawnError (FileNotFoundError ffmpeg_path))
    (fun _ _ _ _ => None) (fun _ => None) 18 0 (w_object sample_world).

Lemma lambda_handler_spawn_failure_witness :
  let res := lambda_handler no_ffmpeg_world (sample_event sample_key) leftover_state in
  res.1 = Ret (mk_response 500 (BStr "Error: [Errno 2] No such file or directory: '/var/task/bin/ffmpeg'")) /\
  st_s3 res.2 = ∅ /\
  st_trace res.2 = [] ++ [EvDownload "srcbucket" sample_key sample_ip; EvRun sample_run_cmd;
    EvPrint ("Error processing video: " +:+ exn_str (FileNotFoundError ffmpeg_path))] /\
  forall q, fs_lookup (st_fs res.2) q = if staged sample_ip sample_od q then None else fs_lookup (st_fs leftover_state) q.
Proof.
  exact (lambda_handler_spawn_failure no_ffmpeg_world (sample_event sample_key) leftover_state "srcbucket" sample_key 511
    ltac:(sample_hyps) ltac:(sample_hyps) ltac:(sample_hyps) ltac:(sample_hyps) ltac:(sample_hyps) ltac:(sample_hyps)
    (FileNotFoundError ffmpeg_path) ltac:(reflexivity)).
Defined.

Lemma sample_state_tree_ok : tree_ok (st_fs sample_state).
Proof. intros q v _ H. cbn in H. apply lookup_singleton_Some in H as [<- _]. by exists 493%Z. Qed.

Lemma lambda_handler_success_files_witness :
  exists files,
    (lambda_handler sample_world (sample_event sample_key) sample_state).1 = Ret (mk_response 200
      (BOk "DASH conversion successful" (manifest_url (JStr "srcbucket") "dash/clip") files "s3://srcbucket/dash/clip/")) /\
    NoDup files /\
    forall n, n ∈ files <-> string_has "/"%char n = false /\ is_file ((list_to_map sample_created : gmap string node) !! n) = true.
Proof.
  exact (lambda_handler_success_files sample_world (sample_event sample_key) sample_state "srcbucket" sample_key 511
    ltac:(sample_hyps) ltac:(sample_hyps) ltac:(sample_hyps) ltac:(sample_hyps) ltac:(sample_hyps) ltac:(sample_hyps)
    "" sample_created sample_state_tree_ok ltac:(sample_hyps) ltac:(sample_hyps)).
Defined.

Lemma content_type_by_name_witness :
  content_type (output_dir_of "my.mpd" +:+ "/" +:+ "manifest.mpd") = "application/dash+xml" /\
  content_type (output_dir_of "my.mpd" +:+ "/" +:+ "init_0.m4s") = "video/mp4".
Proof.
  split.
  - rewrite (content_type_by_name _ "manifest.mpd") by (vm_compute; congruence). vm_compute. reflexivity.
  - rewrite (content_type_by_name _ "init_0.m4s") by (vm_compute; congruence). vm_compute. reflexivity.
Defined.

Lemma lambda_handler_uploaded_bytes_witness :
  st_s3 (lambda_handler sample_world (sample_event sample_key) sample_state).2
    !! (output_bucket, "dash/clip/segment_0_1.m4s") =
  Some (mk_object (sample_od +:+ "/segment_0_1.m4s") "video/mp4" ("moof" +:+ "bytes of " +:+ sample_key)).
Proof.
  exact (lambda_handler_uploaded_bytes sample_world (sample_event sample_key) sample_state "srcbucket" sample_key 511
    ltac:(sample_hyps) ltac:(sample_hyps) ltac:(sample_hyps) ltac:(sample_hyps) ltac:(sample_hyps) ltac:(sample_hyps)
    "" sample_created "segment_0_1.m4s" ("moof" +:+ "bytes of " +:+ sample_key)
    ltac:(sample_hyps) ltac:(sample_hyps) sample_state_tree_ok ltac:(reflexivity) ltac:(reflexivity)).
Defined.
