(* ===== verification/Wellformed.v ===== *)
(** * Wellformed: the handler keeps the filesystem a tree and writes
      only its staging paths

    Three facts about a whole invocation, in every world:
    - the filesystem stays a tree ([Fs.tree_ok]) when ffmpeg writes
      plain file names into its output directory;
    - every path other than the input file, the output directory and
      what lies below it keeps its entry ([staged] of Transfer.v); the
      staging paths lie in /tmp ([Transfer.staging_paths_in_tmp]);
    - what an invocation does depends on the filesystem only, so that
      an invocation repeated on the state the first one left gives the
      same response, leaves the same filesystem and object store, and
      makes the same external calls again.
    The proofs compose the per-operation facts of FsWf.v along the
    structure of [handle_key] with the triples of Prelude.v. *)

From S2P Require Import Prelude PyStr PyObj Config FfmpegCmd Fs FsWf RunFfmpeg Handler Cleanup Transfer.
Open Scope stdpp_scope.
Open Scope py_scope.

(** ** The [if p.exists(): remove(p)] steps *)

Lemma preserves_remove_if_exists (I : state -> Prop) rm p :
  preserves I (rm p) -> preserves I (remove_if_exists rm p).
Proof.
  intros Hrm. unfold remove_if_exists. apply preserves_bind; [by intros s|]. intros []; [done|apply preserves_ret].
Qed.

Lemma writes_remove_if_exists X rm p : writes X (rm p) -> writes X (remove_if_exists rm p).
Proof. intros H q v Hq. apply preserves_remove_if_exists, H, Hq. Qed.

Lemma fs_only_remove_if_exists rm p : fs_only (rm p) -> fs_only (remove_if_exists rm p).
Proof.
  intros H. unfold remove_if_exists. apply fs_only_bind; [apply fs_only_path_exists|]. intros []; [done|apply fs_only_ret].
Qed.

Lemma lookup_None_fs_lookup fs p : p <> "/" -> fs !! p = None -> fs_lookup fs p = None.
Proof. intros Hp H. unfold fs_lookup. by rewrite bool_decide_eq_false_2. Qed.

Lemma fs_lookup_None_lookup fs p : fs_lookup fs p = None -> fs !! p = None.
Proof. unfold fs_lookup. by case_bool_decide. Qed.

(** ** The tree invariant *)

Lemma tree_cleanup w ip od : abs_path od = true -> preserves fs_tree (cleanup w ip od).
Proof.
  intros Ha. unfold cleanup. apply preserves_bind; [|intros _];
    apply preserves_remove_if_exists, preserves_try_except; try (intros; apply fs_frame_tree, fs_frame_log).
  - apply tree_os_remove.
  - by apply tree_rmtree.
Qed.

(** After [if output_dir.exists(): rmtree(output_dir)] returns, the output
    directory is gone. *)
Lemma tree_remove_output w od :
  abs_path od = true -> od <> "/" ->
  hoare fs_tree (remove_if_exists (rmtree w) od) (fun _ s => tree_ok (st_fs s) /\ st_fs s !! od = None) (fun _ => fs_tree).
Proof.
  intros Ha Hr s Hs. pose proof (preserves_remove_if_exists _ _ od (tree_rmtree w od Ha) s Hs) as Ht.
  unfold remove_if_exists, path_exists, mbind in *. cbn in *.
  destruct (fs_lookup (st_fs s) od) as [n|] eqn:E; cbn in *; [|by split; [|apply fs_lookup_None_lookup]].
  unfold rmtree in *. rewrite E in *. destruct n; [done|]. destruct (first_fault _ _); [done|].
  split; [done|]. cbn. apply fs_lookup_None_lookup. fold (clear_tree od (st_fs s)).
  by rewrite fs_lookup_clear_tree, bool_decide_eq_true_2.
Qed.

Section Tree.
Context (w : world) (Hflat : flat_outputs w) (fid ext : string) (Hext : ext_allowed ext = true).
Local Abbreviation ip := (input_path_of fid ext).
Local Abbreviation od := (output_dir_of fid).

(** The output directory exists, is fresh and the filesystem a tree. *)
Local Abbreviation od_ready :=
  (fun s : state => tree_ok (st_fs s) /\ fresh_dir (st_fs s) od /\ exists m, fs_lookup (st_fs s) od = Some (NDir m)).

Lemma tree_run_ffmpeg_dash rs :
  hoare (fun s => tree_ok (st_fs s) /\ st_fs s !! od = None) (run_ffmpeg_dash w ip od rs)
        (fun _ => fs_tree) (fun _ => fs_tree).
Proof.
  pose proof (abs_output_dir fid) as Ha. pose proof (output_dir_nonempty fid) as Hne.
  unfold run_ffmpeg_dash. apply (hoare_bind _ _ _ (fun _ => od_ready)).
  { intros s [Ht Hn]. apply (lookup_None_fs_lookup _ _ (output_dir_not_root fid)), (fresh_dir_absent _ _ Ht) in Hn; [|done].
    pose proof (tree_mkdir_p_fuel w (String.length od) od s Ht) as Ht'.
    pose proof (fresh_mkdir_p_fuel w (String.length od) od od Ha (le_n _) s Hn) as Hf'. unfold mkdir_p.
    destruct (mkdir_p_fuel w (String.length od) od s) as [[u|e] s'] eqn:Em; [|done].
    split_and!; [done|done|]. by eapply mkdir_p_fuel_dir. }
  intros _. apply (hoare_bind _ _ _ (fun _ => od_ready)).
  { apply hoare_of_preserves; [|by intros ? ? []].
    repeat apply preserves_and; [apply tree_chmod|by apply fresh_chmod|apply chmod_keeps_dir]. }
  intros _. apply (hoare_bind _ _ _ (fun _ => od_ready)).
  { apply hoare_of_preserves; [|by intros ? ? []]. apply (fs_frame_preserves (fun fs => tree_ok fs /\ fresh_dir fs od /\ exists m, fs_lookup fs od = Some (NDir m))), fs_frame_lift. }
  intros cmd. eapply hoare_bind.
  { eapply hoare_consequence; [apply (tree_subprocess w cmd od Hflat Hne)|by intros ? (?&?&?)|done|done]. }
  intros res. case_bool_decide; [by apply hoare_raise|].
  apply hoare_of_preserves; [apply fs_frame_tree, fs_frame_list_files|done].
Qed.

Lemma tree_process bucket key :
  hoare (fun s => tree_ok (st_fs s) /\ st_fs s !! od = None) (process w bucket key fid ip od)
        (fun _ => fs_tree) (fun _ => fs_tree).
Proof.
  unfold process. apply (hoare_bind _ _ _ (fun _ s => tree_ok (st_fs s) /\ st_fs s !! od = None)).
  { apply hoare_of_preserves; [|by intros ? ? []]. apply preserves_and; [apply tree_download|].
    apply writes_download. apply not_eq_sym, (staging_distinct fid ext Hext). }
  intros _. eapply hoare_bind; [apply tree_run_ffmpeg_dash|]. intros files.
  eapply hoare_bind; [apply hoare_of_preserves; [apply fs_frame_tree, upload_outputs_frame|done]|].
  intros u. apply hoare_ret. by intros ?.
Qed.
End Tree.

Lemma tree_handle_key w bucket key : flat_outputs w -> preserves fs_tree (handle_key w bucket key).
Proof.
  intros Hflat. unfold handle_key. cbv zeta. destruct (ext_allowed (key_ext key)) eqn:Hx; [|apply preserves_ret].
  apply preserves_hoare. eapply hoare_bind; [apply preserves_hoare, preserves_remove_if_exists, tree_os_remove|].
  intros ?. eapply hoare_bind; [apply tree_remove_output; [apply abs_output_dir|apply output_dir_not_root]|].
  intros ?. pose proof (tree_cleanup w (input_path_of (key_file_id key) (key_ext key)) _ (abs_output_dir (key_file_id key))).
  apply (hoare_try_finally _ _ _ (fun _ => fs_tree) (fun _ => fs_tree)).
  - eapply hoare_try_except; [by apply tree_process|]. intros e. by apply hoare_raise.
  - intros ?. by apply hoare_of_preserves.
  - intros ?. by apply hoare_of_preserves.
Qed.

(** When ffmpeg writes plain file names into its output directory, a
    filesystem that is a tree before an invocation is a tree after it,
    whatever the event and whichever step fails. *)
Lemma lambda_handler_tree w event s :
  flat_outputs w -> tree_ok (st_fs s) -> tree_ok (st_fs (lambda_handler w event s).2).
Proof.
  intros Hflat. revert s. unfold lambda_handler, handle. apply (preserves_try_except fs_tree).
  - apply preserves_bind; [apply fs_frame_tree, fs_frame_lift|]. intros bk. by apply tree_handle_key.
  - intros e. apply preserves_bind; [apply fs_frame_tree, fs_frame_log|]. intros _. apply preserves_ret.
Qed.

(** ** What an invocation writes *)

Lemma staged_intro ip od q : q = ip \/ q = od \/ is_under od q = true -> staged ip od q = true.
Proof.
  unfold staged. rewrite !orb_true_iff, !bool_decide_eq_true. tauto.
Qed.

Lemma staged_false ip od q : staged ip od q = false -> q <> ip /\ q <> od /\ is_under od q = false.
Proof.
  unfold staged. intros [[H1%bool_decide_eq_false_1 H2%bool_decide_eq_false_1]%orb_false_iff H3]%orb_false_iff. done.
Qed.

Lemma writes_cleanup w ip od : writes (fun q => staged ip od q = true) (cleanup w ip od).
Proof.
  unfold cleanup. apply writes_bind; [|intros ?]; apply writes_remove_if_exists; writes_split.
  - eapply writes_mono; [apply writes_os_remove|]. intros q Hq. apply staged_intro; auto.
  - eapply writes_mono; [apply writes_rmtree|]. intros q Hq. apply staged_intro; auto.
Qed.

Section Frame.
Context (w : world) (key : string) (Hx : ext_allowed (key_ext key) = true).
Local Abbreviation fid := (key_file_id key).
Local Abbreviation ip := (input_path_of (key_file_id key) (key_ext key)).
Local Abbreviation od := (output_dir_of (key_file_id key)).

(** From the download on, the parent of both staging paths is a
    directory, so that [mkdir] creates the output directory alone. *)
Lemma frame_run_ffmpeg_dash rs q v :
  staged ip od q = false ->
  hoare (fun s => st_fs s !! q = v /\ exists m, fs_lookup (st_fs s) (path_parent od) = Some (NDir m))
        (run_ffmpeg_dash w ip od rs) (fun _ s => st_fs s !! q = v) (fun _ s => st_fs s !! q = v).
Proof.
  intros Hq. assert (Hod : q <> od) by (intros ->; by rewrite staged_intro in Hq by auto).
  unfold run_ffmpeg_dash, mkdir_p. eapply hoare_bind; [by apply mkdir_p_fuel_parent_dir|]. intros u.
  apply (writes_hoare (fun q => staged ip od q = true)); [|by rewrite Hq]. writes_split.
  - eapply writes_mono; [apply writes_chmod|]. intros q' ->. apply staged_intro; auto.
  - eapply writes_mono; [apply writes_subprocess|]. intros q' Hq'. apply staged_intro; auto.
Qed.

Lemma frame_process bucket q v :
  staged ip od q = false -> preserves (fun s => st_fs s !! q = v) (process w bucket key fid ip od).
Proof.
  intros Hq. apply preserves_hoare. unfold process.
  assert (Hip : q <> ip) by (intros ->; by rewrite staged_intro in Hq by auto).
  assert (Hpar : path_parent ip <> ip).
  { rewrite (parent_input_path key Hx). apply (temp_dir_not_staging fid (key_ext key)). }
  apply (hoare_bind _ _ _ (fun _ s => st_fs s !! q = v /\ exists m, fs_lookup (st_fs s) (path_parent od) = Some (NDir m))).
  { assert (H1 : hoare (fun s => st_fs s !! q = v) (s3_download_file w bucket key ip)
                  (fun _ s => st_fs s !! q = v) (fun _ s => st_fs s !! q = v))
      by (apply (writes_hoare (fun q => q = ip)); [apply writes_download|done]).
    assert (H2 : hoare (fun s => st_fs s !! q = v) (s3_download_file w bucket key ip)
                  (fun _ s => exists m, fs_lookup (st_fs s) (path_parent ip) = Some (NDir m)) (fun _ _ => True))
      by (eapply hoare_consequence; [apply (download_parent_dir w bucket key ip Hpar)|done|done|done]).
    eapply hoare_consequence; [apply (hoare_and _ _ _ _ _ _ H1 H2)|done| |by intros _ s' []].
    intros _ s' [H3 H4]. split; [done|]. by rewrite parent_output_dir, <-(parent_input_path key Hx). }
  intros _. eapply hoare_bind; [by apply frame_run_ffmpeg_dash|]. intros files.
  apply (writes_hoare (fun q => staged ip od q = true)); [|by rewrite Hq]. writes_split.
  apply writes_frame, upload_outputs_frame.
Qed.
End Frame.

Lemma writes_handle_key w bucket key :
  writes (fun q => staged (input_path_of (key_file_id key) (key_ext key)) (output_dir_of (key_file_id key)) q = true)
    (handle_key w bucket key).
Proof.
  unfold handle_key. cbv zeta. destruct (ext_allowed (key_ext key)) eqn:Hx; cbn [negb]; [|by writes_split].
  apply writes_bind; [|intros ?]; [|apply writes_bind; [|intros ?]].
  - apply writes_remove_if_exists. eapply writes_mono; [apply writes_os_remove|]. intros q ->. apply staged_intro; auto.
  - apply writes_remove_if_exists. eapply writes_mono; [apply writes_rmtree|]. intros q Hq. apply staged_intro; auto.
  - apply writes_try_finally; [|apply writes_cleanup]. writes_split. intros q v Hq. apply frame_process; [done|].
    by destruct (staged _ _ q).
Qed.

(** C11: an invocation changes no path but the input file, the output
    directory and what lies below it: every other path has the same
    entry, or the same absence of one, before and after, in every world
    and on every outcome. *)
Theorem lambda_handler_frame w event s bucket key q :
  parse_event event = Ret (bucket, key) ->
  staged (input_path_of (key_file_id key) (key_ext key)) (output_dir_of (key_file_id key)) q = false ->
  st_fs (lambda_handler w event s).2 !! q = st_fs s !! q.
Proof.
  intros Hp Hq. revert s. enough (H : forall s0, preserves (fun s => st_fs s !! q = st_fs s0 !! q) (lambda_handler w event)).
  { intros s. by apply (H s s). }
  intros s0. unfold lambda_handler. apply preserves_try_except.
  - intros s Hs. rewrite (handle_eq w event s bucket key Hp). apply writes_handle_key; [by rewrite Hq|done].
  - intros e. apply preserves_bind; [apply (fs_frame_preserves (fun fs => fs !! q = st_fs s0 !! q)), fs_frame_log|].
    intros _. apply preserves_ret.
Qed.

(** ** Running twice *)

Lemma fs_only_process w bucket key fid ip od : fs_only (process w bucket key fid ip od).
Proof. unfold process, run_ffmpeg_dash, upload_outputs, mkdir_p. fs_only_split. Qed.

Lemma fs_only_cleanup w ip od : fs_only (cleanup w ip od).
Proof. unfold cleanup. fs_only_split; apply fs_only_remove_if_exists; fs_only_split. Qed.

Section Twice.
Context (fid ext : string) (Hext : ext_allowed ext = true).
Local Abbreviation ip := (input_path_of fid ext).
Local Abbreviation od := (output_dir_of fid).

Lemma tree_clear_staging fs : tree_ok fs -> fs_ok ip od fs -> tree_ok (clear_staging ip od fs).
Proof.
  intros Ht [Hip _]. unfold clear_staging.
  assert (H1 : tree_ok (delete ip fs)).
  { destruct (fs_lookup fs ip) as [[fd|m]|] eqn:E; [by apply (tree_ok_delete_file _ _ fd)|by destruct (Hip m)|].
    by rewrite delete_id by (by apply fs_lookup_None_lookup). }
  case_bool_decide; [|done]. apply tree_ok_clear_tree; [apply abs_output_dir|done].
Qed.

(** Removing the staging paths from a filesystem that differs from a
    tree without them only at staging paths gives that tree back. *)
Lemma clear_staging_restore fs1 fs2 :
  tree_ok fs1 -> tree_ok fs2 -> fs1 !! ip = None -> fs1 !! od = None ->
  (forall q, staged ip od q = false -> fs2 !! q = fs1 !! q) ->
  clear_staging ip od fs2 = fs1.
Proof.
  intros Ht1 Ht2 Hi1 Ho1 Hfr. pose proof (staging_distinct fid ext Hext) as Hd.
  pose proof (output_dir_nonempty fid) as Hne. pose proof (output_dir_not_root fid) as Hr.
  assert (Hu1 : forall q, is_under od q = true -> fs1 !! q = None)
    by (apply tree_ok_absent_under; [done|done|by apply lookup_None_fs_lookup]).
  apply map_eq. intros q. unfold clear_staging.
  destruct (staged ip od q) eqn:Hs.
  2: { pose proof (staged_false _ _ _ Hs) as (Hq1 & Hq2 & Hq3).
       case_bool_decide; [unfold clear_tree; rewrite map_lookup_filter|];
         rewrite lookup_delete_ne, Hfr by (done || by apply not_eq_sym); [|done].
       destruct (fs1 !! q); [|done]. cbn. rewrite option_guard_True; [done|]. split; [done|]. exact Hq3. }
  unfold staged in Hs. apply orb_true_iff in Hs as [[Hs%bool_decide_eq_true|Hs%bool_decide_eq_true]%orb_true_iff|Hs].
  - subst q. rewrite Hi1. case_bool_decide; [|apply lookup_delete_eq].
    unfold clear_tree. rewrite map_lookup_filter. by rewrite lookup_delete_eq.
  - subst q. rewrite Ho1. case_bool_decide as Hod.
    + unfold clear_tree. rewrite map_lookup_filter_None. right. intros v _ [? _]. done.
    + apply fs_lookup_None_lookup. destruct (fs_lookup _ od); [exfalso; apply Hod; by eexists|done].
  - rewrite Hu1 by done. case_bool_decide as Hod.
    + unfold clear_tree. rewrite map_lookup_filter_None. right. intros v _ [_ Hu]. cbn in Hu. unfold is_under in Hs. congruence.
    + assert (Hq : q <> ip) by (intros ->; by rewrite (is_under_output_input fid ext Hext) in Hs).
      rewrite lookup_delete_ne by done. apply (tree_ok_absent_under fs2 od Ht2 Hne); [|done].
      rewrite <-(fs_lookup_delete_ne fs2 ip od Hd). destruct (fs_lookup _ od); [exfalso; apply Hod; by eexists|done].
Qed.
End Twice.

Lemma fs_only_lambda_handler w event : fs_only (lambda_handler w event).
Proof.
  unfold lambda_handler, handle, handle_key, print. cbv zeta.
  fs_only_split; try apply fs_only_remove_if_exists; auto using fs_only_process, fs_only_cleanup with pyfs.
Qed.

(** ** Repeating an invocation *)

Section Rerun.
Context (w : world) (event : json) (bucket : json) (key : string).
Local Abbreviation fid := (key_file_id key).
Local Abbreviation ip := (input_path_of (key_file_id key) (key_ext key)).
Local Abbreviation od := (output_dir_of (key_file_id key)).
Context (Hp : parse_event event = Ret (bucket, key)) (Hx : ext_allowed (key_ext key) = true)
        (Hnf : no_remove_faults w ip od) (Hflat : flat_outputs w).

Local Abbreviation cleared := (set_fs (clear_staging ip od)).

(** The filesystem one invocation leaves: the one it started from, both
    staging paths removed. *)
Lemma process_restores s r s2 :
  tree_ok (st_fs s) -> fs_ok ip od (st_fs s) ->
  process w bucket key fid ip od (cleared s) = (r, s2) ->
  clear_staging ip od (st_fs s2) = clear_staging ip od (st_fs s).
Proof.
  intros Ht Hok Hpr. destruct (clear_staging_gone fid (key_ext key) (st_fs s) Hx) as [Hi Ho].
  pose proof (tree_clear_staging fid (key_ext key) (st_fs s) Ht Hok) as Ht1.
  apply clear_staging_restore; [done|done| |by apply fs_lookup_None_lookup|by apply fs_lookup_None_lookup|].
  - pose proof (tree_process w Hflat fid (key_ext key) Hx bucket key (cleared s)) as Htp.
    rewrite Hpr in Htp. destruct r; apply Htp; (split; [done|by apply fs_lookup_None_lookup]).
  - intros q Hq. pose proof (frame_process w key Hx bucket q _ Hq (cleared s) eq_refl) as Hf.
    by rewrite Hpr in Hf.
Qed.

(** The filesystem the first invocation leaves: the one it started
    from, both staging paths removed. *)
Lemma lambda_handler_restores s :
  fs_ok ip od (st_fs s) -> tree_ok (st_fs s) ->
  st_fs (lambda_handler w event s).2 = clear_staging ip od (st_fs s).
Proof.
  intros Hok Ht. destruct (process w bucket key fid ip od (cleared s)) as [r s2] eqn:Hpr.
  pose proof (handle_key_process w bucket key s r s2 Hx Hok Hnf Hpr) as Hh.
  rewrite (lambda_handler_eq w event s bucket key _ _ Hp Hh), <-(process_restores s r s2 Ht Hok Hpr).
  by destruct r.
Qed.

(** C12: an invocation repeated on the state the first one left (the same
    event, the same world, no removal failing, a tree-shaped
    filesystem) gives the same response, leaves the same filesystem and
    the same object store, and makes the same external calls again:
    leftovers of the first run change nothing, and storing the same
    objects twice stores them once. *)
Theorem lambda_handler_twice s :
  fs_ok ip od (st_fs s) -> tree_ok (st_fs s) ->
  let s1 := (lambda_handler w event s).2 in
  let s2 := (lambda_handler w event s1).2 in
  (lambda_handler w event s1).1 = (lambda_handler w event s).1 /\
  st_fs s2 = st_fs s1 /\ st_s3 s2 = st_s3 s1 /\
  exists calls, st_trace s1 = st_trace s ++ calls /\ st_trace s2 = st_trace s1 ++ calls.
Proof.
  intros Hok Ht s1 s2. pose proof (lambda_handler_restores s Hok Ht) as Hfs.
  destruct (fs_only_lambda_handler w event (cleared s) s1 (eq_sym Hfs)) as [Hr (Hf & Hs3 & calls & T1 & T2)].
  rewrite <-(lambda_handler_cleared w event s bucket key Hp Hx Hok Hnf) in Hr, Hf, Hs3, T1. fold s1 in Hf, Hs3, T1, T2. fold s2 in Hr, Hf, Hs3, T2.
  split_and!; [done|done| |by exists calls].
  apply map_eq. intros k. by destruct (Hs3 k) as [[_ ->]| ->].
Qed.
End Rerun.

(** ** Witnesses *)

Lemma sample_world_flat : flat_outputs sample_world.
Proof.
  intros cmd [inp|] rc err created; cbn; intros [= <- <- <-]; vm_compute; repeat constructor.
Qed.

(** A file of another extension with the same stem sits beside the
    leftovers of an earlier run. *)
Definition neighbour_state : state :=
  mk_state {[ "/tmp" := NDir 511; "/tmp/clip.mkv" := NFile "other video"; sample_ip := NFile "old input";
              sample_od := NDir 493; sample_od +:+ "/old.m4s" := NFile "old segment" ]} ∅ [].

Lemma lambda_handler_frame_witness :
  st_fs (lambda_handler failing_world (sample_event sample_key) neighbour_state).2 !! "/tmp/clip.mkv" = Some (NFile "other video").
Proof.
  rewrite (lambda_handler_frame failing_world (sample_event sample_key) neighbour_state (JStr "srcbucket") sample_key
    "/tmp/clip.mkv" ltac:(reflexivity) ltac:(vm_compute; reflexivity)).
  reflexivity.
Defined.

Lemma lambda_handler_twice_witness :
  let s1 := (lambda_handler sample_world (sample_event sample_key) neighbour_state).2 in
  let s2 := (lambda_handler sample_world (sample_event sample_key) s1).2 in
  (lambda_handler sample_world (sample_event sample_key) s1).1 =
    (lambda_handler sample_world (sample_event sample_key) neighbour_state).1 /\
  st_fs s2 = st_fs s1 /\ st_s3 s2 = st_s3 s1 /\
  exists calls, st_trace s1 = st_trace neighbour_state ++ calls /\ st_trace s2 = st_trace s1 ++ calls.
Proof.
  exact (lambda_handler_twice sample_world (sample_event sample_key) (JStr "srcbucket") sample_key
    ltac:(sample_hyps) ltac:(sample_hyps) ltac:(sample_hyps) sample_world_flat neighbour_state
    ltac:(sample_hyps) ltac:(apply tree_okb_spec; vm_compute; reflexivity)).
Defined.
