(* ===== verification/Outcome.v ===== *)
(** * Outcome: what the caller and the object store see

    Lines 124-194 of src/lambda_function.py from the outside:
    - the [finally] clause (lines 175-187) never raises and never
      changes the outcome the body determined, nor the object store,
      whichever removal fails (design §7, "Cleanup error");
    - every file the 200 response lists was uploaded: the output bucket
      holds it under [dash/{stem}/{name}] with the content type of its
      name, and the trace records the upload (§4.2, steps 4 and 5);
    - [contract], the abstract promise of §4.2 and §7 (a 400 answer that
      touches nothing for an unsupported extension; otherwise a 500
      answer carrying an exception, or a 200 answer whose files were all
      uploaded, both staging paths removed when they could be), and the
      refinement theorem that [lambda_handler] implements it. *)

From S2P Require Import Prelude PyStr PyObj Config FfmpegCmd Fs FsWf RunFfmpeg Handler Cleanup Transfer.
Open Scope stdpp_scope.
Open Scope py_scope.

(** ** Calls that leave the object store and only extend the trace *)

Definition keeps_store {A} (m : PyM A) : Prop :=
  forall s0, preserves (fun s => st_s3 s = st_s3 s0 /\ st_trace s0 `prefix_of` st_trace s) m.

Lemma keeps_store_ret {A} (a : A) : keeps_store (mret a).
Proof. by intros s0 s. Qed.

Lemma keeps_store_raise {A} e : keeps_store (@mraise state exn A e).
Proof. by intros s0 s. Qed.

Lemma keeps_store_bind {A B} (m : PyM A) (k : A -> PyM B) :
  keeps_store m -> (forall a, keeps_store (k a)) -> keeps_store (mbind m k).
Proof. intros Hm Hk s0. apply preserves_bind; [apply Hm|intros a; apply Hk]. Qed.

Lemma keeps_store_try_except {A} (m : PyM A) h :
  keeps_store m -> (forall e, keeps_store (h e)) -> keeps_store (try_except m h).
Proof. intros Hm Hh s0. apply preserves_try_except; [apply Hm|intros e; apply Hh]. Qed.

Lemma keeps_store_log ev : keeps_store (log ev).
Proof. intros s0 s [H1 H2]. split; [done|]. cbn. by apply prefix_app_r. Qed.

Lemma keeps_store_set_fs {A} (m : PyM A) :
  (forall s, (m s).2 = s \/ exists f, (m s).2 = set_fs f s) -> keeps_store m.
Proof. intros Hm s0 s Hs. by destruct (Hm s) as [->|[f ->]]. Qed.

Lemma keeps_store_os_remove w p : keeps_store (os_remove w p).
Proof. apply keeps_store_set_fs. intros s. unfold os_remove. repeat case_match; eauto. Qed.

Lemma keeps_store_rmtree w d : keeps_store (rmtree w d).
Proof. apply keeps_store_set_fs. intros s. unfold rmtree. repeat case_match; eauto. Qed.

Lemma keeps_store_path_exists p : keeps_store (path_exists p).
Proof. apply keeps_store_set_fs. intros s. by left. Qed.

Create HintDb pystore discriminated.
#[export] Hint Resolve keeps_store_ret keeps_store_raise keeps_store_bind keeps_store_try_except
  keeps_store_log keeps_store_os_remove keeps_store_rmtree keeps_store_path_exists : pystore.

(** ** The [finally] clause *)

Definition no_raise {A} (m : PyM A) : Prop := hoare (fun _ => True) m (fun _ _ => True) (fun _ _ => False).

Lemma no_raise_warn (m : PyM unit) p : no_raise (try_except m (fun e => print (warn_delete p e))).
Proof. intros s _. unfold try_except. by destruct (m s) as [[u|e] s']. Qed.

Lemma no_raise_remove_if_exists rm p : no_raise (rm p) -> no_raise (remove_if_exists rm p).
Proof. intros H s _. unfold remove_if_exists, path_exists, mbind. cbn. case_bool_decide; [by apply H|done]. Qed.

Lemma cleanup_no_raise w ip od : no_raise (cleanup w ip od).
Proof.
  unfold cleanup. apply (hoare_bind _ _ _ (fun _ _ => True)); [|intros _];
    apply no_raise_remove_if_exists, no_raise_warn.
Qed.

Lemma keeps_store_cleanup w ip od : keeps_store (cleanup w ip od).
Proof.
  unfold cleanup, remove_if_exists, print.
  apply keeps_store_bind; [|intros _]; (apply keeps_store_bind; [apply keeps_store_path_exists|]);
    intros []; eauto 6 with pystore.
Qed.

(** C13: the [finally] clause never raises, so that an invocation's
    outcome is the one its body determined, and it never touches the
    object store: in every world, whichever removal fails (a failed
    removal only prints a warning), and from every state. *)
Theorem cleanup_keeps_outcome w ip od {A} (m : PyM A) s :
  (try_finally m (cleanup w ip od) s).1 = (m s).1 /\
  st_s3 (try_finally m (cleanup w ip od) s).2 = st_s3 (m s).2.
Proof.
  unfold try_finally. destruct (m s) as [r s1].
  pose proof (cleanup_no_raise w ip od s1 I) as Hn.
  pose proof (keeps_store_cleanup w ip od s1 s1 (conj eq_refl (reflexivity _))) as [Hk _].
  destruct (cleanup w ip od s1) as [[u|e] s2]; [done|contradiction].
Qed.

(** ** Every listed file was uploaded *)

(** [name] of the output directory is stored under [prefix/name] of the
    output bucket, read from that file, with the content type of its
    name, and the trace records the upload. *)
Definition uploaded (output_dir prefix name : string) (s : state) : Prop :=
  (exists data, st_s3 s !! (output_bucket, prefix +:+ "/" +:+ name) =
    Some (mk_object (output_dir +:+ "/" +:+ name) (content_type (output_dir +:+ "/" +:+ name)) data)) /\
  upload_event output_dir prefix name ∈ st_trace s.

Lemma uploaded_kept {A} (m : PyM A) od prefix n : keeps_store m -> preserves (uploaded od prefix n) m.
Proof.
  intros Hm s [H1 H2]. unfold uploaded. destruct (Hm s s (conj eq_refl (reflexivity _))) as [-> [t Ht]].
  split; [done|]. rewrite Ht. apply elem_of_app. by left.
Qed.

Lemma list_files_post d :
  hoare (fun _ => True) (list_files d)
    (fun files s => files = regular_files d (st_fs s) /\ exists m, fs_lookup (st_fs s) d = Some (NDir m))
    (fun _ _ => True).
Proof.
  intros s _. destruct (fs_lookup (st_fs s) d) as [[|m]|] eqn:E.
  - unfold list_files, iterdir, mbind. by rewrite E.
  - rewrite (list_files_dir d s m E). split; [done|]. by exists m.
  - unfold list_files, iterdir, mbind. by rewrite E.
Qed.

Lemma hoare_true {A} P (m : PyM A) : hoare P m (fun _ _ => True) (fun _ _ => True).
Proof. intros s _. by destruct (m s) as [[a|e] s']. Qed.

Lemma run_ffmpeg_dash_post w ip od rs :
  hoare (fun _ => True) (run_ffmpeg_dash w ip od rs)
    (fun files s => files = regular_files od (st_fs s) /\ exists m, fs_lookup (st_fs s) od = Some (NDir m))
    (fun _ _ => True).
Proof.
  unfold run_ffmpeg_dash.
  do 4 (apply (hoare_bind _ _ _ (fun _ _ => True)); [apply hoare_true|intros ?]).
  case_bool_decide; [by apply hoare_raise|apply list_files_post].
Qed.

Lemma upload_outputs_post w od prefix files :
  hoare (fun s => files = regular_files od (st_fs s) /\ exists m, fs_lookup (st_fs s) od = Some (NDir m))
    (upload_outputs w od prefix) (fun _ s => NoDup files /\ forall n, n ∈ files -> uploaded od prefix n s)
    (fun _ _ => True).
Proof.
  intros s [-> [m Hm]]. rewrite (upload_outputs_run w od prefix s m Hm). cbv zeta.
  destruct (first_upload_fault _ _ _ _) as [[i e]|]; [done|]. split; [apply NoDup_regular_files|].
  intros n Hn. split; cbn; [eexists; by apply foldl_store_upload; left|].
  apply elem_of_app. right. by apply list_elem_of_fmap_2.
Qed.

(** A 200 response lists each file once, and each was uploaded. *)
Definition converted (od prefix : string) (r : response) (s : state) : Prop :=
  forall msg url files out, r = mk_response 200 (BOk msg url files out) ->
  NoDup files /\ forall n, n ∈ files -> uploaded od prefix n s.

Lemma converted_kept {A} (m : PyM A) od prefix r : keeps_store m -> preserves (converted od prefix r) m.
Proof.
  intros Hm s Hs msg url files out Hr. destruct (Hs msg url files out Hr) as [Hnd Hup].
  split; [done|]. intros n Hn. by apply uploaded_kept, Hup.
Qed.

Lemma process_post w bucket key fid ip od :
  hoare (fun _ => True) (process w bucket key fid ip od) (converted od (dash_prefix fid)) (fun _ _ => True).
Proof.
  unfold process. apply (hoare_bind _ _ _ (fun _ _ => True)); [apply hoare_true|intros _].
  eapply hoare_bind; [apply run_ffmpeg_dash_post|intros files].
  eapply hoare_bind; [apply upload_outputs_post|intros u].
  apply hoare_ret. intros s Hs msg url files' out [= _ _ <- _]. done.
Qed.

Lemma handle_key_post w bucket key :
  hoare (fun _ => True) (handle_key w bucket key)
    (converted (output_dir_of (key_file_id key)) (dash_prefix (key_file_id key))) (fun _ _ => True).
Proof.
  unfold handle_key. cbv zeta. destruct (negb _); [apply hoare_ret; by intros s _ ? ? ? ? [=]|].
  do 2 (apply (hoare_bind _ _ _ (fun _ _ => True)); [apply hoare_true|intros _]).
  apply (hoare_try_finally _ _ _ (converted (output_dir_of (key_file_id key)) (dash_prefix (key_file_id key))) (fun _ _ => True)).
  - eapply hoare_try_except; [apply process_post|]. intros e. by apply hoare_raise.
  - intros r. apply hoare_of_preserves; [apply converted_kept, keeps_store_cleanup|done].
  - intros e. apply hoare_true.
Qed.

Lemma lambda_handler_post w event bucket key :
  parse_event event = Ret (bucket, key) ->
  hoare (fun _ => True) (lambda_handler w event)
    (converted (output_dir_of (key_file_id key)) (dash_prefix (key_file_id key))) (fun _ _ => False).
Proof.
  intros Hp s _. pose proof (handle_key_post w bucket key s I) as H.
  unfold lambda_handler, try_except. rewrite (handle_eq w event s bucket key Hp).
  destruct (handle_key w bucket key s) as [[r|e] s1]; [done|]. cbn. by intros ? ? ? ? [=].
Qed.

(** C9: every file the 200 response lists was uploaded: the output
    bucket holds it under [dash/{stem}/{name}] with the object's source
    path and the content type of its name, and the trace records the
    upload; the list names each file once.  In every world and from
    every state. *)
Theorem lambda_handler_uploads w event s bucket key msg url files out :
  parse_event event = Ret (bucket, key) ->
  (lambda_handler w event s).1 = Ret (mk_response 200 (BOk msg url files out)) ->
  NoDup files /\
  forall n, n ∈ files -> uploaded (output_dir_of (key_file_id key)) (dash_prefix (key_file_id key)) n (lambda_handler w event s).2.
Proof.
  intros Hp Hr. pose proof (lambda_handler_post w event bucket key Hp s I) as H.
  destruct (lambda_handler w event s) as [[r|e] s1]; cbn in Hr; [|done]. injection Hr as ->. by apply (H msg url files out).
Qed.

(** ** The contract of the handler *)

(** The 200 answer of §4.2 step 5. *)
Definition ok_response (bucket : json) (fid : string) (files : list string) : response :=
  mk_response 200 (BOk "DASH conversion successful" (manifest_url bucket (dash_prefix fid)) files
    ("s3://" +:+ py_str_json bucket +:+ "/" +:+ dash_prefix fid +:+ "/")).

(** §4.2 step 6: when the staging paths have the right kind and their
    removal does not fail, neither exists afterwards. *)
Definition staging_removed (w : world) (key : string) (s s' : state) : Prop :=
  fs_ok (input_path_of (key_file_id key) (key_ext key)) (output_dir_of (key_file_id key)) (st_fs s) ->
  no_remove_faults w (input_path_of (key_file_id key) (key_ext key)) (output_dir_of (key_file_id key)) ->
  fs_lookup (st_fs s') (input_path_of (key_file_id key) (key_ext key)) = None /\
  fs_lookup (st_fs s') (output_dir_of (key_file_id key)) = None.

(** What §4.2 and §7 promise for one record [bucket], [key], from state
    [s]: the response and the state the invocation may end in. *)
Inductive contract (w : world) (bucket : json) (key : string) (s : state) : response -> state -> Prop :=
| contract_unsupported :
    ext_allowed (key_ext key) = false ->
    contract w bucket key s (mk_response 400 (BStr (unsupported_body (key_ext key) (set_order (w_hash_seed w))))) s
| contract_failed e s' :
    ext_allowed (key_ext key) = true -> staging_removed w key s s' ->
    contract w bucket key s (error_response e) s'
| contract_converted files s' :
    ext_allowed (key_ext key) = true -> staging_removed w key s s' -> NoDup files ->
    (forall n, n ∈ files -> uploaded (output_dir_of (key_file_id key)) (dash_prefix (key_file_id key)) n s') ->
    contract w bucket key s (ok_response bucket (key_file_id key) files) s'.

Lemma process_shape w bucket key fid ip od :
  hoare (fun _ => True) (process w bucket key fid ip od)
    (fun r _ => exists files, r = ok_response bucket fid files) (fun _ _ => True).
Proof.
  unfold process. do 3 (eapply hoare_bind; [apply hoare_true|intros ?]).
  apply hoare_ret. intros s _. by eexists.
Qed.

Lemma handle_key_shape w bucket key :
  ext_allowed (key_ext key) = true ->
  hoare (fun _ => True) (handle_key w bucket key)
    (fun r _ => exists files, r = ok_response bucket (key_file_id key) files) (fun _ _ => True).
Proof.
  intros Hx. unfold handle_key. cbv zeta. rewrite Hx. cbn [negb].
  do 2 (apply (hoare_bind _ _ _ (fun _ _ => True)); [apply hoare_true|intros _]).
  apply (hoare_try_finally _ _ _ (fun r _ => exists files, r = ok_response bucket (key_file_id key) files)
           (fun _ _ => True)).
  - eapply hoare_try_except; [apply process_shape|]. intros e. by apply hoare_raise.
  - intros r. apply hoare_of_preserves; [by intros s|done].
  - intros e. apply hoare_true.
Qed.

Lemma lambda_handler_staging w event s bucket key :
  parse_event event = Ret (bucket, key) -> ext_allowed (key_ext key) = true ->
  staging_removed w key s (lambda_handler w event s).2.
Proof.
  intros Hp Hx Hok Hnf. destruct (handle_key_staging w bucket key s Hx Hok Hnf) as (r & s2 & Hh).
  rewrite (lambda_handler_eq w event s bucket key _ _ Hp Hh).
  destruct r; cbn [fst snd st_fs set_fs print log mmodify mbind mret logged]; apply clear_staging_gone, Hx.
Qed.

(** C8: [lambda_handler] implements [contract]: on every event whose
    first record reads as [bucket] and [key], in every world and from
    every state, it returns (it never raises) a response that the
    contract allows, with a final state the contract allows for it. *)
Theorem lambda_handler_refines w event s bucket key :
  parse_event event = Ret (bucket, key) ->
  exists r, (lambda_handler w event s).1 = Ret r /\ contract w bucket key s r (lambda_handler w event s).2.
Proof.
  intros Hp. destruct (ext_allowed (key_ext key)) eqn:Hx.
  2: { assert (E : lambda_handler w event s =
         (Ret (mk_response 400 (BStr (unsupported_body (key_ext key) (set_order (w_hash_seed w))))), s)).
       { unfold lambda_handler, try_except, handle, mbind, lift. rewrite Hp. cbn. unfold handle_key. by rewrite Hx. }
       rewrite E. eexists. split; [done|]. by constructor. }
  pose proof (lambda_handler_staging w event s bucket key Hp Hx) as Hst.
  pose proof (lambda_handler_post w event bucket key Hp s I) as Hc.
  pose proof (handle_key_shape w bucket key Hx s I) as Hs.
  destruct (handle_key w bucket key s) as [[r|e] s1] eqn:Hh;
    rewrite (lambda_handler_eq w event s bucket key _ _ Hp Hh) in Hst, Hc |- *; cbn in *.
  - destruct Hs as [files ->]. eexists. split; [done|].
    destruct (Hc _ _ _ _ eq_refl). by constructor.
  - eexists. split; [done|]. by constructor.
Qed.

(** ** Witnesses *)

Lemma lambda_handler_uploads_witness :
  NoDup sample_files /\
  forall n, n ∈ sample_files ->
  uploaded (output_dir_of (key_file_id sample_key)) (dash_prefix (key_file_id sample_key)) n
    (lambda_handler sample_world (sample_event sample_key) sample_state).2.
Proof.
  apply (lambda_handler_uploads sample_world (sample_event sample_key) sample_state (JStr "srcbucket") sample_key
    "DASH conversion successful" (manifest_url (JStr "srcbucket") "dash/clip") sample_files "s3://srcbucket/dash/clip/");
    [reflexivity|vm_compute; reflexivity].
Defined.

Lemma lambda_handler_refines_witness :
  exists r, (lambda_handler upload_fail_world (sample_event sample_key) leftover_state).1 = Ret r /\
  contract upload_fail_world (JStr "srcbucket") sample_key leftover_state r
    (lambda_handler upload_fail_world (sample_event sample_key) leftover_state).2.
Proof. apply (lambda_handler_refines upload_fail_world (sample_event sample_key) leftover_state); reflexivity. Defined.
